(** * MegaEmu release scripts: artifact integrity and signing pipeline

    A shallow embedding of the hashing, signing, verification and
    distribution-gating code of
      - [scripts/manage_security.py]  ([calculate_hashes], [sign_file],
        [verify_file], [main]),
      - [scripts/manage_dist.py]      ([collect_packages], [verify_packages],
        [main]),
      - [scripts/manage_package.py]   ([verify_package]),
    followed by the properties of the specification that concern them.

    Python functions become computations in a small state / exception /
    output monad [M] over a [World] (the file system and the outcomes of
    external collaborators).  The cryptographic and codec libraries
    ([hashlib], [cryptography.hazmat], [json], [base64]) are an interface,
    [Backend]; every call into them that matters is recorded as an [event].

    Conventions: bytes and text are both [string], and a text whose words
    matter is asked to be ASCII, where every encoding agrees; paths are
    POSIX paths and a world holds regular files that can be read, so
    [os.path.exists] and [os.path.isfile] both ask whether the file is
    there; the three
    configuration dictionaries are records holding the entries that the
    modelled functions read; a block of a function that can [return] is a
    computation of an [option]: [Some v] for [return v], [None] to fall
    through. *)

From Stdlib Require Import String Ascii List ZArith Bool Lia.
From stdpp Require Import base gmap strings list.

Set Warnings "-abstract-large-number".

Open Scope string_scope.
Open Scope list_scope.

(** ** Python runtime *)

Module Py.

(** Exceptions that the modelled code can meet.  [PermissionError] is the
    one of a file that cannot be opened (errno 13), [NotPermittedError] the
    [PermissionError] of an operation on a file of another owner
    (errno 1). *)
Inductive exn : Type :=
| FileNotFoundError (path : string)
| PermissionError (path : string)
| KeyError (key : string)
| IndexError
| UnboundLocalError (name : string)
| TypeError (msg : string)
| ValueError (msg : string)
| JSONDecodeError (msg : string)
| InvalidSignature
| NotPermittedError (path : string).

(** [str(e)], as interpolated by the [f'...: {e}'] handlers. *)
Definition str (e : exn) : string :=
  match e with
  | FileNotFoundError p => "[Errno 2] No such file or directory: '" +:+ p +:+ "'"
  | PermissionError p => "[Errno 13] Permission denied: '" +:+ p +:+ "'"
  | KeyError k => "'" +:+ k +:+ "'"
  | IndexError => "list index out of range"
  | UnboundLocalError n => "cannot access local variable '" +:+ n +:+ "'"
  | TypeError m => m
  | ValueError m => m
  | JSONDecodeError m => m
  | InvalidSignature => ""
  | NotPermittedError p => "[Errno 1] Operation not permitted: '" +:+ p +:+ "'"
  end.

(** [cryptography.hazmat.primitives]: hash algorithms and paddings. *)
Inductive hash_alg : Type := SHA256 | SHA512.
Inductive mgf : Type := MGF1 (h : hash_alg).
Inductive salt_len : Type := SaltBytes (n : nat) | MAX_LENGTH.
Inductive padding : Type := PSS (m : mgf) (salt_length : salt_len).

(** Observable actions: text printed, calls into the hashing and signature
    libraries, and hand-overs to a distribution channel. *)
Inductive event : Type :=
| Stdout (line : string)
| Stderr (line : string)
| HashlibNew (algorithm : string)
| HazmatHash (alg : hash_alg)
| RsaSign (message : string) (pad : padding) (alg : hash_alg)
| RsaVerify (signature message : string) (pad : padding) (alg : hash_alg)
| Publish (channel : string).

(** The part of the machine the scripts read and write.  [files] maps a
    path to the bytes of the regular file stored there, which the process
    can read: a file that is there and cannot be opened for reading has no
    place in a world.  [writable] tells whether [open(path, 'w')] succeeds
    and [chmod_ok] whether [os.chmod(path, ...)] does (the process owns
    the file); [entropy] feeds the randomised operations; the remaining
    fields are the answers of collaborators that lie outside the integrity
    pipeline. *)
Record World : Type := mkWorld {
  files : gmap string string;
  writable : string -> bool;
  chmod_ok : string -> bool;
  entropy : nat;
  glob_dist : string -> list string;
  channel_ok : string -> bool;
  setup_ok : string -> bool
}.

Definition set_files (w : World) (fs : gmap string string) : World :=
  {| files := fs; writable := writable w; chmod_ok := chmod_ok w;
     entropy := entropy w;
     glob_dist := glob_dist w; channel_ok := channel_ok w;
     setup_ok := setup_ok w |}.

Definition next_entropy (w : World) : World :=
  {| files := files w; writable := writable w; chmod_ok := chmod_ok w;
     entropy := S (entropy w);
     glob_dist := glob_dist w; channel_ok := channel_ok w;
     setup_ok := setup_ok w |}.

Inductive res (A : Type) : Type :=
| Ok (a : A)
| Raise (e : exn).
Arguments Ok {A} a.
Arguments Raise {A} e.

(** A computation: from a world to a result, the world left behind and the
    events emitted, oldest first.  Effects performed before an exception
    stay performed. *)
Definition M (A : Type) : Type := World -> res A * World * list event.

Definition ret {A} (a : A) : M A := fun w => (Ok a, w, []).

Definition bind {A B} (m : M A) (k : A -> M B) : M B :=
  fun w =>
    match m w with
    | (Ok a, w1, l1) =>
        match k a w1 with
        | (r, w2, l2) => (r, w2, l1 ++ l2)
        end
    | (Raise e, w1, l1) => (Raise e, w1, l1)
    end.

Definition raise {A} (e : exn) : M A := fun w => (Raise e, w, []).

(** [try: m  except Exception as e: h e] (also the bare [except:]). *)
Definition try_except {A} (m : M A) (h : exn -> M A) : M A :=
  fun w =>
    match m w with
    | (Ok a, w1, l1) => (Ok a, w1, l1)
    | (Raise e, w1, l1) =>
        match h e w1 with
        | (r, w2, l2) => (r, w2, l1 ++ l2)
        end
    end.

Definition emit (e : event) : M unit := fun w => (Ok tt, w, [e]).
Definition print (s : string) : M unit := emit (Stdout s).
Definition eprint (s : string) : M unit := emit (Stderr s).

Declare Scope py_scope.
Delimit Scope py_scope with py.
Notation "x <- m ;; k" := (bind m (fun x => k))
  (at level 100, m at next level, right associativity) : py_scope.
Notation "m ;; k" := (bind m (fun _ => k))
  (at level 100, right associativity) : py_scope.
Open Scope py_scope.

(** Loops whose body may [return] from the enclosing function: the body
    answers [Some v] for [return v] and [None] to go on. *)
Fixpoint for_ {A R} (xs : list A) (body : A -> M (option R)) : M (option R) :=
  match xs with
  | [] => ret None
  | x :: xs' =>
      r <- body x ;;
      match r with
      | Some v => ret (Some v)
      | None => for_ xs' body
      end
  end.

(** A loop that threads the variables it assigns. *)
Fixpoint for_fold {A S} (xs : list A) (s : S) (body : S -> A -> M S) : M S :=
  match xs with
  | [] => ret s
  | x :: xs' => s' <- body s x ;; for_fold xs' s' body
  end.

(** A loop that does both: [inl s] goes on with the variables [s], [inr v]
    returns [v]. *)
Fixpoint for_state {A S R} (xs : list A) (s : S) (body : S -> A -> M (S + R))
  : M (S + R) :=
  match xs with
  | [] => ret (inl s)
  | x :: xs' =>
      r <- body s x ;;
      match r with
      | inl s' => for_state xs' s' body
      | inr v => ret (inr v)
      end
  end.

(** [block] followed by [rest], unless [block] has returned. *)
Definition or_else {R} (block : M (option R)) (rest : M R) : M R :=
  r <- block ;;
  match r with
  | Some v => ret v
  | None => rest
  end.

(** *** Files *)

Definition os_path_exists (path : string) : M bool :=
  fun w => (Ok (bool_decide (is_Some (files w !! path))), w, []).

Definition os_path_isfile (path : string) : M bool := os_path_exists path.

(** [open(path, 'r'/'rb')] followed by reading the whole file. *)
Definition open_read (path : string) : M string :=
  fun w =>
    match files w !! path with
    | Some c => (Ok c, w, [])
    | None => (Raise (FileNotFoundError path), w, [])
    end.

(** [open(path, 'w'/'wb')] followed by one [write]. *)
Definition open_write (path content : string) : M unit :=
  fun w =>
    if writable w path
    then (Ok tt, set_files w (<[path := content]> (files w)), [])
    else (Raise (PermissionError path), w, []).

(** [os.chmod(path, mode)] on a file that is there; a world has no
    permission bits, so that success changes nothing. *)
Definition os_chmod (path : string) : M unit :=
  fun w =>
    if chmod_ok w path
    then (Ok tt, w, [])
    else (Raise (NotPermittedError path), w, []).

Definition fresh_entropy : M nat :=
  fun w => (Ok (entropy w), next_entropy w, []).

(** The successive results of [f.read(n)] up to the first empty one. *)
Fixpoint read_chunks_fuel (fuel n : nat) (s : string) : list string :=
  match fuel with
  | O => []
  | S fuel' =>
      match s with
      | EmptyString => []
      | _ => substring 0 n s
             :: read_chunks_fuel fuel' n (substring n (String.length s - n) s)
      end
  end.

Definition read_chunks (n : nat) (s : string) : list string :=
  read_chunks_fuel (String.length s) n s.

(** The buffer size of every [f.read(8192)] in the scripts. *)
Definition chunk_size : nat := 8192.

(** *** Strings and paths *)

Definition nl : string := String (ascii_of_nat 10) EmptyString.

(** [s.endswith(suffix)] *)
Definition endswith (s suffix : string) : bool :=
  let n := String.length s in
  let m := String.length suffix in
  Nat.leb m n && String.eqb (substring (n - m) m s) suffix.

Fixpoint has_slash (p : string) : bool :=
  match p with
  | EmptyString => false
  | String c r => Ascii.eqb c "/" || has_slash r
  end.

(** [os.path.basename]: what follows the last slash. *)
Fixpoint basename (p : string) : string :=
  match p with
  | EmptyString => EmptyString
  | String c r => if has_slash p then basename r else p
  end.

(** [os.path.isabs] *)
Definition os_path_isabs (p : string) : bool :=
  match p with
  | EmptyString => false
  | String c _ => Ascii.eqb c "/"
  end.

(** [os.path.join] of two components (POSIX). *)
Definition os_path_join (a b : string) : string :=
  if os_path_isabs b then b
  else if String.eqb a "" || endswith a "/" then a +:+ b
  else a +:+ "/" +:+ b.

(** The blank characters of [str.strip] and [str.split] below 128. *)
Definition is_space (c : ascii) : bool :=
  let n := nat_of_ascii c in
  Nat.leb 9 n && Nat.leb n 13 || Nat.leb 28 n && Nat.leb n 32.

Fixpoint lstrip (s : string) : string :=
  match s with
  | EmptyString => EmptyString
  | String c r => if is_space c then lstrip r else s
  end.

Fixpoint take_word (s : string) : string :=
  match s with
  | EmptyString => EmptyString
  | String c r => if is_space c then EmptyString else String c (take_word r)
  end.

(** [s.strip().split()[0]]: the first run of non-blank characters, for a
    text of ASCII characters.  For other bytes what a text-mode [read]
    gives depends on the encoding of the locale, which a world does not
    have: statements about what is read from a digest file ask for an
    ASCII text. *)
Definition first_field (s : string) : M string :=
  match take_word (lstrip s) with
  | EmptyString => raise IndexError
  | word => ret word
  end.

(** *** Libraries

    What the scripts use of [hashlib], [cryptography], [secrets], [json]
    and [base64].  A loader or decoder answers [None] where the Python
    function raises, and the field named after it with [_error] is the
    exception it then raises, with the message of the library;
    [rsa_sign_error] is the exception that [private_key.sign] raises for
    a key that cannot sign with the padding asked for (one too short for
    it), if any.  [json_load] reads the documents that [json_dump] writes,
    objects from strings to strings.  The last argument of
    [generate_private_key], [rsa_sign] and [token_bytes] is the randomness
    they draw. *)

Class Backend : Type := {
  (* hashlib *)
  hashlib_state : Type;
  hashlib_new : string -> hashlib_state;
  hashlib_update : hashlib_state -> string -> hashlib_state;
  hashlib_hexdigest : hashlib_state -> string;
  (* cryptography.hazmat.primitives.hashes *)
  hazmat_state : Type;
  hazmat_Hash : hash_alg -> hazmat_state;
  hazmat_update : hazmat_state -> string -> hazmat_state;
  hazmat_finalize : hazmat_state -> string;
  (* cryptography.hazmat.primitives.serialization and asymmetric.rsa *)
  private_key : Type;
  public_key : Type;
  generate_private_key : nat -> nat -> private_key;
  public_key_of : private_key -> public_key;
  private_bytes : private_key -> string;
  public_bytes : public_key -> string;
  load_pem_private_key : string -> option private_key;
  load_pem_private_key_error : string -> exn;
  load_pem_public_key : string -> option public_key;
  load_pem_public_key_error : string -> exn;
  rsa_sign : private_key -> string -> padding -> hash_alg -> nat -> string;
  rsa_sign_error : private_key -> string -> padding -> hash_alg -> option exn;
  rsa_verify : public_key -> string -> string -> padding -> hash_alg -> bool;
  (* secrets, json, base64 *)
  token_bytes : nat -> nat -> string;
  json_dump : gmap string string -> string;
  json_load : string -> option (gmap string string);
  json_load_error : string -> exn;
  b64encode : string -> string;
  b64decode : string -> option string;
  b64decode_error : string -> exn
}.

Section Calls.
Context `{Backend}.

(** [hash_obj = hashlib.new(algorithm)], then the file read in chunks of
    8192 bytes into it, then [hexdigest()]. *)
Definition hashlib_file (algorithm path : string) : M string :=
  emit (HashlibNew algorithm) ;;
  content <- open_read path ;;
  ret (hashlib_hexdigest
         (fold_left hashlib_update (read_chunks chunk_size content)
                    (hashlib_new algorithm))).

(** [hasher = hashes.Hash(alg)], the file read in chunks into it, then
    [finalize()]. *)
Definition hazmat_file (alg : hash_alg) (path : string) : M string :=
  emit (HazmatHash alg) ;;
  content <- open_read path ;;
  ret (hazmat_finalize
         (fold_left hazmat_update (read_chunks chunk_size content)
                    (hazmat_Hash alg))).

Definition load_private (pem : string) : M private_key :=
  match load_pem_private_key pem with
  | Some k => ret k
  | None => raise (load_pem_private_key_error pem)
  end.

Definition load_public (pem : string) : M public_key :=
  match load_pem_public_key pem with
  | Some k => ret k
  | None => raise (load_pem_public_key_error pem)
  end.

(** [private_key.sign(message, pad, alg)] *)
Definition sign (k : private_key) (message : string) (pad : padding)
    (alg : hash_alg) : M string :=
  emit (RsaSign message pad alg) ;;
  match rsa_sign_error k message pad alg with
  | Some e => raise e
  | None =>
      seed <- fresh_entropy ;;
      ret (rsa_sign k message pad alg seed)
  end.

(** [public_key.verify(signature, message, pad, alg)] *)
Definition verify (k : public_key) (signature message : string)
    (pad : padding) (alg : hash_alg) : M unit :=
  emit (RsaVerify signature message pad alg) ;;
  if rsa_verify k signature message pad alg
  then ret tt
  else raise InvalidSignature.

Definition json_load_file (path : string) : M (gmap string string) :=
  text <- open_read path ;;
  match json_load text with
  | Some d => ret d
  | None => raise (json_load_error text)
  end.

Definition base64_b64decode (text : string) : M string :=
  match b64decode text with
  | Some b => ret b
  | None => raise (b64decode_error text)
  end.
End Calls.

(** A collaborator outside the pipeline, known by its answer only. *)
Definition external (name : string) : M bool :=
  fun w => (Ok (setup_ok w name), w, []).

End Py.

Import Py.

(** ** scripts/manage_security.py *)

Module manage_security.

Record SecurityConfig : Type := {
  directories_keys : string;
  directories_hashes : string;
  directories_signatures : string;
  keys_rsa_size : nat;
  keys_rsa_public : string;
  keys_rsa_private : string;
  keys_aes_size : nat;
  keys_aes_file : string;
  hashes_algorithms : list string;
  hashes_extensions : list string;
  signatures_salt_length : nat;
  verification_check_hashes : bool;
  verification_check_signatures : bool
}.

Definition SECURITY_CONFIG : SecurityConfig := {|
  directories_keys := "security/keys";
  directories_hashes := "security/hashes";
  directories_signatures := "security/signatures";
  keys_rsa_size := 4096;
  keys_rsa_public := "rsa_public.pem";
  keys_rsa_private := "rsa_private.pem";
  keys_aes_size := 256;
  keys_aes_file := "aes.key";
  hashes_algorithms := ["sha256"; "sha512"];
  hashes_extensions := [".exe"; ".dll"; ".so"; ".dylib"; ".rom"];
  signatures_salt_length := 64;
  verification_check_hashes := true;
  verification_check_signatures := true
|}.

Definition private_path : string :=
  os_path_join (directories_keys SECURITY_CONFIG)
               (keys_rsa_private SECURITY_CONFIG).

Definition public_path : string :=
  os_path_join (directories_keys SECURITY_CONFIG)
               (keys_rsa_public SECURITY_CONFIG).

Definition aes_path : string :=
  os_path_join (directories_keys SECURITY_CONFIG)
               (keys_aes_file SECURITY_CONFIG).

Definition hash_path (path : string) : string :=
  os_path_join (directories_hashes SECURITY_CONFIG)
               (basename path +:+ ".json").

Definition sig_path (path : string) : string :=
  os_path_join (directories_signatures SECURITY_CONFIG)
               (basename path +:+ ".sig").

(** The padding of both [sign_file] and [verify_file]. *)
Definition pss_sha512 : padding :=
  PSS (MGF1 SHA512) (SaltBytes (signatures_salt_length SECURITY_CONFIG)).

Section Code.
Context `{Backend}.

Definition create_directories : M bool := external "create_directories".
Definition setup_logging : M bool := external "setup_logging".

Definition generate_keys : M bool :=
  try_except
    (print (nl +:+ "Gerando chaves...") ;;
     seed <- fresh_entropy ;;
     let private_key := generate_private_key (keys_rsa_size SECURITY_CONFIG) seed in
     let private_pem := private_bytes private_key in
     let public_key := public_key_of private_key in
     let public_pem := public_bytes public_key in
     open_write private_path private_pem ;;
     os_chmod private_path ;;
     open_write public_path public_pem ;;
     os_chmod public_path ;;
     seed <- fresh_entropy ;;
     let aes_key := token_bytes (keys_aes_size SECURITY_CONFIG / 8) seed in
     open_write aes_path aes_key ;;
     os_chmod aes_path ;;
     print "Chaves geradas com sucesso." ;;
     ret true)
    (fun e => eprint ("Erro ao gerar chaves: " +:+ str e) ;; ret false).

Definition calculate_hashes (path : string) : M (gmap string string) :=
  try_except
    (for_fold (hashes_algorithms SECURITY_CONFIG) ∅
       (fun hashes algorithm =>
          digest <- hashlib_file algorithm path ;;
          ret (<[algorithm := digest]> hashes)))
    (fun e => eprint ("Erro ao calcular hashes: " +:+ str e) ;; ret ∅).

Definition sign_file (path : string) : M (option string) :=
  try_except
    (pem <- open_read private_path ;;
     private_key <- load_private pem ;;
     digest <- hazmat_file SHA512 path ;;
     signature <- sign private_key digest pss_sha512 SHA512 ;;
     ret (Some signature))
    (fun e => eprint ("Erro ao assinar arquivo: " +:+ str e) ;; ret None).

(** The loop [for algorithm in ...] of [verify_file], on the saved and the
    current dictionaries. *)
Definition compare_hashes (saved_hashes current_hashes : gmap string string)
  : M (option bool) :=
  for_ (hashes_algorithms SECURITY_CONFIG)
    (fun algorithm =>
       match saved_hashes !! algorithm with
       | None =>
           print ("Hash " +:+ algorithm +:+ " não encontrado.") ;;
           ret (Some false)
       | Some saved =>
           match current_hashes !! algorithm with
           | None => raise (KeyError algorithm)
           | Some current =>
               if negb (String.eqb saved current) then
                 print ("Hash " +:+ algorithm +:+ " inválido.") ;;
                 ret (Some false)
               else ret None
           end
       end).

(** The [if ... check_hashes] block of [verify_file]. *)
Definition verify_file_hashes (path : string) : M (option bool) :=
  if verification_check_hashes SECURITY_CONFIG then
    present <- os_path_exists (hash_path path) ;;
    if present : bool then
      saved_hashes <- json_load_file (hash_path path) ;;
      current_hashes <- calculate_hashes path ;;
      compare_hashes saved_hashes current_hashes
    else
      print "Arquivo de hashes não encontrado." ;;
      ret (Some false)
  else ret None.

(** The [if ... check_signatures] block of [verify_file]. *)
Definition verify_file_signature (path : string) : M (option bool) :=
  if verification_check_signatures SECURITY_CONFIG then
    pem <- open_read public_path ;;
    public_key <- load_public pem ;;
    present <- os_path_exists (sig_path path) ;;
    if present : bool then
      signature <- open_read (sig_path path) ;;
      digest <- hazmat_file SHA512 path ;;
      try_except
        (verify public_key signature digest pss_sha512 SHA512 ;;
         ret None)
        (fun _ => print "Assinatura inválida." ;; ret (Some false))
    else
      print "Arquivo de assinatura não encontrado." ;;
      ret (Some false)
  else ret None.

Definition verify_file (path : string) : M bool :=
  try_except
    (if negb (existsb (fun ext => endswith path ext)
                      (hashes_extensions SECURITY_CONFIG))
     then ret true
     else
       print (nl +:+ "Verificando arquivo: " +:+ path) ;;
       or_else (verify_file_hashes path)
         (or_else (verify_file_signature path)
            (print "Arquivo verificado com sucesso." ;;
             ret true)))
    (fun e => eprint ("Erro ao verificar arquivo: " +:+ str e) ;; ret false).

Definition usage : M unit :=
  eprint "Uso: manage_security.py <comando> [arquivo]" ;;
  eprint (nl +:+ "Comandos disponíveis:") ;;
  eprint "  init      Cria estrutura de diretórios" ;;
  eprint "  keys      Gera chaves criptográficas" ;;
  eprint "  hash      Calcula hashes de um arquivo" ;;
  eprint "  sign      Assina um arquivo" ;;
  eprint "  verify    Verifica um arquivo".

(** The [hash] command: compute and save the hashes. *)
Definition main_hash (path : string) : M Z :=
  hashes <- calculate_hashes path ;;
  if bool_decide (hashes = ∅) then ret 1%Z
  else
    try_except
      (open_write (hash_path path) (json_dump hashes) ;;
       print ("Hashes salvos em: " +:+ hash_path path) ;;
       ret 0%Z)
      (fun e => eprint ("Erro ao salvar hashes: " +:+ str e) ;; ret 1%Z).

(** The [sign] command: sign and save the signature. *)
Definition main_sign (path : string) : M Z :=
  signature <- sign_file path ;;
  match signature with
  | None => ret 1%Z
  | Some EmptyString => ret 1%Z
  | Some signature =>
      try_except
        (open_write (sig_path path) signature ;;
         print ("Assinatura salva em: " +:+ sig_path path) ;;
         ret 0%Z)
        (fun e => eprint ("Erro ao salvar assinatura: " +:+ str e) ;; ret 1%Z)
  end.

(** [sys.argv] is the argument. *)
Definition main (argv : list string) : M Z :=
  match argv with
  | [] | [_] => usage ;; ret 1%Z
  | _ :: command :: args =>
      if String.eqb command "init" then
        ok <- create_directories ;;
        if negb ok then ret 1%Z
        else
          ok <- setup_logging ;;
          if negb ok then ret 1%Z else ret 0%Z
      else if String.eqb command "keys" then
        ok <- generate_keys ;;
        if negb ok then ret 1%Z else ret 0%Z
      else if existsb (String.eqb command) ["hash"; "sign"; "verify"] then
        match args with
        | [] => eprint "Arquivo não especificado." ;; ret 1%Z
        | path :: _ =>
            isfile <- os_path_isfile path ;;
            if negb isfile then
              eprint "Arquivo não encontrado." ;; ret 1%Z
            else if String.eqb command "hash" then main_hash path
            else if String.eqb command "sign" then main_sign path
            else
              ok <- verify_file path ;;
              if ok : bool then ret 0%Z else ret 1%Z
        end
      else
        eprint "Comando inválido." ;; ret 1%Z
  end.
End Code.

Arguments compare_hashes : simpl never.

End manage_security.

(** ** scripts/manage_dist.py *)

Module manage_dist.

Record DistConfig : Type := {
  packages_patterns : list (string * list (string * string));
  verification_enabled : bool;
  verification_algorithms : list string;
  verification_signature : bool
}.

(** [packages]: per platform, the formats with their glob pattern (the MIME
    types are only used while uploading). *)
Definition DIST_CONFIG : DistConfig := {|
  packages_patterns :=
    [("windows", [("installer", "*.exe"); ("portable", "*.zip")]);
     ("linux", [("deb", "*.deb"); ("rpm", "*.rpm"); ("appimage", "*.AppImage")]);
     ("macos", [("dmg", "*.dmg"); ("pkg", "*.pkg")])];
  verification_enabled := true;
  verification_algorithms := ["sha256"; "sha512"];
  verification_signature := true
|}.

Definition public_pem_path : string := "security/keys/public.pem".

(** The padding of the signature check of [verify_packages]. *)
Definition pss_sha256 : padding := PSS (MGF1 SHA256) MAX_LENGTH.

(** A dictionary from platform to the paths of its packages, in insertion
    order. *)
Definition Packages : Type := list (string * list string).

Section Code.
Context `{Backend}.

Definition create_directories : M bool := external "create_directories".
Definition setup_logging : M bool := external "setup_logging".

(** [Path('package/dist').glob(pattern)] restricted to regular files. *)
Definition glob_files (pattern : string) : M (list string) :=
  fun w =>
    (Ok (filter (fun path => is_Some (files w !! path)) (glob_dist w pattern)),
     w, []).

Definition collect_packages : M Packages :=
  try_except
    (print (nl +:+ "Coletando pacotes...") ;;
     for_fold (packages_patterns DIST_CONFIG) []
       (fun (packages : Packages) '(platform_name, formats) =>
          paths <- for_fold formats []
                     (fun paths '(format_name, pattern) =>
                        found <- glob_files pattern ;;
                        ret (paths ++ found)) ;;
          ret (packages ++ [(platform_name, paths)])))
    (fun e => eprint ("Erro ao coletar pacotes: " +:+ str e) ;; ret []).

(** One turn of the loop over the algorithms; [expected_hash] is the
    variable it leaves assigned. *)
Definition verify_hash (path : string) (expected_hash : option string)
    (algorithm : string) : M (option string + bool) :=
  let hash_path := path +:+ "." +:+ algorithm in
  present <- os_path_exists hash_path ;;
  if negb present then
    print ("Hash " +:+ algorithm +:+ " não encontrado.") ;;
    ret (inr false)
  else
    text <- open_read hash_path ;;
    expected_hash <- first_field text ;;
    actual_hash <- hashlib_file algorithm path ;;
    if negb (String.eqb actual_hash expected_hash) then
      print ("Hash " +:+ algorithm +:+ " inválido.") ;;
      ret (inr false)
    else ret (inl (Some expected_hash)).

(** The [if ... signature] block of the loop body. *)
Definition verify_signature (path : string) (expected_hash : option string)
  : M (option bool) :=
  if verification_signature DIST_CONFIG then
    let sig_path := path +:+ ".sig" in
    present <- os_path_exists sig_path ;;
    if negb present then
      print "Assinatura não encontrada." ;;
      ret (Some false)
    else
      text <- open_read sig_path ;;
      signature <- base64_b64decode text ;;
      pem <- open_read public_pem_path ;;
      public_key <- load_public pem ;;
      try_except
        (message <- match expected_hash with
                    | Some h => ret h
                    | None => raise (UnboundLocalError "expected_hash")
                    end ;;
         verify public_key signature message pss_sha256 SHA256 ;;
         ret None)
        (fun _ => print "Assinatura inválida." ;; ret (Some false))
  else ret None.

(** The body of the loop over the paths: [Some false] is [return False],
    [None] lets the loop go on to the next package. *)
Definition verify_path (path : string) : M (option bool) :=
  print (nl +:+ "Verificando " +:+ basename path +:+ "...") ;;
  r <- for_state (verification_algorithms DIST_CONFIG) None (verify_hash path) ;;
  match r with
  | inr v => ret (Some v)
  | inl expected_hash => verify_signature path expected_hash
  end.

Definition verify_packages (packages : Packages) : M bool :=
  try_except
    (if negb (verification_enabled DIST_CONFIG) then ret true
     else
       print (nl +:+ "Verificando pacotes...") ;;
       or_else
         (for_ packages (fun '(platform_name, paths) => for_ paths verify_path))
         (print (nl +:+ "Todos os pacotes verificados com sucesso.") ;;
          ret true))
    (fun e => eprint ("Erro ao verificar pacotes: " +:+ str e) ;; ret false).

(** The three publishers talk to services outside the pipeline (HTTP,
    ssh/scp, butler); each is one [Publish] hand-over whose outcome the
    world decides. *)
Definition publish (channel : string) (packages : Packages) : M bool :=
  emit (Publish channel) ;;
  fun w => (Ok (channel_ok w channel), w, []).

Definition publish_github : Packages -> M bool := publish "github".
Definition publish_sourceforge : Packages -> M bool := publish "sourceforge".
Definition publish_itch : Packages -> M bool := publish "itch".

Definition usage : M unit :=
  eprint "Uso: manage_dist.py <comando> [plataforma]" ;;
  eprint (nl +:+ "Comandos disponíveis:") ;;
  eprint "  init                  Cria estrutura de diretórios" ;;
  eprint "  publish <plataforma>  Publica pacotes" ;;
  eprint (nl +:+ "Plataformas disponíveis:") ;;
  eprint "  github               GitHub Releases" ;;
  eprint "  sourceforge          SourceForge Files" ;;
  eprint "  itch                 itch.io" ;;
  eprint "  all                  Todas as plataformas".

(** One [if platform == ... : if not publish_...(packages): return 1]. *)
Definition publish_if (platform channel : string)
    (publisher : Packages -> M bool) (packages : Packages) : M (option Z) :=
  if String.eqb platform channel || String.eqb platform "all" then
    ok <- publisher packages ;;
    if negb ok then ret (Some 1%Z) else ret None
  else ret None.

(** The tail of the [publish] command, once the platform is accepted. *)
Definition main_publish (platform : string) : M Z :=
  packages <- collect_packages ;;
  match packages with
  | [] => ret 1%Z
  | _ =>
      ok <- verify_packages packages ;;
      if negb ok then ret 1%Z
      else
        or_else (publish_if platform "github" publish_github packages)
          (or_else (publish_if platform "sourceforge" publish_sourceforge packages)
             (or_else (publish_if platform "itch" publish_itch packages)
                (ret 0%Z)))
  end.

Definition main (argv : list string) : M Z :=
  match argv with
  | [] | [_] => usage ;; ret 1%Z
  | _ :: command :: args =>
      if String.eqb command "init" then
        ok <- create_directories ;;
        if negb ok then ret 1%Z
        else
          ok <- setup_logging ;;
          if negb ok then ret 1%Z else ret 0%Z
      else if String.eqb command "publish" then
        match args with
        | [] => eprint "Erro: plataforma não especificada." ;; ret 1%Z
        | platform :: _ =>
            if negb (existsb (String.eqb platform)
                             ["github"; "sourceforge"; "itch"; "all"])
            then
              eprint ("Erro: plataforma inválida: " +:+ platform) ;;
              ret 1%Z
            else main_publish platform
        end
      else
        eprint "Comando inválido." ;; ret 1%Z
  end.
End Code.

End manage_dist.

(** ** scripts/manage_package.py *)

Module manage_package.

Record PackageConfig : Type := {
  verification_enabled : bool;
  verification_algorithms : list string;
  verification_signature : bool
}.

Definition PACKAGE_CONFIG : PackageConfig := {|
  verification_enabled := true;
  verification_algorithms := ["sha256"; "sha512"];
  verification_signature := true
|}.

Definition private_pem_path : string := "security/keys/private.pem".

(** What a local name of [verify_package] can be bound to: the dictionary
    built by the hashing loop, or a module brought in by an [import]. *)
Inductive object : Type :=
| Dict (d : gmap string string)
| Module_ (name : string).

(** [o[key]] *)
Definition getitem (o : object) (key : string) : M string :=
  match o with
  | Dict d =>
      match d !! key with
      | Some v => ret v
      | None => raise (KeyError key)
      end
  | Module_ _ => raise (TypeError "'module' object is not subscriptable")
  end.

Section Code.
Context `{Backend}.

(** The signature block binds the local name [hashes] a second time:
    [from cryptography.hazmat.primitives import hashes] comes after
    [hashes = {}] in the same function body, so from that statement on
    [hashes] is the module, and [hashes['sha256']], the first argument of
    [private_key.sign], is evaluated on the module. *)
Definition verify_package (package : string) : M bool :=
  try_except
    (if negb (verification_enabled PACKAGE_CONFIG) then ret true
     else
       print (nl +:+ "Verificando pacote " +:+ package +:+ "...") ;;
       d <- for_fold (verification_algorithms PACKAGE_CONFIG) ∅
              (fun hashes algorithm =>
                 digest <- hashlib_file algorithm package ;;
                 let hashes := <[algorithm := digest]> hashes in
                 let hash_path := package +:+ "." +:+ algorithm in
                 open_write hash_path
                   (digest +:+ " " +:+ basename package +:+ nl) ;;
                 ret hashes) ;;
       let hashes := Dict d in
       (if verification_signature PACKAGE_CONFIG then
          let hashes := Module_ "cryptography.hazmat.primitives.hashes" in
          pem <- open_read private_pem_path ;;
          private_key <- load_private pem ;;
          message <- getitem hashes "sha256" ;;
          signature <- sign private_key message
                         (PSS (MGF1 SHA256) MAX_LENGTH) SHA256 ;;
          let sig_path := package +:+ ".sig" in
          open_write sig_path (b64encode signature)
        else ret tt) ;;
       print "Pacote verificado com sucesso." ;;
       ret true)
    (fun e => eprint ("Erro ao verificar pacote: " +:+ str e) ;; ret false).
End Code.

(** *** The command line of the packaging script *)

(** [PACKAGE_CONFIG['formats']]: per system, the names of its formats. *)
Definition PACKAGE_FORMATS : list (string * list string) :=
  [("windows", ["installer"; "portable"]);
   ("linux", ["deb"; "rpm"; "appimage"]);
   ("macos", ["dmg"; "pkg"])].

(** [PACKAGE_CONFIG['files']]: per kind of directory, its glob patterns. *)
Definition PACKAGE_FILES : list (string * list string) :=
  [("bin", ["bin/mega_emu"; "bin/*.dll"; "bin/*.so"; "bin/*.dylib"]);
   ("lib", ["lib/*.dll"; "lib/*.so"; "lib/*.dylib"]);
   ("share", ["share/assets/**/*"; "share/config/**/*"; "share/docs/**/*"])].

(** A dictionary from kind of directory to the files collected for it. *)
Definition Files : Type := list (string * list string).

(** How a run of [main] ends: with the exit code it returns, or with the
    [NameError] of a call to a function that the module does not define,
    which nothing catches. *)
Inductive ending : Type :=
| Exit (code : Z)
| NameError (name : string).

(** [d.get(key)] on a dictionary kept as a list of items. *)
Fixpoint item {V} (key : string) (d : list (string * V)) : option V :=
  match d with
  | [] => None
  | (k, v) :: d' => if String.eqb key k then Some v else item key d'
  end.

Section Main.
Context `{Backend}.

(** What [main] takes from outside the module: [platform.system().lower()],
    what [Path('.').glob(pattern)] finds, and the three builders, which
    copy files and drive external tools (iscc, dpkg-deb, rpmbuild,
    appimagetool, hdiutil, pkgbuild) and answer the path of the package or
    [None]. *)
Variable system : string.
Variable glob_cwd : string -> list string.
Variable create_windows_installer : Files -> M (option string).
Variable create_linux_package : Files -> string -> M (option string).
Variable create_macos_package : Files -> string -> M (option string).

Definition create_directories : M bool := external "create_directories".
Definition setup_logging : M bool := external "setup_logging".

(** [Path('.').glob(pattern)] restricted to regular files. *)
Definition glob_files (pattern : string) : M (list string) :=
  fun w =>
    (Ok (filter (fun path => is_Some (files w !! path)) (glob_cwd pattern)),
     w, []).

Definition collect_files : M Files :=
  try_except
    (print (nl +:+ "Coletando arquivos...") ;;
     for_fold PACKAGE_FILES []
       (fun (files : Files) '(dir_type, patterns) =>
          paths <- for_fold patterns []
                     (fun paths pattern =>
                        found <- glob_files pattern ;;
                        ret (paths ++ found)) ;;
          ret (files ++ [(dir_type, paths)])))
    (fun e => eprint ("Erro ao coletar arquivos: " +:+ str e) ;; ret []).

Definition usage : M unit :=
  eprint "Uso: manage_package.py <comando> [formato]" ;;
  eprint (nl +:+ "Comandos disponíveis:") ;;
  eprint "  init                  Cria estrutura de diretórios" ;;
  eprint "  create <formato>      Cria pacote" ;;
  eprint (nl +:+ "Formatos disponíveis:") ;;
  match item system PACKAGE_FORMATS with
  | Some formats =>
      for_fold formats tt (fun _ format => eprint ("  " +:+ format))
  | None => ret tt
  end.

(** The [if system == ...] cascade of the [create] command: [inl] when the
    call of the undefined [create_windows_portable] raises, else [inr] of
    the value left in [package]. *)
Definition build (format : string) (files : Files)
  : M (ending + option string) :=
  if String.eqb system "windows" then
    if String.eqb format "installer" then
      package <- create_windows_installer files ;; ret (inr package)
    else if String.eqb format "portable" then
      ret (inl (NameError "create_windows_portable"))
    else ret (inr None)
  else if String.eqb system "linux" then
    package <- create_linux_package files format ;; ret (inr package)
  else if String.eqb system "macos" then
    package <- create_macos_package files format ;; ret (inr package)
  else ret (inr None).

(** The tail of the [create] command, once system and format are accepted. *)
Definition main_create (format : string) : M ending :=
  files <- collect_files ;;
  match files with
  | [] => ret (Exit 1)
  | _ =>
      built <- build format files ;;
      match built with
      | inl raised => ret raised
      | inr None => ret (Exit 1)
      | inr (Some EmptyString) => ret (Exit 1)
      | inr (Some package) =>
          ok <- verify_package package ;;
          if negb ok then ret (Exit 1) else ret (Exit 0)
      end
  end.

Definition main (argv : list string) : M ending :=
  match argv with
  | [] | [_] => usage ;; ret (Exit 1)
  | _ :: command :: args =>
      if String.eqb command "init" then
        ok <- create_directories ;;
        if negb ok then ret (Exit 1)
        else
          ok <- setup_logging ;;
          if negb ok then ret (Exit 1) else ret (Exit 0)
      else if String.eqb command "create" then
        match args with
        | [] => eprint "Erro: formato não especificado." ;; ret (Exit 1)
        | format :: _ =>
            match item system PACKAGE_FORMATS with
            | None =>
                eprint ("Sistema não suportado: " +:+ system) ;;
                ret (Exit 1)
            | Some formats =>
                if negb (existsb (String.eqb format) formats) then
                  eprint ("Formato não suportado: " +:+ format) ;;
                  ret (Exit 1)
                else main_create format
            end
        end
      else
        eprint "Comando inválido." ;; ret (Exit 1)
  end.
End Main.

End manage_package.

(** ** A small backend, to run the scripts on examples

    Digests are short checksums, a signature is the key followed by the
    message, and documents are stored through their [Countable] code. *)

Module Example_backend.

Fixpoint checksum (s : string) : nat :=
  match s with
  | EmptyString => 0
  | String c r => nat_of_ascii c + checksum r
  end.

Definition hex_digit (n : nat) : ascii :=
  match n with
  | 0 => "0" | 1 => "1" | 2 => "2" | 3 => "3" | 4 => "4" | 5 => "5"
  | 6 => "6" | 7 => "7" | 8 => "8" | 9 => "9" | 10 => "a" | 11 => "b"
  | 12 => "c" | 13 => "d" | 14 => "e" | _ => "f"
  end%char.

(** Two hexadecimal digits of the checksum, after the tag of the algorithm. *)
Definition hex (tag : string) (s : string) : string :=
  let n := checksum (tag +:+ s) in
  String (hex_digit ((n / 16) mod 16)) (String (hex_digit (n mod 16)) "").

Fixpoint bits_of_pos (p : positive) : string :=
  match p with
  | xH => ""
  | xO q => String "0" (bits_of_pos q)
  | xI q => String "1" (bits_of_pos q)
  end.

Fixpoint pos_of_bits (s : string) : option positive :=
  match s with
  | EmptyString => Some xH
  | String c r =>
      if Ascii.eqb c "0" then xO <$> pos_of_bits r
      else if Ascii.eqb c "1" then xI <$> pos_of_bits r
      else None
  end.

#[export] Instance toy : Backend := {|
  hashlib_state := string * string;
  hashlib_new := fun algorithm => (algorithm, "");
  hashlib_update := fun st chunk => (fst st, snd st +:+ chunk);
  hashlib_hexdigest := fun st => hex (fst st) (snd st);
  hazmat_state := string;
  hazmat_Hash := fun _ => "";
  hazmat_update := fun st chunk => st +:+ chunk;
  hazmat_finalize := fun st => hex "raw" st;
  private_key := string;
  public_key := string;
  generate_private_key := fun _ seed => bits_of_pos (Pos.of_succ_nat seed);
  public_key_of := fun k => k;
  private_bytes := fun k => "PRIVATE " +:+ k;
  public_bytes := fun k => "PUBLIC " +:+ k;
  load_pem_private_key := fun pem =>
    if String.prefix "PRIVATE " pem
    then Some (substring 8 (String.length pem - 8) pem) else None;
  load_pem_private_key_error := fun _ => ValueError "not a private key";
  load_pem_public_key := fun pem =>
    if String.prefix "PUBLIC " pem
    then Some (substring 7 (String.length pem - 7) pem) else None;
  load_pem_public_key_error := fun _ => ValueError "not a public key";
  rsa_sign := fun k message _ _ _ => k +:+ ":" +:+ message;
  rsa_sign_error := fun k _ _ _ =>
    if String.eqb k "short" then Some (ValueError "key too short") else None;
  rsa_verify := fun k signature message _ _ =>
    String.eqb signature (k +:+ ":" +:+ message);
  token_bytes := fun n _ => bits_of_pos (Pos.of_succ_nat n);
  json_dump := fun d => bits_of_pos (encode d);
  json_load := fun text => pos_of_bits text ≫= decode;
  json_load_error := fun _ => JSONDecodeError "not a document";
  b64encode := fun b => "b64:" +:+ b;
  b64decode := fun text =>
    if String.prefix "b64:" text
    then Some (substring 4 (String.length text - 4) text) else None;
  b64decode_error := fun _ => ValueError "not base64"
|}.

(** A world with the given files, where every write succeeds, nothing is
    found by globbing and every collaborator answers yes. *)
Definition world (fs : list (string * string)) : World := {|
  files := list_to_map fs;
  writable := fun _ => true;
  chmod_ok := fun _ => true;
  entropy := 0;
  glob_dist := fun _ => [];
  channel_ok := fun _ => true;
  setup_ok := fun _ => true
|}.

(** [*.zip] finds the names in [.zip]. *)
Definition glob_suffix (dist : list string) (pattern : string) : list string :=
  List.filter
    (fun path => endswith path (substring 1 (String.length pattern - 1) pattern))
    dist.

(** The same, with [dist] as the content of [package/dist]. *)
Definition release (fs : list (string * string)) (dist : list string) : World := {|
  files := list_to_map fs;
  writable := fun _ => true;
  chmod_ok := fun _ => true;
  entropy := 0;
  glob_dist := glob_suffix dist;
  channel_ok := fun _ => true;
  setup_ok := fun _ => true
|}.

Definition toy_hexdigest (algorithm content : string) : string :=
  hashlib_hexdigest
    (fold_left hashlib_update (read_chunks chunk_size content)
               (hashlib_new algorithm)).

(** What the distribution script expects next to a package: both digest
    files and a base64 signature, by the key [key], of the text of the
    sha512 digest. *)
Definition published (path content key : string) : list (string * string) :=
  [(path, content);
   (path +:+ ".sha256", toy_hexdigest "sha256" content +:+ " " +:+ basename path +:+ nl);
   (path +:+ ".sha512", toy_hexdigest "sha512" content +:+ " " +:+ basename path +:+ nl);
   (path +:+ ".sig",
    b64encode (rsa_sign key (toy_hexdigest "sha512" content)
                        (PSS (MGF1 SHA256) MAX_LENGTH) SHA256 0))].

Definition security_keys : list (string * string) :=
  [("security/keys/rsa_private.pem", "PRIVATE k1");
   ("security/keys/rsa_public.pem", "PUBLIC k1")].

End Example_backend.

(** ** Reading a run *)

Definition result {A} (x : res A * World * list event) : res A := x.1.1.
Definition world_after {A} (x : res A * World * list event) : World := x.1.2.
Definition events {A} (x : res A * World * list event) : list event := x.2.

Definition is_sign (e : event) : bool :=
  match e with RsaSign _ _ _ => true | _ => false end.
Definition is_verify (e : event) : bool :=
  match e with RsaVerify _ _ _ _ => true | _ => false end.
Definition is_publish (e : event) : bool :=
  match e with Publish _ => true | _ => false end.
(** The digest that [hashlib] gives for bytes read in chunks, and the raw
    digest that [hashes.Hash(hashes.SHA512())] gives for them. *)
Definition hexdigest `{Backend} (algorithm content : string) : string :=
  hashlib_hexdigest
    (fold_left hashlib_update (read_chunks chunk_size content)
               (hashlib_new algorithm)).

Definition sha512_digest `{Backend} (content : string) : string :=
  hazmat_finalize
    (fold_left hazmat_update (read_chunks chunk_size content)
               (hazmat_Hash SHA512)).

Definition not_sign (e : event) : Prop := is_sign e = false.
Definition not_verify (e : event) : Prop := is_verify e = false.
Definition not_publish (e : event) : Prop := is_publish e = false.

(** ** Vocabulary of the properties *)

Fixpoint last_char (s : string) : option ascii :=
  match s with
  | EmptyString => None
  | String c EmptyString => Some c
  | String _ r => last_char r
  end.

(** [m] leaves the world as it found it. *)
Definition readonly {A} (m : M A) : Prop :=
  forall w, world_after (m w) = w.

(** Every event of [m] satisfies [P]. *)
Definition emits (P : event -> Prop) {A} (m : M A) : Prop :=
  forall w, Forall P (events (m w)).

(** Whatever [m] returns normally satisfies [P]. *)
Definition returns {A} (P : A -> Prop) (m : M A) : Prop :=
  forall w a, result (m w) = Ok a -> P a.

(** [m] leaves the file at [q], or its absence, as it found it. *)
Definition keeps (q : string) {A} (m : M A) : Prop :=
  forall w, files (world_after (m w)) !! q = files w !! q.




Section Vocabulary.
Context `{Backend}.

(** A package passes when the loop body falls through to the next one. *)
Definition passes (w : World) (path : string) : Prop :=
  result (manage_dist.verify_path path w) = Ok None.

(** What [verify_packages] prints for the packages it has looked at. *)
Definition report (w : World) (paths : list string) : list event :=
  concat (map (fun path => events (manage_dist.verify_path path w)) paths).

(** The line of the [except] handler, when the body raised. *)
Definition error_line {A} (r : res A) : list event :=
  match r with
  | Raise e => [Stderr ("Erro ao verificar pacotes: " +:+ str e)]
  | Ok _ => []
  end.

Definition paths_of (packages : manage_dist.Packages) : list string :=
  concat (map snd packages).

(** [<path>.<algorithm>] is there and its first field is [h]. *)
Definition stored (w : World) (path algorithm h : string) : Prop :=
  exists text,
    files w !! (path +:+ "." +:+ algorithm) = Some text
    /\ take_word (lstrip text) = h
    /\ h <> "".

(** Neither a signature check nor its verdict of invalidity. *)
Definition no_signature_verdict (e : event) : Prop :=
  is_verify e = false /\ e <> Stdout "Assinatura inválida.".

Definition not_subscriptable : exn :=
  TypeError "'module' object is not subscriptable".

(** The line that [verify_package] writes to [<package>.<algorithm>]. *)
Definition digest_line (package content algorithm : string) : string :=
  hexdigest algorithm content +:+ " " +:+ basename package +:+ nl.

(** The dictionary returned for a readable file. *)
Definition digests (content : string) : gmap string string :=
  <["sha512" := hexdigest "sha512" content]>
    (<["sha256" := hexdigest "sha256" content]> ∅).

End Vocabulary.

(** ** Worlds of the examples *)

Section Example_worlds.
Import Example_backend.
Import manage_security.

Definition rom_world : World :=
  world (("game.rom", "ROM image") :: security_keys).

(** The archive of the scenario: hashed and signed, then one byte longer. *)
Definition archive_world : World :=
  world (("demo.tar.gz", "release archive") :: security_keys).



Definition rom_signed : World :=
  world_after (main ["manage_security.py"; "sign"; "game.rom"]
    (world_after (main ["manage_security.py"; "hash"; "game.rom"] rom_world))).


(** A ROM whose saved hashes are those of other bytes and which has no
    signature file. *)
Definition rom_unsigned_stale : World :=
  world (("game.rom", "ROM image!")
         :: ("security/hashes/game.rom.json", json_dump (digests "ROM image"))
         :: security_keys).

Definition dist_key : list (string * string) :=
  [("security/keys/public.pem", "PUBLIC k1")].

(** Three packages with their metadata; the second was changed after it
    was hashed and signed. *)
Definition release_one_bad : World :=
  release
    (published "package/dist/mega_emu.zip" "zip bytes" "k1"
     ++ <[0 := ("package/dist/mega_emu.deb", "deb bytes!")]>
          (published "package/dist/mega_emu.deb" "deb bytes" "k1")
     ++ published "package/dist/mega_emu.dmg" "dmg bytes" "k1"
     ++ dist_key)
    ["package/dist/mega_emu.zip"; "package/dist/mega_emu.deb";
     "package/dist/mega_emu.dmg"].

Definition release_batch : manage_dist.Packages :=
  [("windows", ["package/dist/mega_emu.zip"]);
   ("linux", ["package/dist/mega_emu.deb"]);
   ("macos", ["package/dist/mega_emu.dmg"])].

(** The same release with the second package as it was signed goes out to
    the three channels. *)
Definition release_good : World :=
  release
    (published "package/dist/mega_emu.zip" "zip bytes" "k1"
     ++ published "package/dist/mega_emu.deb" "deb bytes" "k1"
     ++ published "package/dist/mega_emu.dmg" "dmg bytes" "k1"
     ++ dist_key)
    ["package/dist/mega_emu.zip"; "package/dist/mega_emu.deb";
     "package/dist/mega_emu.dmg"].


Definition two_bad_batch : manage_dist.Packages :=
  [("windows", ["package/dist/a.zip"; "package/dist/b.zip"])].

Definition package_world : World :=
  world [("package/dist/mega_emu.zip", "zip bytes");
         ("security/keys/private.pem", "PRIVATE k1")].

End Example_worlds.

(** ** Worlds of the further examples *)

Section More_example_worlds.
Import Example_backend.

(** The good release on a day when SourceForge does not answer. *)
Definition release_sourceforge_down : World := {|
  files := files release_good;
  writable := fun _ => true;
  chmod_ok := fun _ => true;
  entropy := 0;
  glob_dist := glob_dist release_good;
  channel_ok := fun channel => negb (String.eqb channel "sourceforge");
  setup_ok := fun _ => true
|}.

(** A machine that holds an old key pair and on which the public key file
    cannot be written. *)
Definition public_key_locked : World := {|
  files := list_to_map security_keys;
  writable := fun path => negb (String.eqb path manage_security.public_path);
  chmod_ok := fun _ => true;
  entropy := 5;
  glob_dist := fun _ => [];
  channel_ok := fun _ => true;
  setup_ok := fun _ => true
|}.

(** A machine whose old private key belongs to another user: the file can
    be written, its mode cannot be set. *)
Definition private_key_of_another : World := {|
  files := list_to_map security_keys;
  writable := fun _ => true;
  chmod_ok := fun path => negb (String.eqb path manage_security.private_path);
  entropy := 5;
  glob_dist := fun _ => [];
  channel_ok := fun _ => true;
  setup_ok := fun _ => true
|}.

(** The signed ROM with, in place of its signature, one made with another
    key. *)
Definition rom_forged : World :=
  set_files rom_signed
    (<[manage_security.sig_path "game.rom" :=
         rsa_sign ("k2" : private_key) (sha512_digest "ROM image")
                  manage_security.pss_sha512 SHA512 0]> (files rom_signed)).

(** The signed ROM on a machine that has lost its public key. *)
Definition rom_without_public_key : World :=
  set_files rom_signed (delete manage_security.public_path (files rom_signed)).

(** A ROM whose saved hashes have the sha256 digest only. *)
Definition rom_half_hashed : World :=
  world (("game.rom", "ROM image")
         :: ("security/hashes/game.rom.json",
             json_dump {["sha256" := hexdigest "sha256" "ROM image"]})
         :: security_keys).


(** Two packages, the first with a digest file that holds blanks only. *)
Definition release_blank_digest : World :=
  release
    [("package/dist/a.zip", "first");
     ("package/dist/a.zip.sha256", " " +:+ nl);
     ("package/dist/b.zip", "second")]
    ["package/dist/a.zip"; "package/dist/b.zip"].

(** Builders that answer with the package of the examples. *)
Definition built_zip : manage_package.Files -> string -> M (option string) :=
  fun _ _ => ret (Some "package/dist/mega_emu.zip").

End More_example_worlds.

(** ** Vocabulary of the further properties *)

(** [m] ends normally in every world, with a value that satisfies [P]. *)
Definition ends {A} (P : A -> Prop) (m : M A) : Prop :=
  forall w, exists a, result (m w) = Ok a /\ P a.

(** The exit codes of the scripts. *)
Definition zero_or_one (code : Z) : Prop := code = 0%Z \/ code = 1%Z.

(** No blank character in [s]. *)
Fixpoint no_blank (s : string) : bool :=
  match s with
  | EmptyString => true
  | String c r => negb (is_space c) && no_blank r
  end.

(** The regular files that the patterns find in [package/dist], pattern
    after pattern. *)
Definition found (w : World) (patterns : list string) : list string :=
  concat (map (fun pattern =>
                 filter (fun path => is_Some (files w !! path))
                        (glob_dist w pattern))
              patterns).

(** The same for a glob of its own. *)
Definition found_by (glob : string -> list string) (w : World)
    (patterns : list string) : list string :=
  concat (map (fun pattern =>
                 filter (fun path => is_Some (files w !! path)) (glob pattern))
              patterns).

(** The three channels, in the order in which [main] tries them. *)
Definition channels : list string := ["github"; "sourceforge"; "itch"].

Section Vocabulary_of_validity.
Context `{Backend}.

(** What [verify_file] asks of a file with a listed extension: saved hashes
    that load and equal the current digests, a public key that loads, and
    a signature file that the key accepts for the raw SHA-512 digest. *)
Definition valid_file (w : World) (path : string) : Prop :=
  exists (text content pem signature : string) (saved : gmap string string)
         (key : public_key),
    files w !! manage_security.hash_path path = Some text
    /\ json_load text = Some saved
    /\ files w !! path = Some content
    /\ (forall a, In a (manage_security.hashes_algorithms
                          manage_security.SECURITY_CONFIG) ->
                  saved !! a = Some (hexdigest a content))
    /\ files w !! manage_security.public_path = Some pem
    /\ load_pem_public_key pem = Some key
    /\ files w !! manage_security.sig_path path = Some signature
    /\ rsa_verify key signature (sha512_digest content)
                  manage_security.pss_sha512 SHA512 = true.

(** What [verify_packages] asks of a package: both digest files, whose
    first field is the current digest, a base64 signature file and a
    public key that accepts it for the text of the sha512 digest. *)
Definition valid_package (w : World) (path : string) : Prop :=
  exists (content text signature pem : string) (key : public_key),
    files w !! path = Some content
    /\ stored w path "sha256" (hexdigest "sha256" content)
    /\ stored w path "sha512" (hexdigest "sha512" content)
    /\ files w !! (path +:+ ".sig") = Some text
    /\ b64decode text = Some signature
    /\ files w !! manage_dist.public_pem_path = Some pem
    /\ load_pem_public_key pem = Some key
    /\ rsa_verify key signature (hexdigest "sha512" content)
                  manage_dist.pss_sha256 SHA256 = true.

(** The publishers that the [publish] command calls for a platform, given
    which channels succeed: in the order github, sourceforge, itch, up to
    and including the first that fails. *)
Fixpoint called (ok : string -> bool) (platform : string)
    (channels : list string) : list event :=
  match channels with
  | [] => []
  | channel :: rest =>
      if String.eqb platform channel || String.eqb platform "all" then
        Publish channel :: (if ok channel then called ok platform rest else [])
      else called ok platform rest
  end.

(** Its exit code. *)
Fixpoint exit_code (ok : string -> bool) (platform : string)
    (channels : list string) : Z :=
  match channels with
  | [] => 0%Z
  | channel :: rest =>
      if String.eqb platform channel || String.eqb platform "all" then
        if ok channel then exit_code ok platform rest else 1%Z
      else exit_code ok platform rest
  end.

(** The key generated by [generate_keys] in a world. *)
Definition generated_key (w : World) : private_key :=
  generate_private_key
    (manage_security.keys_rsa_size manage_security.SECURITY_CONFIG) (entropy w).

End Vocabulary_of_validity.

(** ** Strings *)

Section Strings.

Example endswith_rom : endswith "roms/sonic.rom" ".rom" = true.
Proof. reflexivity. Qed.

Example endswith_archive : endswith "demo.tar.gz" ".so" = false.
Proof. reflexivity. Qed.

Example basename_nested : basename "package/dist/mega_emu.zip" = "mega_emu.zip".
Proof. reflexivity. Qed.

Example basename_plain : basename "game.rom" = "game.rom".
Proof. reflexivity. Qed.

Example join_keys :
  os_path_join "security/keys" "rsa_private.pem" = "security/keys/rsa_private.pem".
Proof. reflexivity. Qed.

Example join_absolute : os_path_join "security/keys" "/etc/key" = "/etc/key".
Proof. reflexivity. Qed.

Example read_chunks_split : read_chunks 3 "abcdefg" = ["abc"; "def"; "g"].
Proof. reflexivity. Qed.

Example first_field_digest_line :
  take_word (lstrip ("  3fa9  mega_emu.zip" +:+ nl)) = "3fa9".
Proof. reflexivity. Qed.

Lemma append_cons (c : ascii) (s t : string) :
  String c s +:+ t = String c (s +:+ t).
Proof. reflexivity. Qed.

Lemma append_empty (t : string) : "" +:+ t = t.
Proof. reflexivity. Qed.

Lemma append_inv_head (s a b : string) : s +:+ a = s +:+ b -> a = b.
Proof.
  induction s as [|c s IH]; rewrite ?append_empty, ?append_cons; intros Heq;
    [exact Heq|].
  injection Heq as Heq. auto.
Qed.

Lemma length_append (a b : string) :
  String.length (a +:+ b) = String.length a + String.length b.
Proof.
  induction a as [|c a IH]; rewrite ?append_empty, ?append_cons; simpl;
    [reflexivity | now rewrite IH].
Qed.

Lemma substring_skip (a b : string) (m : nat) :
  substring (String.length a) m (a +:+ b) = substring 0 m b.
Proof.
  induction a as [|c a IH]; rewrite ?append_empty, ?append_cons; simpl;
    [reflexivity | exact IH].
Qed.

Lemma substring_all (s : string) : substring 0 (String.length s) s = s.
Proof. induction s as [|c s IH]; simpl; [reflexivity | now rewrite IH]. Qed.

Lemma substring_cut (k : nat) : forall s : string,
  k <= String.length s ->
  s = substring 0 k s +:+ substring k (String.length s - k) s.
Proof.
  induction k as [|k IH]; intros s Hk.
  - rewrite Nat.sub_0_r, substring_all. destruct s; reflexivity.
  - destruct s as [|c s]; simpl in Hk; [lia|].
    simpl. rewrite append_cons. f_equal. apply IH. lia.
Qed.

(** [endswith] is Python's: the string is something followed by the
    suffix. *)
Lemma endswith_spec (s suffix : string) :
  endswith s suffix = true <-> exists pre, s = pre +:+ suffix.
Proof.
  unfold endswith. split.
  - intros Hend. apply andb_true_iff in Hend as [Hle Heq].
    apply Nat.leb_le in Hle. apply String.eqb_eq in Heq.
    pose proof (substring_cut (String.length s - String.length suffix) s
                  ltac:(lia)) as Hs.
    exists (substring 0 (String.length s - String.length suffix) s).
    replace (String.length s - (String.length s - String.length suffix))
      with (String.length suffix) in Hs by lia.
    now rewrite Heq in Hs.
  - intros [pre ->]. rewrite length_append.
    replace (String.length pre + String.length suffix - String.length suffix)
      with (String.length pre) by lia.
    rewrite substring_skip, substring_all, String.eqb_refl.
    apply andb_true_iff. split; [apply Nat.leb_le; lia | reflexivity].
Qed.

Lemma last_char_append (a b : string) :
  b <> "" -> last_char (a +:+ b) = last_char b.
Proof.
  intros Hb. induction a as [|c a IH]; rewrite ?append_empty, ?append_cons;
    [reflexivity|].
  rewrite <- IH. simpl. destruct (a +:+ b) eqn:Hab; [|reflexivity].
  destruct a; rewrite ?append_empty, ?append_cons in Hab;
    [contradiction | discriminate].
Qed.

Lemma endswith_last_char (s suffix : string) :
  suffix <> "" -> endswith s suffix = true -> last_char s = last_char suffix.
Proof.
  intros Hne Hend. apply endswith_spec in Hend as [pre ->].
  now apply last_char_append.
Qed.

Lemma has_slash_basename (p : string) : has_slash (basename p) = false.
Proof.
  induction p as [|c p IH]; [reflexivity|].
  change (basename (String c p))
    with (if has_slash (String c p) then basename p else String c p).
  destruct (has_slash (String c p)) eqn:Hs; [exact IH | exact Hs].
Qed.

Lemma has_slash_append (a b : string) :
  has_slash (a +:+ b) = has_slash a || has_slash b.
Proof.
  induction a as [|c a IH]; rewrite ?append_empty, ?append_cons; simpl;
    [reflexivity|].
  rewrite IH. now rewrite orb_assoc.
Qed.

Lemma append_neq_self (s t : string) : t <> "" -> s <> s +:+ t.
Proof.
  intros Ht Heq. apply (f_equal String.length) in Heq.
  rewrite length_append in Heq. destruct t; [contradiction | simpl in Heq; lia].
Qed.

Lemma basename_no_slash (p : string) : has_slash p = false -> basename p = p.
Proof.
  destruct p as [|c p]; [reflexivity|]. intros Hp.
  change (basename (String c p))
    with (if has_slash (String c p) then basename p else String c p).
  now rewrite Hp.
Qed.

Lemma basename_join (dir name : string) :
  has_slash name = false -> basename (dir +:+ "/" +:+ name) = name.
Proof.
  intros Hname. induction dir as [|c dir IH].
  - change ("" +:+ "/" +:+ name) with (String "/" name).
    change (basename (String "/" name)) with (basename name).
    now apply basename_no_slash.
  - rewrite append_cons.
    change (basename (String c (dir +:+ "/" +:+ name)))
      with (if has_slash (String c (dir +:+ "/" +:+ name))
            then basename (dir +:+ "/" +:+ name)
            else String c (dir +:+ "/" +:+ name)).
    replace (has_slash (String c (dir +:+ "/" +:+ name))) with true; [exact IH|].
    simpl. rewrite has_slash_append. simpl. now rewrite !orb_true_r.
Qed.

Lemma isabs_no_slash (name : string) :
  has_slash name = false -> os_path_isabs name = false.
Proof.
  destruct name as [|c name]; simpl; [reflexivity|].
  intros Hname. now apply orb_false_iff in Hname as [Hc _].
Qed.

End Strings.

(** ** Computations that only read, computations that stay quiet *)

Section Frames.

Lemma readonly_ret {A} (a : A) : readonly (ret a).
Proof. intros w. reflexivity. Qed.

Lemma readonly_raise {A} (e : exn) : readonly (@raise A e).
Proof. intros w. reflexivity. Qed.

Lemma readonly_emit (e : event) : readonly (emit e).
Proof. intros w. reflexivity. Qed.

Lemma readonly_exists (p : string) : readonly (os_path_exists p).
Proof. intros w. reflexivity. Qed.

Lemma readonly_open_read (p : string) : readonly (open_read p).
Proof. intros w. unfold open_read. now destruct (files w !! p). Qed.

Lemma readonly_bind {A B} (m : M A) (k : A -> M B) :
  readonly m -> (forall a, readonly (k a)) -> readonly (bind m k).
Proof.
  intros Hm Hk w. unfold bind. specialize (Hm w).
  destruct (m w) as [[[a|e] w1] l1]; unfold world_after in *; simpl in Hm; subst w1; [|reflexivity].
  specialize (Hk a w). destruct (k a w) as [[r w2] l2]. exact Hk.
Qed.

Lemma readonly_try {A} (m : M A) (h : exn -> M A) :
  readonly m -> (forall e, readonly (h e)) -> readonly (try_except m h).
Proof.
  intros Hm Hh w. unfold try_except. specialize (Hm w).
  destruct (m w) as [[[a|e] w1] l1]; unfold world_after in *; simpl in Hm; subst w1; [reflexivity|].
  specialize (Hh e w). destruct (h e w) as [[r w2] l2]. exact Hh.
Qed.

Lemma readonly_for {A R} (xs : list A) (body : A -> M (option R)) :
  (forall x, readonly (body x)) -> readonly (for_ xs body).
Proof.
  intros Hb. induction xs as [|x xs IH]; simpl; [apply readonly_ret|].
  apply readonly_bind; [apply Hb|].
  intros [v|]; [apply readonly_ret | exact IH].
Qed.

Lemma readonly_for_fold {A S} (xs : list A) (body : S -> A -> M S) :
  (forall s x, readonly (body s x)) -> forall s, readonly (for_fold xs s body).
Proof.
  intros Hb. induction xs as [|x xs IH]; intros s; simpl; [apply readonly_ret|].
  apply readonly_bind; [apply Hb | intros s'; apply IH].
Qed.

Lemma readonly_for_state {A S R} (xs : list A) (body : S -> A -> M (S + R)) :
  (forall s x, readonly (body s x)) -> forall s, readonly (for_state xs s body).
Proof.
  intros Hb. induction xs as [|x xs IH]; intros s; simpl; [apply readonly_ret|].
  apply readonly_bind; [apply Hb|].
  intros [s'|v]; [apply IH | apply readonly_ret].
Qed.

Lemma emits_ret P {A} (a : A) : emits P (ret a).
Proof. intros w. constructor. Qed.

Lemma emits_raise P {A} (e : exn) : emits P (@raise A e).
Proof. intros w. constructor. Qed.

Lemma emits_emit (P : event -> Prop) (e : event) : P e -> emits P (emit e).
Proof. intros He w. repeat constructor. exact He. Qed.

Lemma emits_exists P (p : string) : emits P (os_path_exists p).
Proof. intros w. constructor. Qed.

Lemma emits_open_read P (p : string) : emits P (open_read p).
Proof. intros w. unfold open_read. destruct (files w !! p); constructor. Qed.

Lemma emits_open_write P (p c : string) : emits P (open_write p c).
Proof. intros w. unfold open_write. destruct (writable w p); constructor. Qed.

Lemma emits_fresh_entropy P : emits P fresh_entropy.
Proof. intros w. constructor. Qed.

Lemma emits_bind P {A B} (m : M A) (k : A -> M B) :
  emits P m -> (forall a, emits P (k a)) -> emits P (bind m k).
Proof.
  intros Hm Hk w. unfold bind. specialize (Hm w).
  unfold events in *.
  destruct (m w) as [[[a|e] w1] l1]; simpl in *; [|exact Hm].
  specialize (Hk a w1). destruct (k a w1) as [[r w2] l2]. simpl in *.
  apply Forall_app. split; assumption.
Qed.

Lemma emits_try P {A} (m : M A) (h : exn -> M A) :
  emits P m -> (forall e, emits P (h e)) -> emits P (try_except m h).
Proof.
  intros Hm Hh w. unfold try_except. specialize (Hm w).
  unfold events in *.
  destruct (m w) as [[[a|e] w1] l1]; simpl in *; [exact Hm|].
  specialize (Hh e w1). destruct (h e w1) as [[r w2] l2]. simpl in *.
  apply Forall_app. split; assumption.
Qed.

Lemma emits_for P {A R} (xs : list A) (body : A -> M (option R)) :
  (forall x, emits P (body x)) -> emits P (for_ xs body).
Proof.
  intros Hb. induction xs as [|x xs IH]; simpl; [apply emits_ret|].
  apply emits_bind; [apply Hb|].
  intros [v|]; [apply emits_ret | exact IH].
Qed.

Lemma emits_for_fold P {A S} (xs : list A) (body : S -> A -> M S) :
  (forall s x, emits P (body s x)) -> forall s, emits P (for_fold xs s body).
Proof.
  intros Hb. induction xs as [|x xs IH]; intros s; simpl; [apply emits_ret|].
  apply emits_bind; [apply Hb | intros s'; apply IH].
Qed.

Lemma emits_for_state P {A S R} (xs : list A) (body : S -> A -> M (S + R)) :
  (forall s x, emits P (body s x)) -> forall s, emits P (for_state xs s body).
Proof.
  intros Hb. induction xs as [|x xs IH]; intros s; simpl; [apply emits_ret|].
  apply emits_bind; [apply Hb|].
  intros [s'|v]; [apply IH | apply emits_ret].
Qed.

(** Loops over a list that only read stop at the first element whose body
    returns or raises. *)
Lemma for_passes {A R} (body : A -> M (option R)) (w : World) (xs : list A) :
  (forall x, readonly (body x)) ->
  Forall (fun x => result (body x w) = Ok None) xs ->
  for_ xs body w = (Ok None, w, concat (map (fun x => events (body x w)) xs)).
Proof.
  intros Hro Hall. induction Hall as [|x xs Hx Hxs IH]; [reflexivity|].
  simpl. unfold bind. specialize (Hro x w).
  unfold result, world_after, events in *.
  destruct (body x w) as [[r w1] l1]. simpl in *. subst.
  now rewrite IH.
Qed.

Lemma for_stops {A R} (body : A -> M (option R)) (w : World)
    (pre : list A) (p : A) (post : list A) :
  (forall x, readonly (body x)) ->
  Forall (fun x => result (body x w) = Ok None) pre ->
  result (body p w) <> Ok None ->
  for_ (pre ++ p :: post) body w
  = (result (body p w), w,
     concat (map (fun x => events (body x w)) (pre ++ [p]))).
Proof.
  intros Hro Hall Hp. induction Hall as [|x xs Hx Hxs IH].
  - simpl. unfold bind. specialize (Hro p w).
    unfold result, world_after, events in *.
    destruct (body p w) as [[[[v|]|e] w1] l1]; simpl in *; subst;
      rewrite ?app_nil_r; try reflexivity.
    now contradiction Hp.
  - simpl. unfold bind. specialize (Hro x w).
    unfold result, world_after, events in *.
    destruct (body x w) as [[r w1] l1]. simpl in *. subst.
    now rewrite IH.
Qed.

Lemma for_app {A R} (body : A -> M (option R)) (xs ys : list A) (w : World) :
  for_ (xs ++ ys) body w
  = bind (for_ xs body)
         (fun r => match r with
                   | Some v => ret (Some v)
                   | None => for_ ys body
                   end) w.
Proof.
  revert w. induction xs as [|x xs IH]; intros w; simpl.
  - unfold bind. simpl. now destruct (for_ ys body w) as [[r w2] l2].
  - unfold bind at 1 2 3.
    destruct (body x w) as [[[[v|]|e] w1] l1]; simpl; rewrite ?app_nil_r;
      try reflexivity.
    rewrite IH. unfold bind.
    destruct (for_ xs body w1) as [[[[v|]|e] w2] l2]; simpl;
      rewrite ?app_nil_r; try reflexivity.
    destruct (for_ ys body w2) as [[r3 w3] l3]. now rewrite app_assoc.
Qed.

(** A loop within a loop visits the concatenation. *)
Lemma for_nested {K A R} (body : A -> M (option R)) (xss : list (K * list A))
    (w : World) :
  for_ xss (fun '(_, xs) => for_ xs body) w = for_ (concat (map snd xss)) body w.
Proof.
  revert w. induction xss as [|[k xs] xss IH]; intros w; [reflexivity|].
  simpl. rewrite for_app. unfold bind.
  destruct (for_ xs body w) as [[[[v|]|e] w1] l1]; simpl; rewrite ?app_nil_r;
    try reflexivity.
  now rewrite IH.
Qed.

Lemma first_failure {A R} (body : A -> M (option R)) (w : World) (xs : list A) :
  (exists x, In x xs /\ result (body x w) <> Ok None) ->
  exists pre p post,
    xs = pre ++ p :: post
    /\ Forall (fun x => result (body x w) = Ok None) pre
    /\ result (body p w) <> Ok None.
Proof.
  induction xs as [|x xs IH]; intros (y & Hin & Hy); [destruct Hin|].
  destruct (result (body x w)) as [[v|]|e] eqn:Hx.
  - exists [], x, xs. rewrite Hx. repeat split; [constructor | discriminate].
  - destruct Hin as [<-|Hin]; [congruence|].
    destruct (IH (ex_intro _ y (conj Hin Hy))) as (pre & p & post & -> & Hpre & Hp).
    exists (x :: pre), p, post. repeat split; [constructor; assumption | exact Hp].
  - exists [], x, xs. rewrite Hx. repeat split; [constructor | discriminate].
Qed.

Lemma returns_ret {A} (P : A -> Prop) (a : A) : P a -> returns P (ret a).
Proof. intros Ha w b [= <-]. exact Ha. Qed.

Lemma returns_raise {A} (P : A -> Prop) (e : exn) : returns P (raise e).
Proof. intros w b [=]. Qed.

Lemma returns_bind_with {A B} (Q : A -> Prop) (P : B -> Prop)
    (m : M A) (k : A -> M B) :
  returns Q m -> (forall a, Q a -> returns P (k a)) -> returns P (bind m k).
Proof.
  intros Hm Hk w b. unfold bind, result. specialize (Hm w).
  unfold result in Hm.
  destruct (m w) as [[[a|e] w1] l1]; simpl in *; [|discriminate].
  specialize (Hk a (Hm a eq_refl) w1 b). unfold result in Hk.
  destruct (k a w1) as [[r w2] l2]. exact Hk.
Qed.

Lemma returns_any {A} (m : M A) : returns (fun _ => True) m.
Proof. intros w a _. exact I. Qed.

Lemma returns_bind {A B} (P : B -> Prop) (m : M A) (k : A -> M B) :
  (forall a, returns P (k a)) -> returns P (bind m k).
Proof.
  intros Hk. apply (returns_bind_with (fun _ => True)); [apply returns_any|].
  intros a _. apply Hk.
Qed.

Lemma returns_try {A} (P : A -> Prop) (m : M A) (h : exn -> M A) :
  returns P m -> (forall e, returns P (h e)) -> returns P (try_except m h).
Proof.
  intros Hm Hh w b. unfold try_except, result. specialize (Hm w).
  unfold result in Hm.
  destruct (m w) as [[[a|e] w1] l1]; simpl in *; [apply Hm|].
  specialize (Hh e w1 b). unfold result in Hh.
  destruct (h e w1) as [[r w2] l2]. exact Hh.
Qed.

Lemma returns_for_state {A S R} (Q : R -> Prop) (xs : list A)
    (body : S -> A -> M (S + R)) :
  (forall s x, returns (fun r => forall v, r = inr v -> Q v) (body s x)) ->
  forall s, returns (fun r => forall v, r = inr v -> Q v) (for_state xs s body).
Proof.
  intros Hb. induction xs as [|x xs IH]; intros s; simpl.
  - apply returns_ret. discriminate.
  - eapply returns_bind_with; [apply Hb|].
    intros [s'|v] Hv; [apply IH|].
    apply returns_ret. exact Hv.
Qed.

(** Code after a computation that never returns normally is not run. *)
Lemma emits_bind_with {A B} (Q : A -> Prop) P (m : M A) (k : A -> M B) :
  emits P m -> returns Q m -> (forall a, Q a -> emits P (k a)) ->
  emits P (bind m k).
Proof.
  intros Hm Hq Hk w. unfold bind. specialize (Hm w). specialize (Hq w).
  unfold events, result in *.
  destruct (m w) as [[[a|e] w1] l1]; simpl in *; [|exact Hm].
  specialize (Hk a (Hq a eq_refl) w1). unfold events in Hk.
  destruct (k a w1) as [[r w2] l2].
  simpl in *. apply Forall_app. split; assumption.
Qed.

Lemma keeps_readonly (q : string) {A} (m : M A) : readonly m -> keeps q m.
Proof. intros Hm w. now rewrite Hm. Qed.

Lemma keeps_open_write (q p c : string) : p <> q -> keeps q (open_write p c).
Proof.
  intros Hne w. unfold open_write, world_after.
  destruct (writable w p); simpl; [|reflexivity].
  now apply lookup_insert_ne.
Qed.

Lemma keeps_bind_with {A B} (Q : A -> Prop) (q : string)
    (m : M A) (k : A -> M B) :
  keeps q m -> returns Q m -> (forall a, Q a -> keeps q (k a)) ->
  keeps q (bind m k).
Proof.
  intros Hm Hq Hk w. unfold bind. specialize (Hm w). specialize (Hq w).
  unfold world_after, result in *.
  destruct (m w) as [[[a|e] w1] l1]; simpl in *; [|exact Hm].
  specialize (Hk a (Hq a eq_refl) w1). unfold world_after in Hk.
  destruct (k a w1) as [[r w2] l2]. simpl in *. now rewrite Hk.
Qed.

Lemma keeps_bind (q : string) {A B} (m : M A) (k : A -> M B) :
  keeps q m -> (forall a, keeps q (k a)) -> keeps q (bind m k).
Proof.
  intros Hm Hk. apply (keeps_bind_with (fun _ => True)); auto using returns_any.
Qed.

Lemma keeps_try (q : string) {A} (m : M A) (h : exn -> M A) :
  keeps q m -> (forall e, keeps q (h e)) -> keeps q (try_except m h).
Proof.
  intros Hm Hh w. unfold try_except. specialize (Hm w).
  unfold world_after in *.
  destruct (m w) as [[[a|e] w1] l1]; simpl in *; [exact Hm|].
  specialize (Hh e w1). unfold world_after in Hh.
  destruct (h e w1) as [[r w2] l2]. simpl in *. now rewrite Hh.
Qed.

End Frames.

(** Goals [readonly m] and [emits P m] follow the shape of [m]. *)
Ltac frame_step :=
  match goal with
  | |- readonly (bind _ _) => apply readonly_bind; [|intros ?]
  | |- readonly (try_except _ _) => apply readonly_try; [|intros ?]
  | |- readonly (or_else _ _) => unfold or_else
  | |- readonly (ret _) => apply readonly_ret
  | |- readonly (raise _) => apply readonly_raise
  | |- readonly (emit _) => apply readonly_emit
  | |- readonly (print _) => apply readonly_emit
  | |- readonly (eprint _) => apply readonly_emit
  | |- readonly (os_path_exists _) => apply readonly_exists
  | |- readonly (open_read _) => apply readonly_open_read
  | |- readonly (for_ _ _) => apply readonly_for; intros ?
  | |- readonly (for_fold _ _ _) => apply readonly_for_fold; intros ? ?
  | |- readonly (for_state _ _ _) => apply readonly_for_state; intros ? ?
  | |- emits _ (bind _ _) => apply emits_bind; [|intros ?]
  | |- emits _ (try_except _ _) => apply emits_try; [|intros ?]
  | |- emits _ (or_else _ _) => unfold or_else
  | |- emits _ (ret _) => apply emits_ret
  | |- emits _ (raise _) => apply emits_raise
  | |- emits _ (emit _) => apply emits_emit; simpl; try (exact I || reflexivity)
  | |- emits _ (print _) => apply emits_emit; simpl; try (exact I || reflexivity)
  | |- emits _ (eprint _) => apply emits_emit; simpl; try (exact I || reflexivity)
  | |- emits _ (os_path_exists _) => apply emits_exists
  | |- emits _ (open_read _) => apply emits_open_read
  | |- emits _ (open_write _ _) => apply emits_open_write
  | |- emits _ fresh_entropy => apply emits_fresh_entropy
  | |- emits _ (for_ _ _) => apply emits_for; intros ?
  | |- emits _ (for_fold _ _ _) => apply emits_for_fold; intros ? ?
  | |- emits _ (for_state _ _ _) => apply emits_for_state; intros ? ?
  | |- readonly (if ?b then _ else _) => destruct b
  | |- emits _ (if ?b then _ else _) => destruct b
  | |- readonly (match ?x with _ => _ end) => destruct x
  | |- emits _ (match ?x with _ => _ end) => destruct x
  | |- readonly (let _ := _ in _) => cbv zeta
  | |- emits _ (let _ := _ in _) => cbv zeta
  end.

Ltac frame := repeat frame_step.


(** ** Properties of [manage_dist] *)

Section Dist.
Context `{Backend}.
Import manage_dist.

Lemma verify_path_readonly (path : string) : readonly (verify_path path).
Proof.
  unfold verify_path, verify_signature, verify_hash, hashlib_file, first_field,
    base64_b64decode, load_public, verify.
  frame.
Qed.

Lemma verify_path_not_publish (path : string) :
  emits not_publish (verify_path path).
Proof.
  unfold verify_path, verify_signature, verify_hash, hashlib_file, first_field,
    base64_b64decode, load_public, verify, not_publish.
  frame.
Qed.

Lemma verify_path_returns (path : string) :
  returns (fun o => forall v, o = Some v -> v = false) (verify_path path).
Proof.
  unfold verify_path. apply returns_bind. intros _.
  apply (returns_bind_with (fun r => forall v, r = inr v -> v = false)).
  - apply returns_for_state. intros s x. unfold verify_hash.
    repeat (apply returns_bind; intros ?).
    destruct (negb a).
    + apply returns_bind. intros _. apply returns_ret. now intros v [= <-].
    + repeat (apply returns_bind; intros ?).
      destruct (negb _).
      * apply returns_bind. intros _. apply returns_ret. now intros v [= <-].
      * apply returns_ret. discriminate.
  - intros [expected_hash|v] Hv.
    + unfold verify_signature.
      destruct (verification_signature DIST_CONFIG);
        [|apply returns_ret; discriminate].
      apply returns_bind. intros present. destruct (negb present).
      * apply returns_bind. intros _. apply returns_ret. now intros v [= <-].
      * repeat (apply returns_bind; intros ?).
        apply returns_try.
        -- repeat (apply returns_bind; intros ?). apply returns_ret. discriminate.
        -- intros _. apply returns_bind. intros _. apply returns_ret.
           now intros v [= <-].
    + apply returns_ret. intros v' [= <-]. now apply Hv.
Qed.

Lemma verify_packages_stops (w : World) (packages : Packages)
    (pre : list string) (p : string) (post : list string) :
  paths_of packages = pre ++ p :: post ->
  Forall (passes w) pre ->
  ~ passes w p ->
  verify_packages packages w
  = (Ok false, w,
     Stdout (nl +:+ "Verificando pacotes...")
       :: report w (pre ++ [p]) ++ error_line (result (verify_path p w))).
Proof.
  intros Hpaths Hpre Hp. unfold verify_packages, try_except, or_else.
  simpl. unfold bind at 1. simpl. unfold bind at 1.
  pose proof (for_nested verify_path packages w) as Hn.
  unfold paths_of in Hpaths. rewrite Hpaths in Hn.
  rewrite (for_stops verify_path w pre p post verify_path_readonly Hpre Hp) in Hn.
  match goal with
  | |- context [for_ packages ?f w] =>
      replace (for_ packages f w) with (for_ packages (fun '(_, xs) => for_ xs verify_path) w)
  end.
  2:{ reflexivity. }
  rewrite Hn. unfold passes in Hp.
  pose proof (verify_path_returns p w) as Hret.
  destruct (result (verify_path p w)) as [[v|]|e]; simpl.
  - rewrite (Hret (Some v) eq_refl v eq_refl). unfold report.
    now rewrite !app_nil_r.
  - now contradiction Hp.
  - unfold report. reflexivity.
Qed.

Lemma verify_packages_passes (w : World) (packages : Packages) :
  Forall (passes w) (paths_of packages) ->
  verify_packages packages w
  = (Ok true, w,
     Stdout (nl +:+ "Verificando pacotes...")
       :: report w (paths_of packages)
       ++ [Stdout (nl +:+ "Todos os pacotes verificados com sucesso.")]).
Proof.
  intros Hall. unfold verify_packages, try_except, or_else.
  simpl. unfold bind at 1. simpl. unfold bind at 1.
  pose proof (for_nested verify_path packages w) as Hn.
  fold (paths_of packages) in Hn.
  rewrite (for_passes verify_path w _ verify_path_readonly Hall) in Hn.
  match goal with
  | |- context [for_ packages ?f w] =>
      replace (for_ packages f w) with (for_ packages (fun '(_, xs) => for_ xs verify_path) w)
  end.
  2:{ reflexivity. }
  rewrite Hn. reflexivity.
Qed.

Lemma collect_packages_readonly : readonly collect_packages.
Proof. unfold collect_packages, glob_files. frame. intros w. reflexivity. Qed.

Lemma collect_packages_not_publish : emits not_publish collect_packages.
Proof.
  unfold collect_packages, glob_files, not_publish. frame. intros w. constructor.
Qed.

Lemma verify_packages_not_publish (packages : Packages) :
  emits not_publish (verify_packages packages).
Proof.
  unfold verify_packages. frame; try apply verify_path_not_publish;
    unfold not_publish; frame.
Qed.

(** C2. Gate atomicity.  Whatever platform is asked for, when one package
    of the collected batch does not pass verification, the [publish]
    command exits with code 1 and no publisher (github, sourceforge, itch)
    has been called for any package. *)
Theorem gate_blocks_whole_batch (w : World) (prog platform : string)
    (packages : Packages) :
  result (collect_packages w) = Ok packages ->
  (exists path, In path (paths_of packages) /\ ~ passes w path) ->
  result (main [prog; "publish"; platform] w) = Ok 1%Z
  /\ Forall not_publish (events (main [prog; "publish"; platform] w)).
Proof.
  intros Hcollect Hfail.
  destruct (first_failure verify_path w (paths_of packages) Hfail)
    as (pre & p & post & Hpaths & Hpre & Hp).
  pose proof (verify_packages_stops w packages pre p post Hpaths Hpre Hp) as Hv.
  pose proof (verify_packages_not_publish packages w) as Hquiet.
  pose proof (collect_packages_readonly w) as Hro.
  pose proof (collect_packages_not_publish w) as Hcq.
  assert (Hrun : main_publish platform w
                 = (Ok 1%Z, w, events (collect_packages w)
                                ++ events (verify_packages packages w))).
  { unfold main_publish, bind.
    unfold result, world_after, events in Hcollect, Hro |- *.
    destruct (collect_packages w) as [[r w1] l1]. simpl in *. subst r w1.
    destruct packages as [|pk packages'].
    { destruct pre; discriminate. }
    rewrite Hv. simpl. now rewrite app_nil_r. }
  unfold main. simpl.
  match goal with |- context [if negb ?b then _ else _] => destruct (negb b) end.
  { split; [reflexivity|]. repeat constructor. }
  rewrite Hrun. split; [reflexivity|].
  apply Forall_app. split; assumption.
Qed.


Lemma verify_hashes_readonly (path : string) (s : option string) :
  readonly (for_state (verification_algorithms DIST_CONFIG) s (verify_hash path)).
Proof. unfold verify_hash, hashlib_file, first_field. frame. Qed.

Lemma verify_hashes_not_verify (path : string) (s : option string) :
  emits not_verify
    (for_state (verification_algorithms DIST_CONFIG) s (verify_hash path)).
Proof. unfold verify_hash, hashlib_file, first_field, not_verify. frame. Qed.

(** Without a [.sig] file a package does not pass, and its signature is
    not checked. *)
Lemma verify_path_without_sig (w : World) (path : string) :
  files w !! (path +:+ ".sig") = None ->
  ~ passes w path /\ Forall not_verify (events (verify_path path w)).
Proof.
  intros Hsig. unfold passes, verify_path.
  pose proof (verify_hashes_readonly path None w) as Hro.
  pose proof (verify_hashes_not_verify path None w) as Hq.
  set (loop := for_state (verification_algorithms DIST_CONFIG) None
                 (verify_hash path)) in *.
  unfold bind, print, emit, result, world_after, events in *.
  destruct (loop w) as [[[[eh|v]|e] w1] l1]; simpl in Hro, Hq |- *; subst w1.
  - unfold verify_signature, bind, os_path_exists, print, emit, ret. simpl.
    rewrite Hsig. simpl. split; [discriminate|].
    constructor; [reflexivity|]. apply Forall_app. split; [exact Hq|].
    repeat constructor.
  - split; [discriminate|]. constructor; [reflexivity|].
    apply Forall_app. split; [exact Hq | constructor].
  - split; [discriminate|]. constructor; [reflexivity | exact Hq].
Qed.

Lemma first_field_word (w : World) (text : string) :
  take_word (lstrip text) <> "" ->
  first_field text w = (Ok (take_word (lstrip text)), w, []).
Proof.
  intros Hne. unfold first_field.
  destruct (take_word (lstrip text)); [contradiction | reflexivity].
Qed.

Lemma verify_hash_match (w : World) (path content algorithm : string)
    (expected_hash : option string) :
  files w !! path = Some content ->
  stored w path algorithm (hexdigest algorithm content) ->
  verify_hash path expected_hash algorithm w
  = (Ok (inl (Some (hexdigest algorithm content))), w, [HashlibNew algorithm]).
Proof.
  intros Hfile (text & Htext & Hword & Hne).
  unfold verify_hash, hashlib_file, bind, os_path_exists, open_read, emit.
  rewrite Htext. simpl. rewrite Htext.
  rewrite <- Hword in Hne. rewrite (first_field_word w text Hne).
  rewrite Hfile. simpl. fold (hexdigest algorithm content).
  rewrite Hword, String.eqb_refl. reflexivity.
Qed.




(** What the signature check of [verify_path] is given: the text of the
    digest left by the last turn of the hash loop, the one of sha512, with
    PSS over SHA-256 and the longest salt. *)
Lemma verify_hash_goes_on (w : World) (path algorithm : string)
    (before after : option string) :
  result (verify_hash path before algorithm w) = Ok (inl after) ->
  exists h, after = Some h /\ stored w path algorithm h.
Proof.
  unfold verify_hash, hashlib_file, first_field, bind, os_path_exists,
    open_read, emit, result, stored.
  destruct (files w !! (path +:+ "." +:+ algorithm)) as [text|] eqn:Htext;
    simpl; [|discriminate].
  rewrite Htext.
  destruct (take_word (lstrip text)) as [|c word] eqn:Hword; simpl;
    [discriminate|].
  destruct (files w !! path) as [content|]; simpl; [|discriminate].
  destruct (negb _); simpl; [discriminate|].
  intros [= <-]. eexists. split; [reflexivity|].
  exists text. rewrite Hword. repeat split. discriminate.
Qed.

Lemma verify_hashes_go_on (w : World) (path : string) (after : option string) :
  result (for_state (verification_algorithms DIST_CONFIG) None
                    (verify_hash path) w) = Ok (inl after) ->
  exists h, after = Some h /\ stored w path "sha512" h.
Proof.
  simpl. unfold bind at 1.
  pose proof (verify_hashes_readonly path) as Hro.
  assert (Hro1 : readonly (verify_hash path None "sha256"))
    by (unfold verify_hash, hashlib_file, first_field; frame).
  specialize (Hro1 w). unfold world_after in Hro1.
  destruct (verify_hash path None "sha256" w) as [[[[s1|v]|e] w1] l1];
    simpl in Hro1; subst; unfold result; simpl; try discriminate.
  unfold bind.
  pose proof (verify_hash_goes_on w path "sha512" s1) as Hnext.
  unfold result in Hnext.
  destruct (verify_hash path s1 "sha512" w) as [[[[s2|v]|e] w2] l2];
    simpl in *; try discriminate.
  intros [= <-]. now apply Hnext.
Qed.

Lemma verify_signature_message (w : World) (path h : string)
    (signature message : string) (pad : padding) (alg : hash_alg) :
  In (RsaVerify signature message pad alg)
     (events (verify_signature path (Some h) w)) ->
  message = h /\ pad = pss_sha256 /\ alg = SHA256.
Proof.
  unfold verify_signature, base64_b64decode, load_public, verify, try_except,
    bind, os_path_exists, open_read, emit, print, ret, raise, events.
  simpl.
  destruct (files w !! (path +:+ ".sig")) as [text|] eqn:Hsig; simpl;
    [|intros [[=]|[]]].
  rewrite Hsig.
  destruct (b64decode text) as [sig|]; simpl; [|intros []].
  destruct (files w !! public_pem_path) as [pem|]; simpl; [|intros []].
  destruct (load_pem_public_key pem) as [key|]; simpl; [|intros []].
  destruct (rsa_verify key sig h pss_sha256 SHA256); simpl.
  - intros [[= _ <- <- <-]|[]]. repeat split.
  - intros [[= _ <- <- <-]|[[=]|[]]]. repeat split.
Qed.

Lemma verify_path_message (w : World) (path : string)
    (signature message : string) (pad : padding) (alg : hash_alg) :
  In (RsaVerify signature message pad alg) (events (verify_path path w)) ->
  stored w path "sha512" message /\ pad = pss_sha256 /\ alg = SHA256.
Proof.
  unfold verify_path.
  pose proof (verify_hashes_readonly path None w) as Hro.
  pose proof (verify_hashes_not_verify path None w) as Hq.
  pose proof (verify_hashes_go_on w path) as Hgo.
  set (loop := for_state (verification_algorithms DIST_CONFIG) None
                 (verify_hash path)) in *.
  unfold bind, print, emit, result, world_after, events in *.
  destruct (loop w) as [[[[eh|v]|e] w1] l1]; simpl in Hro, Hq, Hgo |- *;
    subst w1; pose proof (proj1 (List.Forall_forall _ _) Hq) as Hall.
  - destruct (Hgo eh eq_refl) as (h & -> & Hstored).
    pose proof (verify_signature_message w path h signature message pad alg)
      as Hmsg.
    unfold events in Hmsg.
    destruct (verify_signature path (Some h) w) as [[r w2] l2]. simpl in *.
    intros [[=]|Hin]. apply in_app_or in Hin as [Hin|Hin].
    + specialize (Hall _ Hin). discriminate.
    + destruct (Hmsg Hin) as (-> & -> & ->). auto.
  - intros [[=]|Hin]. rewrite app_nil_r in Hin.
    specialize (Hall _ Hin). discriminate.
  - intros [[=]|Hin].
    specialize (Hall _ Hin). discriminate.
Qed.

End Dist.

(** ** Properties of [manage_package] *)

Section Package.
Context `{Backend}.
Import manage_package.

(** Subscripting the module raises, whatever follows. *)
Lemma getitem_module {B} (name key : string) (k : string -> M B) :
  bind (getitem (Module_ name) key) k = raise not_subscriptable.
Proof. reflexivity. Qed.

(** The signature block of [verify_package] never completes. *)
Lemma signature_block_raises (package : string) (k : unit -> M bool) :
  returns (fun _ => False)
    (pem <- open_read private_pem_path ;;
     private_key <- load_private pem ;;
     message <- getitem (Module_ "cryptography.hazmat.primitives.hashes")
                        "sha256" ;;
     signature <- sign private_key message (PSS (MGF1 SHA256) MAX_LENGTH)
                       SHA256 ;;
     open_write (package +:+ ".sig") (b64encode signature)).
Proof.
  apply returns_bind. intros pem. apply returns_bind. intros key.
  exact (returns_raise _ not_subscriptable).
Qed.

Lemma verify_package_returns_false (package : string) :
  returns (fun b => b = false) (verify_package package).
Proof.
  unfold verify_package. simpl. apply returns_try.
  - apply returns_bind. intros _. apply returns_bind. intros d.
    eapply returns_bind_with;
      [apply (signature_block_raises package (fun _ => ret true))|].
    intros a [].
  - intros e. apply returns_bind. intros _. now apply returns_ret.
Qed.

Lemma verify_package_total (package : string) (w : World) :
  exists b, result (verify_package package w) = Ok b.
Proof.
  unfold verify_package, try_except, result.
  match goal with |- context [match ?m w with _ => _ end] =>
    destruct (m w) as [[[a|e] w1] l1] end; simpl; eauto.
Qed.

(** [verify_package] never calls [private_key.sign]. *)
Lemma verify_package_not_sign (package : string) :
  emits not_sign (verify_package package).
Proof.
  unfold verify_package, hashlib_file, load_private, not_sign. simpl.
  apply emits_try; [|intros e; frame].
  apply emits_bind; [frame|]. intros _.
  apply emits_bind; [frame|]. intros d.
  eapply emits_bind_with;
    [| apply (signature_block_raises package (fun _ => ret true))
     | intros a []].
  apply emits_bind; [frame|]. intros pem.
  apply emits_bind; [frame|]. intros key.
  exact (emits_raise _ not_subscriptable).
Qed.

Lemma sig_not_hash (package algorithm : string) :
  In algorithm (verification_algorithms PACKAGE_CONFIG) ->
  package +:+ "." +:+ algorithm <> package +:+ ".sig".
Proof.
  intros Hin Heq. apply append_inv_head in Heq.
  simpl in Hin. destruct Hin as [<-|[<-|[]]]; discriminate.
Qed.

(** [verify_package] leaves [<package>.sig] alone. *)
Lemma verify_package_keeps_sig (package : string) :
  keeps (package +:+ ".sig") (verify_package package).
Proof.
  unfold verify_package. simpl. apply keeps_try.
  2:{ intros e. apply keeps_readonly. frame. }
  apply keeps_bind; [apply keeps_readonly; frame|]. intros _.
  apply keeps_bind.
  { apply keeps_bind.
    { apply keeps_bind; [apply keeps_readonly; unfold hashlib_file; frame|].
      intros d1. apply keeps_bind; [|intros; apply keeps_readonly; frame].
      apply keeps_open_write. apply sig_not_hash. simpl. auto. }
    intros s1. apply keeps_bind; [|intros; apply keeps_readonly; frame].
    apply keeps_bind; [apply keeps_readonly; unfold hashlib_file; frame|].
    intros d2. apply keeps_bind; [|intros; apply keeps_readonly; frame].
    apply keeps_open_write. apply sig_not_hash. simpl. auto. }
  intros d.
  eapply keeps_bind_with;
    [| apply (signature_block_raises package (fun _ => ret true))
     | intros a []].
  apply keeps_bind; [apply keeps_readonly; frame|]. intros pem.
  apply keeps_bind; [apply keeps_readonly; unfold load_private; frame|].
  intros key. apply keeps_readonly.
  exact (readonly_raise not_subscriptable).
Qed.

Lemma package_not_digest_file (package algorithm : string) :
  package <> package +:+ "." +:+ algorithm.
Proof. apply append_neq_self. discriminate. Qed.

Lemma private_pem_not_digest_file (package algorithm : string) :
  In algorithm (verification_algorithms PACKAGE_CONFIG) ->
  package +:+ "." +:+ algorithm <> private_pem_path.
Proof.
  intros Hin Heq. apply (f_equal last_char) in Heq.
  rewrite last_char_append in Heq
    by (simpl in Hin; destruct Hin as [<-|[<-|[]]]; discriminate).
  simpl in Hin. destruct Hin as [<-|[<-|[]]]; discriminate.
Qed.

Lemma verify_package_run (w : World)
    (package content pem : string) (key : private_key) :
  files w !! package = Some content ->
  writable w (package +:+ ".sha256") = true ->
  writable w (package +:+ ".sha512") = true ->
  files w !! private_pem_path = Some pem ->
  load_pem_private_key pem = Some key ->
  verify_package package w
  = (Ok false,
     set_files w
       (<[package +:+ ".sha512" := digest_line package content "sha512"]>
          (<[package +:+ ".sha256" := digest_line package content "sha256"]>
             (files w))),
     [Stdout (nl +:+ "Verificando pacote " +:+ package +:+ "...");
      HashlibNew "sha256"; HashlibNew "sha512";
      Stderr ("Erro ao verificar pacote: " +:+ str not_subscriptable)]).
Proof.
  intros Hfile Hw256 Hw512 Hpem Hkey.
  unfold verify_package, try_except, hashlib_file, load_private. simpl.
  unfold bind, open_read, open_write, emit, print, eprint, ret, raise. simpl.
  change (package +:+ "." +:+ "sha256") with (package +:+ ".sha256").
  change (package +:+ "." +:+ "sha512") with (package +:+ ".sha512").
  rewrite Hfile, Hw256. simpl.
  rewrite lookup_insert_ne
    by (symmetry; apply (package_not_digest_file package "sha256")).
  rewrite Hfile. simpl. rewrite Hw512. simpl.
  rewrite lookup_insert_ne
    by (apply (private_pem_not_digest_file package "sha512"); simpl; auto).
  rewrite lookup_insert_ne
    by (apply (private_pem_not_digest_file package "sha256"); simpl; auto).
  rewrite Hpem, Hkey. simpl.
  reflexivity.
Qed.

(** C9, what the code does.  [verify_package] returns [False] on every
    package.  For a readable package whose digest files can be written
    and with the private key in place, it rewrites [<package>.sha256] and
    [<package>.sha512] with fresh digests and compares nothing, then stops
    on the [TypeError] raised by [hashes['sha256']]: it prints the error
    and returns [False], having neither called [sign] nor written
    [<package>.sig]. *)
Theorem verify_package_fails_before_signing :
  (forall (w : World) (package : string),
      result (verify_package package w) = Ok false)
  /\ (forall (w : World) (package content pem : string) (key : private_key),
        files w !! package = Some content ->
        writable w (package +:+ ".sha256") = true ->
        writable w (package +:+ ".sha512") = true ->
        files w !! private_pem_path = Some pem ->
        load_pem_private_key pem = Some key ->
        verify_package package w
        = (Ok false,
           set_files w
             (<[package +:+ ".sha512" := digest_line package content "sha512"]>
                (<[package +:+ ".sha256" :=
                     digest_line package content "sha256"]> (files w))),
           [Stdout (nl +:+ "Verificando pacote " +:+ package +:+ "...");
            HashlibNew "sha256"; HashlibNew "sha512";
            Stderr ("Erro ao verificar pacote: " +:+ str not_subscriptable)])
        /\ files (world_after (verify_package package w))
             !! (package +:+ ".sig")
           = files w !! (package +:+ ".sig")).
Proof.
  split.
  - intros w package.
    destruct (verify_package_total package w) as [b Hb].
    rewrite Hb. f_equal. exact (verify_package_returns_false package w b Hb).
  - intros w package content pem key Hfile Hw256 Hw512 Hpem Hkey.
    split; [now apply verify_package_run with (pem := pem) (key := key)|].
    apply verify_package_keeps_sig.
Qed.

End Package.

(** ** From packaging to distribution *)

Section Pipeline.
Context `{Backend}.

Lemma package_then_dist (w : World) (package platform : string) :
  files w !! (package +:+ ".sig") = None ->
  result (manage_dist.verify_packages [(platform, [package])]
            (world_after (manage_package.verify_package package w)))
  = Ok false
  /\ Forall not_verify
       (events (manage_dist.verify_packages [(platform, [package])]
                  (world_after (manage_package.verify_package package w)))).
Proof.
  intros Hsig.
  pose proof (verify_package_keeps_sig package w) as Hkeep.
  rewrite Hsig in Hkeep.
  set (w' := world_after (manage_package.verify_package package w)) in *.
  destruct (verify_path_without_sig w' package Hkeep) as [Hfail Hquiet].
  pose proof (verify_packages_stops w' [(platform, [package])] [] package []
                eq_refl ltac:(constructor) Hfail) as Hrun.
  split.
  - now rewrite Hrun.
  - rewrite Hrun. unfold events, report. simpl.
    constructor; [reflexivity|]. rewrite app_nil_r.
    apply Forall_app. split; [exact Hquiet|].
    unfold error_line. destruct (result _); repeat constructor.
Qed.

(** C10, what the code does.  The distribution script does check the
    signature against the text of the digest of the last algorithm,
    sha512, with PSS over SHA-256.  But [verify_package] of the packaging
    script stops on the [TypeError] before [private_key.sign] is reached:
    it signs nothing, the text of the sha256 digest no more than anything
    else, and leaves [<package>.sig] as it was.  So for a package that had
    no signature file the distribution script returns [False] from the
    test for that file's presence at the latest, and its signature check
    does not run. *)
Theorem packaged_signature_never_checked :
  (forall (w : World) (package : string),
      Forall not_sign (events (manage_package.verify_package package w))
      /\ files (world_after (manage_package.verify_package package w))
           !! (package +:+ ".sig")
         = files w !! (package +:+ ".sig"))
  /\ (forall (w : World) (path signature message : string)
             (pad : padding) (alg : hash_alg),
        In (RsaVerify signature message pad alg)
           (events (manage_dist.verify_path path w)) ->
        stored w path "sha512" message
        /\ pad = PSS (MGF1 SHA256) MAX_LENGTH
        /\ alg = SHA256)
  /\ (forall (w : World) (package platform : string),
        files w !! (package +:+ ".sig") = None ->
        result (manage_dist.verify_packages [(platform, [package])]
                  (world_after (manage_package.verify_package package w)))
        = Ok false
        /\ Forall not_verify
             (events (manage_dist.verify_packages [(platform, [package])]
                        (world_after
                           (manage_package.verify_package package w))))).
Proof.
  split; [|split].
  - intros w package. split.
    + apply verify_package_not_sign.
    + apply verify_package_keeps_sig.
  - intros w path signature message pad alg.
    apply verify_path_message.
  - intros w package platform. apply package_then_dist.
Qed.

End Pipeline.

(** ** Properties of [manage_security] *)

Section Security.
Context `{Backend}.
Import manage_security.

(** *** Where the metadata lives *)

Lemma name_no_slash (path suffix : string) :
  has_slash suffix = false -> has_slash (basename path +:+ suffix) = false.
Proof.
  intros Hs. now rewrite has_slash_append, has_slash_basename, Hs.
Qed.

Lemma hash_path_eq (path : string) :
  hash_path path = "security/hashes" +:+ "/" +:+ (basename path +:+ ".json").
Proof.
  unfold hash_path, os_path_join.
  now rewrite (isabs_no_slash _ (name_no_slash path ".json" eq_refl)).
Qed.

Lemma sig_path_eq (path : string) :
  sig_path path = "security/signatures" +:+ "/" +:+ (basename path +:+ ".sig").
Proof.
  unfold sig_path, os_path_join.
  now rewrite (isabs_no_slash _ (name_no_slash path ".sig" eq_refl)).
Qed.

(** The tenth character tells the three directories apart. *)
Ltac by_directory Heq :=
  apply (f_equal (String.get 9)) in Heq; vm_compute in Heq; discriminate.

Lemma hash_path_not_sig_path (p q : string) : sig_path q <> hash_path p.
Proof. rewrite hash_path_eq, sig_path_eq. intros Heq. by_directory Heq. Qed.

Lemma hash_path_not_private (p : string) : hash_path p <> private_path.
Proof. rewrite hash_path_eq. intros Heq. by_directory Heq. Qed.

Lemma hash_path_not_public (p : string) : hash_path p <> public_path.
Proof. rewrite hash_path_eq. intros Heq. by_directory Heq. Qed.

Lemma sig_path_not_public (p : string) : sig_path p <> public_path.
Proof. rewrite sig_path_eq. intros Heq. by_directory Heq. Qed.

Lemma hash_path_not_self (path : string) : hash_path path <> path.
Proof.
  rewrite hash_path_eq. intros Heq. apply (f_equal basename) in Heq.
  rewrite basename_join in Heq by (now apply name_no_slash).
  symmetry in Heq. revert Heq. apply append_neq_self. discriminate.
Qed.

Lemma sig_path_not_self (path : string) : sig_path path <> path.
Proof.
  rewrite sig_path_eq. intros Heq. apply (f_equal basename) in Heq.
  rewrite basename_join in Heq by (now apply name_no_slash).
  symmetry in Heq. revert Heq. apply append_neq_self. discriminate.
Qed.

(** *** Runs of the parts *)

Lemma calculate_hashes_ok (w : World) (path content : string) :
  files w !! path = Some content ->
  calculate_hashes path w
  = (Ok (digests content), w, [HashlibNew "sha256"; HashlibNew "sha512"]).
Proof.
  intros Hfile. unfold calculate_hashes, try_except, hashlib_file. simpl.
  unfold bind, open_read, emit, ret. rewrite Hfile. simpl.
  rewrite ?Hfile. reflexivity.
Qed.

Lemma calculate_hashes_missing (w : World) (path : string) :
  files w !! path = None ->
  calculate_hashes path w
  = (Ok ∅, w,
     [HashlibNew "sha256";
      Stderr ("Erro ao calcular hashes: " +:+ str (FileNotFoundError path))]).
Proof.
  intros Hfile. unfold calculate_hashes, try_except, hashlib_file. simpl.
  unfold bind, open_read, emit, ret. rewrite Hfile. simpl.
  rewrite ?Hfile. reflexivity.
Qed.

Lemma sign_file_ok (w : World) (path pem content : string) (key : private_key) :
  files w !! private_path = Some pem ->
  load_pem_private_key pem = Some key ->
  files w !! path = Some content ->
  sign_file path w
  = match rsa_sign_error key (sha512_digest content) pss_sha512 SHA512 with
    | None =>
        (Ok (Some (rsa_sign key (sha512_digest content) pss_sha512 SHA512
                            (entropy w))),
         next_entropy w,
         [HazmatHash SHA512;
          RsaSign (sha512_digest content) pss_sha512 SHA512])
    | Some e =>
        (Ok None, w,
         [HazmatHash SHA512;
          RsaSign (sha512_digest content) pss_sha512 SHA512;
          Stderr ("Erro ao assinar arquivo: " +:+ str e)])
    end.
Proof.
  intros Hpem Hkey Hfile.
  unfold sign_file, try_except, hazmat_file, load_private, sign.
  unfold bind, open_read, emit, ret, fresh_entropy.
  rewrite Hpem, Hkey, Hfile. fold (sha512_digest content).
  now destruct (rsa_sign_error key (sha512_digest content) pss_sha512 SHA512).
Qed.

Lemma verify_file_listed (w : World) (path : string) :
  existsb (fun ext => endswith path ext) (hashes_extensions SECURITY_CONFIG)
  = true ->
  verify_file path w
  = try_except
      (print (nl +:+ "Verificando arquivo: " +:+ path) ;;
       or_else (verify_file_hashes path)
         (or_else (verify_file_signature path)
            (print "Arquivo verificado com sucesso." ;; ret true)))
      (fun e => eprint ("Erro ao verificar arquivo: " +:+ str e) ;; ret false)
      w.
Proof. intros Hext. unfold verify_file, try_except. now rewrite Hext. Qed.

Lemma verify_file_hashes_absent (w : World) (path : string) :
  files w !! hash_path path = None ->
  verify_file_hashes path w
  = (Ok (Some false), w, [Stdout "Arquivo de hashes não encontrado."]).
Proof.
  intros Habs. unfold verify_file_hashes, bind, os_path_exists. simpl.
  now rewrite Habs.
Qed.

Lemma verify_file_hashes_present (w : World)
    (path text content : string) (saved : gmap string string) :
  files w !! hash_path path = Some text ->
  json_load text = Some saved ->
  files w !! path = Some content ->
  verify_file_hashes path w
  = bind (emit (HashlibNew "sha256") ;; emit (HashlibNew "sha512"))
         (fun _ => compare_hashes saved (digests content)) w.
Proof.
  intros Htext Hjson Hfile.
  unfold verify_file_hashes, json_load_file, bind, os_path_exists, open_read.
  simpl. rewrite Htext. simpl. rewrite Htext, Hjson. simpl.
  rewrite (calculate_hashes_ok w path content Hfile).
  now destruct (compare_hashes saved (digests content) w) as [[r w1] l1].
Qed.

Lemma digests_lookup (content algorithm : string) :
  In algorithm (hashes_algorithms SECURITY_CONFIG) ->
  digests content !! algorithm = Some (hexdigest algorithm content).
Proof.
  simpl. intros [<-|[<-|[]]]; unfold digests.
  - rewrite lookup_insert_ne by discriminate. now rewrite lookup_insert_eq.
  - now rewrite lookup_insert_eq.
Qed.

Lemma compare_hashes_match (w : World) (saved : gmap string string)
    (content : string) :
  (forall a, In a (hashes_algorithms SECURITY_CONFIG) ->
             saved !! a = Some (hexdigest a content)) ->
  compare_hashes saved (digests content) w = (Ok None, w, []).
Proof.
  intros Hall. unfold compare_hashes. simpl. unfold bind.
  rewrite !Hall by (simpl; auto).
  rewrite !digests_lookup by (simpl; auto).
  rewrite !String.eqb_refl. reflexivity.
Qed.


Lemma verify_file_signature_absent (w : World) (path pem : string)
    (key : public_key) :
  files w !! public_path = Some pem ->
  load_pem_public_key pem = Some key ->
  files w !! sig_path path = None ->
  verify_file_signature path w
  = (Ok (Some false), w, [Stdout "Arquivo de assinatura não encontrado."]).
Proof.
  intros Hpem Hkey Habs.
  unfold verify_file_signature, load_public, bind, open_read, os_path_exists.
  simpl. rewrite Hpem, Hkey. simpl. now rewrite Habs.
Qed.

Lemma verify_file_signature_valid (w : World)
    (path pem signature content : string) (key : public_key) :
  files w !! public_path = Some pem ->
  load_pem_public_key pem = Some key ->
  files w !! sig_path path = Some signature ->
  files w !! path = Some content ->
  rsa_verify key signature (sha512_digest content) pss_sha512 SHA512 = true ->
  verify_file_signature path w
  = (Ok None, w,
     [HazmatHash SHA512;
      RsaVerify signature (sha512_digest content) pss_sha512 SHA512]).
Proof.
  intros Hpem Hkey Hsig Hfile Hok.
  unfold verify_file_signature, load_public, hazmat_file, verify, try_except,
    bind, open_read, os_path_exists.
  simpl. rewrite Hpem, Hkey. simpl. rewrite Hsig. simpl. rewrite Hsig. simpl.
  rewrite Hfile. simpl. fold (sha512_digest content). rewrite Hok. reflexivity.
Qed.


(** C6.  Every call of [private_key.sign] made by [sign_file] has for
    message the raw SHA-512 digest of the bytes of the file, obtained from
    [hasher.finalize()], and uses PSS padding with MGF1 over SHA-512 and a
    salt of 64 bytes, with SHA-512 as algorithm; the signature returned
    is the result of that call.  The other call site of [sign], in
    [verify_package] of the packaging script, is never reached. *)
Theorem signer_parameters (w : World) (path : string) :
  (forall message pad alg,
      In (RsaSign message pad alg) (events (sign_file path w)) ->
      pad = PSS (MGF1 SHA512) (SaltBytes 64)
      /\ alg = SHA512
      /\ exists content,
          files w !! path = Some content /\ message = sha512_digest content)
  /\ (forall signature,
        result (sign_file path w) = Ok (Some signature) ->
        exists key content,
          files w !! path = Some content
          /\ signature = rsa_sign key (sha512_digest content)
                           (PSS (MGF1 SHA512) (SaltBytes 64)) SHA512 (entropy w)
          /\ In (RsaSign (sha512_digest content)
                         (PSS (MGF1 SHA512) (SaltBytes 64)) SHA512)
                (events (sign_file path w)))
  /\ (forall package,
        Forall not_sign (events (manage_package.verify_package package w))).
Proof.
  split; [|split]; [| |intros package; apply verify_package_not_sign].
  - intros message pad alg.
    destruct (files w !! private_path) as [pem|] eqn:Hpem.
    2:{ unfold sign_file, try_except, bind, open_read, events.
        rewrite Hpem. simpl. intros [[=]|[]]. }
    destruct (load_pem_private_key pem) as [key|] eqn:Hkey.
    2:{ unfold sign_file, try_except, bind, open_read, load_private, events.
        rewrite Hpem, Hkey. simpl. intros [[=]|[]]. }
    destruct (files w !! path) as [content|] eqn:Hfile.
    2:{ unfold sign_file, try_except, hazmat_file, bind, open_read,
          load_private, events.
        rewrite Hpem, Hkey. simpl. rewrite Hfile. simpl.
        intros [[=]|[[=]|[]]]. }
    rewrite (sign_file_ok w path pem content key Hpem Hkey Hfile).
    destruct (rsa_sign_error key (sha512_digest content) pss_sha512 SHA512);
      unfold events; simpl.
    + intros [[=]|[[= <- <- <-]|[[=]|[]]]]. repeat split. now exists content.
    + intros [[=]|[[= <- <- <-]|[]]]. repeat split. now exists content.
  - intros signature.
    destruct (files w !! private_path) as [pem|] eqn:Hpem.
    2:{ unfold sign_file, try_except, bind, open_read, result.
        rewrite Hpem. simpl. intros [=]. }
    destruct (load_pem_private_key pem) as [key|] eqn:Hkey.
    2:{ unfold sign_file, try_except, bind, open_read, load_private, result.
        rewrite Hpem, Hkey. simpl. intros [=]. }
    destruct (files w !! path) as [content|] eqn:Hfile.
    2:{ unfold sign_file, try_except, hazmat_file, bind, open_read,
          load_private, result.
        rewrite Hpem, Hkey. simpl. rewrite Hfile. simpl. intros [=]. }
    rewrite (sign_file_ok w path pem content key Hpem Hkey Hfile).
    destruct (rsa_sign_error key (sha512_digest content) pss_sha512 SHA512);
      unfold result, events; simpl; intros [= <-].
    exists key, content. repeat split. right. now left.
Qed.



Ltac other_line :=
  split; [reflexivity|];
  let Heq := fresh in
  intros Heq; try discriminate Heq;
  injection Heq as Heq; vm_compute in Heq; discriminate Heq.

Lemma verify_file_hashes_quiet (path : string) :
  readonly (verify_file_hashes path)
  /\ emits no_signature_verdict (verify_file_hashes path).
Proof.
  split.
  - unfold verify_file_hashes, json_load_file, calculate_hashes, hashlib_file,
      compare_hashes.
    frame.
  - unfold verify_file_hashes, json_load_file, calculate_hashes, hashlib_file,
      compare_hashes, no_signature_verdict.
    frame; other_line.
Qed.

(** Without a signature file the signature block of [verify_file] neither
    checks a signature nor falls through. *)
Lemma verify_file_signature_without_sig (w : World) (path : string) :
  files w !! sig_path path = None ->
  result (verify_file_signature path w) <> Ok None
  /\ world_after (verify_file_signature path w) = w
  /\ Forall no_signature_verdict (events (verify_file_signature path w)).
Proof.
  intros Habs.
  unfold verify_file_signature, load_public, bind, open_read, os_path_exists,
    result, world_after, events.
  simpl.
  destruct (files w !! public_path) as [pem|]; simpl;
    [|repeat split; [discriminate | constructor]].
  destruct (load_pem_public_key pem) as [key|]; simpl;
    [|repeat split; [discriminate | constructor]].
  rewrite Habs. simpl.
  repeat split; [discriminate|]. repeat constructor. discriminate.
Qed.

Lemma verify_file_without_sig (w : World) (path : string) :
  files w !! sig_path path = None ->
  Forall no_signature_verdict (events (verify_file path w)).
Proof.
  intros Habs. unfold verify_file, try_except.
  destruct (negb _); [constructor|].
  unfold or_else. unfold bind at 1. unfold print at 1, emit at 1.
  unfold bind at 1.
  destruct (verify_file_hashes_quiet path) as [Hro Hq].
  specialize (Hro w). specialize (Hq w).
  destruct (verify_file_signature_without_sig w path Habs)
    as (Hres & Hw & Hsq).
  unfold result, world_after, events in *.
  destruct (verify_file_hashes path w) as [[[[v|]|e] w1] l1];
    simpl in Hro, Hq |- *; subst w1.
  - constructor; [other_line|]. now rewrite app_nil_r.
  - unfold bind.
    destruct (verify_file_signature path w) as [[[[v|]|e] w2] l2];
      simpl in Hres, Hw, Hsq |- *; subst.
    + constructor; [other_line|]. rewrite app_nil_r.
      apply Forall_app. now split.
    + now contradiction Hres.
    + constructor; [other_line|]. apply Forall_app. split.
      * apply Forall_app. now split.
      * repeat constructor; discriminate.
  - constructor; [other_line|]. apply Forall_app. split; [exact Hq|].
    repeat constructor; discriminate.
Qed.

(** C4, as the code has it.  For a file whose name ends in one of the
    configured extensions: when the file of saved hashes is absent,
    [verify_file] says so and returns [False] without computing a digest,
    comparing, or touching the signature; when the saved hashes are there
    and equal the current digests, the public key loads and the signature
    file is absent, it says that the signature file is missing and returns
    [False], the digests having been recomputed and compared first.  And
    for any file without signature file, [verify_file] runs no signature
    check and never reports an invalid signature. *)
Theorem verify_file_missing_metadata (w : World) (path : string) :
  (existsb (fun ext => endswith path ext) (hashes_extensions SECURITY_CONFIG)
   = true ->
   files w !! hash_path path = None ->
   verify_file path w
   = (Ok false, w,
      [Stdout (nl +:+ "Verificando arquivo: " +:+ path);
       Stdout "Arquivo de hashes não encontrado."]))
  /\ (forall (text content pem : string) (saved : gmap string string)
             (key : public_key),
        existsb (fun ext => endswith path ext)
                (hashes_extensions SECURITY_CONFIG) = true ->
        files w !! hash_path path = Some text ->
        json_load text = Some saved ->
        files w !! path = Some content ->
        (forall a, In a (hashes_algorithms SECURITY_CONFIG) ->
                   saved !! a = Some (hexdigest a content)) ->
        files w !! public_path = Some pem ->
        load_pem_public_key pem = Some key ->
        files w !! sig_path path = None ->
        verify_file path w
        = (Ok false, w,
           [Stdout (nl +:+ "Verificando arquivo: " +:+ path);
            HashlibNew "sha256"; HashlibNew "sha512";
            Stdout "Arquivo de assinatura não encontrado."]))
  /\ (files w !! sig_path path = None ->
      Forall no_signature_verdict (events (verify_file path w))).
Proof.
  split; [|split].
  - intros Hext Habs. rewrite (verify_file_listed w path Hext).
    unfold try_except, or_else. unfold bind at 1. unfold print at 1, emit at 1.
    unfold bind at 1. rewrite (verify_file_hashes_absent w path Habs).
    reflexivity.
  - intros text content pem saved key Hext Htext Hjson Hfile Hall Hpem Hkey Habs.
    rewrite (verify_file_listed w path Hext).
    unfold try_except, or_else. unfold bind at 1. unfold print at 1, emit at 1.
    unfold bind at 1.
    rewrite (verify_file_hashes_present w path text content saved
               Htext Hjson Hfile).
    unfold bind at 1. unfold bind at 1. unfold emit at 1 2.
    rewrite (compare_hashes_match w saved content Hall).
    unfold bind at 1.
    rewrite (verify_file_signature_absent w path pem key Hpem Hkey Habs).
    reflexivity.
  - apply verify_file_without_sig.
Qed.

(** *** The commands *)

Lemma main_missing_file (w : World) (prog command path : string) :
  existsb (String.eqb command) ["hash"; "sign"; "verify"] = true ->
  files w !! path = None ->
  main [prog; command; path] w = (Ok 1%Z, w, [Stderr "Arquivo não encontrado."]).
Proof.
  intros Hcmd Hfile. unfold main.
  destruct (String.eqb_spec command "init") as [->|_]; [discriminate|].
  destruct (String.eqb_spec command "keys") as [->|_]; [discriminate|].
  rewrite Hcmd. unfold bind, os_path_isfile, os_path_exists.
  rewrite Hfile. reflexivity.
Qed.

Lemma main_hash_file (w : World) (prog path content : string) :
  files w !! path = Some content ->
  main [prog; "hash"; path] w = main_hash path w.
Proof.
  intros Hfile. unfold main. simpl.
  unfold bind, os_path_isfile, os_path_exists. rewrite Hfile. simpl.
  now destruct (main_hash path w) as [[r w1] l1].
Qed.

Lemma main_sign_file (w : World) (prog path content : string) :
  files w !! path = Some content ->
  main [prog; "sign"; path] w = main_sign path w.
Proof.
  intros Hfile. unfold main. simpl.
  unfold bind, os_path_isfile, os_path_exists. rewrite Hfile. simpl.
  now destruct (main_sign path w) as [[r w1] l1].
Qed.

Lemma main_verify_file (w : World) (prog path content : string) :
  files w !! path = Some content ->
  main [prog; "verify"; path] w
  = bind (verify_file path)
         (fun ok : bool => if ok then ret 0%Z else ret 1%Z) w.
Proof.
  intros Hfile. unfold main. simpl.
  unfold bind, os_path_isfile, os_path_exists. rewrite Hfile. simpl.
  destruct (verify_file path w) as [[[[|]|e] w1] l1]; reflexivity.
Qed.

Lemma main_hash_run (w : World) (path content : string) :
  files w !! path = Some content ->
  main_hash path w
  = if writable w (hash_path path)
    then (Ok 0%Z,
          set_files w (<[hash_path path := json_dump (digests content)]>
                         (files w)),
          [HashlibNew "sha256"; HashlibNew "sha512";
           Stdout ("Hashes salvos em: " +:+ hash_path path)])
    else (Ok 1%Z, w,
          [HashlibNew "sha256"; HashlibNew "sha512";
           Stderr ("Erro ao salvar hashes: "
                   +:+ str (PermissionError (hash_path path)))]).
Proof.
  intros Hfile. unfold main_hash, bind at 1.
  rewrite (calculate_hashes_ok w path content Hfile).
  rewrite bool_decide_eq_false_2 by apply insert_non_empty.
  unfold try_except, bind, open_write.
  now destruct (writable w (hash_path path)).
Qed.

Lemma main_sign_run (w : World) (path pem content : string)
    (key : private_key) :
  files w !! private_path = Some pem ->
  load_pem_private_key pem = Some key ->
  files w !! path = Some content ->
  let signature :=
    rsa_sign key (sha512_digest content) pss_sha512 SHA512 (entropy w) in
  let called :=
    [HazmatHash SHA512; RsaSign (sha512_digest content) pss_sha512 SHA512] in
  main_sign path w
  = match rsa_sign_error key (sha512_digest content) pss_sha512 SHA512 with
    | Some e =>
        (Ok 1%Z, w,
         called ++ [Stderr ("Erro ao assinar arquivo: " +:+ str e)])
    | None =>
        match signature with
        | EmptyString => (Ok 1%Z, next_entropy w, called)
        | _ =>
            if writable w (sig_path path)
            then (Ok 0%Z,
                  set_files (next_entropy w)
                    (<[sig_path path := signature]> (files w)),
                  called
                    ++ [Stdout ("Assinatura salva em: " +:+ sig_path path)])
            else (Ok 1%Z, next_entropy w,
                  called
                    ++ [Stderr ("Erro ao salvar assinatura: "
                                +:+ str (PermissionError (sig_path path)))])
        end
    end.
Proof.
  intros Hpem Hkey Hfile signature called. unfold main_sign, bind at 1.
  rewrite (sign_file_ok w path pem content key Hpem Hkey Hfile).
  destruct (rsa_sign_error key (sha512_digest content) pss_sha512 SHA512);
    [reflexivity|].
  fold signature. destruct signature as [|c signature]; [reflexivity|].
  unfold try_except, bind, open_write. simpl.
  now destruct (writable w (sig_path path)).
Qed.

Lemma main_hash_exit_0 (w : World) (prog path : string) :
  result (main [prog; "hash"; path] w) = Ok 0%Z ->
  exists content,
    files w !! path = Some content
    /\ world_after (main [prog; "hash"; path] w)
       = set_files w (<[hash_path path := json_dump (digests content)]>
                        (files w)).
Proof.
  destruct (files w !! path) as [content|] eqn:Hfile.
  2:{ rewrite main_missing_file by (reflexivity || assumption). discriminate. }
  rewrite (main_hash_file w prog path content Hfile).
  rewrite (main_hash_run w path content Hfile).
  intros Hexit. exists content. split; [reflexivity|]. revert Hexit.
  destruct (writable w (hash_path path)); [reflexivity | discriminate].
Qed.

Lemma main_sign_exit_0 (w : World) (prog path pem : string)
    (key : private_key) :
  files w !! private_path = Some pem ->
  load_pem_private_key pem = Some key ->
  result (main [prog; "sign"; path] w) = Ok 0%Z ->
  exists content,
    files w !! path = Some content
    /\ world_after (main [prog; "sign"; path] w)
       = set_files (next_entropy w)
           (<[sig_path path :=
                rsa_sign key (sha512_digest content) pss_sha512 SHA512
                         (entropy w)]> (files w)).
Proof.
  intros Hpem Hkey.
  destruct (files w !! path) as [content|] eqn:Hfile.
  2:{ rewrite main_missing_file by (reflexivity || assumption). discriminate. }
  rewrite (main_sign_file w prog path content Hfile).
  rewrite (main_sign_run w path pem content key Hpem Hkey Hfile).
  intros Hexit. exists content. split; [reflexivity|]. revert Hexit.
  destruct (rsa_sign_error _ _ _ _); [discriminate|].
  destruct (rsa_sign _ _ _ _ _); [discriminate|].
  destruct (writable w (sig_path path)); [reflexivity | discriminate].
Qed.

(** C1.  Round trip.  With a key pair in place whose public key is the
    one of the private key, a JSON codec that reads back what it wrote and
    a signature scheme that accepts its own signatures: when the [hash]
    command, then the [sign] command, have succeeded on a file and nothing
    else has touched the machine, [verify_file] returns [True] on that
    file and the [verify] command exits with code 0. *)
Theorem sign_then_verify_valid (w0 : World)
    (prog path pem_private pem_public : string) (key : private_key) :
  (forall d, json_load (json_dump d) = Some d) ->
  (forall k message pad alg seed,
      rsa_verify (public_key_of k) (rsa_sign k message pad alg seed)
                 message pad alg = true) ->
  files w0 !! private_path = Some pem_private ->
  load_pem_private_key pem_private = Some key ->
  files w0 !! public_path = Some pem_public ->
  load_pem_public_key pem_public = Some (public_key_of key) ->
  result (main [prog; "hash"; path] w0) = Ok 0%Z ->
  result (main [prog; "sign"; path]
               (world_after (main [prog; "hash"; path] w0))) = Ok 0%Z ->
  let w2 := world_after (main [prog; "sign"; path]
                              (world_after (main [prog; "hash"; path] w0))) in
  result (verify_file path w2) = Ok true
  /\ result (main [prog; "verify"; path] w2) = Ok 0%Z.
Proof.
  intros Hjson Hrsa Hpriv Hkey Hpub Hpubkey Hhash Hsign w2.
  destruct (main_hash_exit_0 w0 prog path Hhash) as (content & Hfile & Hw1).
  set (w1 := world_after (main [prog; "hash"; path] w0)) in *.
  assert (Hpriv1 : files w1 !! private_path = Some pem_private).
  { rewrite Hw1. simpl.
    now rewrite lookup_insert_ne by apply hash_path_not_private. }
  destruct (main_sign_exit_0 w1 prog path pem_private key Hpriv1 Hkey Hsign)
    as (content1 & Hfile1 & Hw2).
  assert (content1 = content) as ->.
  { rewrite Hw1 in Hfile1. simpl in Hfile1.
    rewrite lookup_insert_ne in Hfile1 by apply hash_path_not_self.
    congruence. }
  fold w2 in Hw2.
  set (signature := rsa_sign key (sha512_digest content) pss_sha512 SHA512
                             (entropy w1)) in *.
  assert (Hfiles2 : files w2
                    = <[sig_path path := signature]>
                        (<[hash_path path := json_dump (digests content)]>
                           (files w0))).
  { rewrite Hw2. simpl. now rewrite Hw1. }
  assert (Hfile2 : files w2 !! path = Some content).
  { rewrite Hfiles2.
    rewrite lookup_insert_ne by apply sig_path_not_self.
    now rewrite lookup_insert_ne by apply hash_path_not_self. }
  assert (Hverify : result (verify_file path w2) = Ok true).
  { destruct (existsb (fun ext => endswith path ext)
                (hashes_extensions SECURITY_CONFIG)) eqn:Hext.
    2:{ unfold verify_file, try_except. now rewrite Hext. }
    assert (Htext2 : files w2 !! hash_path path
                     = Some (json_dump (digests content))).
    { rewrite Hfiles2.
      rewrite lookup_insert_ne by apply hash_path_not_sig_path.
      now rewrite lookup_insert_eq. }
    assert (Hpub2 : files w2 !! public_path = Some pem_public).
    { rewrite Hfiles2.
      rewrite lookup_insert_ne by apply sig_path_not_public.
      now rewrite lookup_insert_ne by apply hash_path_not_public. }
    assert (Hsig2 : files w2 !! sig_path path = Some signature).
    { rewrite Hfiles2. now rewrite lookup_insert_eq. }
    rewrite (verify_file_listed w2 path Hext).
    unfold try_except, or_else. unfold bind at 1. unfold print at 1, emit at 1.
    unfold bind at 1.
    rewrite (verify_file_hashes_present w2 path _ content (digests content)
               Htext2 (Hjson _) Hfile2).
    unfold bind at 1. unfold bind at 1. unfold emit at 1 2.
    rewrite (compare_hashes_match w2 (digests content) content
               (digests_lookup content)).
    unfold bind at 1.
    rewrite (verify_file_signature_valid w2 path pem_public signature content
               (public_key_of key) Hpub2 Hpubkey Hsig2 Hfile2 (Hrsa _ _ _ _ _)).
    reflexivity. }
  split; [exact Hverify|].
  rewrite (main_verify_file w2 prog path content Hfile2).
  unfold bind, result in *.
  destruct (verify_file path w2) as [[r w3] l3]. simpl in Hverify. subst r.
  reflexivity.
Qed.

Lemma no_extension_matches (path : string) :
  (forall ext, In ext (hashes_extensions SECURITY_CONFIG) ->
               endswith path ext = false) ->
  existsb (fun ext => endswith path ext) (hashes_extensions SECURITY_CONFIG)
  = false.
Proof.
  intros Hno. apply not_true_is_false. intros Hex.
  apply existsb_exists in Hex as (ext & Hin & Hend).
  rewrite (Hno ext Hin) in Hend. discriminate.
Qed.

(** C8. A file whose name ends in none of the configured extensions
    [.exe], [.dll], [.so], [.dylib], [.rom] is reported valid at once:
    [verify_file] returns [True] having printed nothing, computed no
    digest and checked no signature, and the [verify] command exits with
    code 0 for such a file.  Names in [.tar.gz] and [.zip] are of this
    kind. *)
Theorem verify_file_extension_bypass :
  (forall (path : string) (w : World),
      (forall ext, In ext (hashes_extensions SECURITY_CONFIG) ->
                   endswith path ext = false) ->
      verify_file path w = (Ok true, w, [])
      /\ (forall prog, is_Some (files w !! path) ->
            main [prog; "verify"; path] w = (Ok 0%Z, w, [])))
  /\ (forall (stem : string) (w : World),
        verify_file (stem +:+ ".tar.gz") w = (Ok true, w, [])
        /\ verify_file (stem +:+ ".zip") w = (Ok true, w, [])).
Proof.
  assert (Hbypass : forall path w,
             (forall ext, In ext (hashes_extensions SECURITY_CONFIG) ->
                          endswith path ext = false) ->
             verify_file path w = (Ok true, w, [])).
  { intros path w Hno. unfold verify_file, try_except.
    rewrite (no_extension_matches path Hno). reflexivity. }
  split.
  - intros path w Hno. split; [now apply Hbypass|].
    intros prog Hfile. unfold main. simpl.
    unfold bind, os_path_isfile, os_path_exists.
    rewrite bool_decide_eq_true_2 by exact Hfile. simpl.
    rewrite (Hbypass path w Hno). reflexivity.
  - assert (Hlast : forall stem tail c w,
               tail <> "" -> last_char tail = Some c ->
               ~ In (Some c) (map last_char (hashes_extensions SECURITY_CONFIG)) ->
               verify_file (stem +:+ tail) w = (Ok true, w, [])).
    { intros stem tail c w Hne Hc Hnot. apply Hbypass. intros ext Hin.
      apply not_true_is_false. intros Hend.
      apply Hnot. rewrite <- Hc, <- (last_char_append stem tail Hne).
      assert (Hext : ext <> "").
      { simpl in Hin. intuition (subst; discriminate). }
      rewrite (endswith_last_char _ _ Hext Hend).
      now apply in_map. }
    intros stem w. split.
    + apply (Hlast stem ".tar.gz" "z"%char); [discriminate | reflexivity |].
      simpl. intuition discriminate.
    + apply (Hlast stem ".zip" "p"%char); [discriminate | reflexivity |].
      simpl. intuition discriminate.
Qed.

End Security.

(** ** Examples *)

Section Examples.
Import Example_backend.
Import manage_security.

Lemma pos_of_bits_of_pos (p : positive) : pos_of_bits (bits_of_pos p) = Some p.
Proof. induction p as [p IH|p IH|]; simpl; rewrite ?IH; reflexivity. Qed.

Lemma toy_json_load_dump (d : gmap string string) :
  json_load (json_dump d) = Some d.
Proof.
  simpl. rewrite pos_of_bits_of_pos. simpl. apply decode_encode.
Qed.

Lemma toy_rsa_verify_sign (k : private_key) (message : string)
    (pad : padding) (alg : hash_alg) (seed : nat) :
  rsa_verify (public_key_of k) (rsa_sign k message pad alg seed)
             message pad alg = true.
Proof. simpl. apply String.eqb_refl. Qed.

Lemma sign_then_verify_valid_witness :
  let w2 := world_after (main ["manage_security.py"; "sign"; "game.rom"]
              (world_after (main ["manage_security.py"; "hash"; "game.rom"]
                                 rom_world))) in
  result (verify_file "game.rom" w2) = Ok true
  /\ result (main ["manage_security.py"; "verify"; "game.rom"] w2) = Ok 0%Z.
Proof.
  apply (sign_then_verify_valid rom_world "manage_security.py" "game.rom"
           "PRIVATE k1" "PUBLIC k1" ("k1" : @private_key toy)).
  - exact toy_json_load_dump.
  - exact toy_rsa_verify_sign.
  - vm_compute. reflexivity.
  - vm_compute. reflexivity.
  - vm_compute. reflexivity.
  - vm_compute. reflexivity.
  - vm_compute. reflexivity.
  - vm_compute. reflexivity.
Defined.


(** C4 fails as stated, in two ways: an archive with no metadata at all is
    reported valid; and for a ROM without signature file the digests are
    recomputed and compared all the same, and it is their mismatch that
    is reported. *)
Lemma missing_signature_not_reported :
  (files archive_world !! hash_path "demo.tar.gz" = None
   /\ files archive_world !! sig_path "demo.tar.gz" = None
   /\ verify_file "demo.tar.gz" archive_world = (Ok true, archive_world, []))
  /\ (files rom_unsigned_stale !! sig_path "game.rom" = None
      /\ verify_file "game.rom" rom_unsigned_stale
         = (Ok false, rom_unsigned_stale,
            [Stdout (nl +:+ "Verificando arquivo: game.rom");
             HashlibNew "sha256"; HashlibNew "sha512";
             Stdout "Hash sha256 inválido."])).
Proof. repeat split; vm_compute; reflexivity. Qed.

Lemma verify_file_missing_metadata_witness :
  files rom_world !! hash_path "game.rom" = None
  /\ verify_file "game.rom" rom_world
     = (Ok false, rom_world,
        [Stdout (nl +:+ "Verificando arquivo: " +:+ "game.rom");
         Stdout "Arquivo de hashes não encontrado."]).
Proof.
  assert (Habs : files rom_world !! hash_path "game.rom" = None)
    by (vm_compute; reflexivity).
  split; [exact Habs|].
  apply (proj1 (verify_file_missing_metadata rom_world "game.rom")).
  - vm_compute. reflexivity.
  - exact Habs.
Defined.



Lemma signer_parameters_witness :
  In (RsaSign (sha512_digest "ROM image") pss_sha512 SHA512)
     (events (sign_file "game.rom" rom_world))
  /\ (pss_sha512 = PSS (MGF1 SHA512) (SaltBytes 64)
      /\ SHA512 = SHA512
      /\ exists content,
          files rom_world !! "game.rom" = Some content
          /\ sha512_digest "ROM image" = sha512_digest content).
Proof.
  assert (Hin : In (RsaSign (sha512_digest "ROM image") pss_sha512 SHA512)
                   (events (sign_file "game.rom" rom_world)))
    by (vm_compute; auto).
  split; [exact Hin|].
  exact (proj1 (signer_parameters rom_world "game.rom") _ _ _ Hin).
Defined.

Lemma verify_file_extension_bypass_witness :
  (forall ext, In ext (hashes_extensions SECURITY_CONFIG) ->
               endswith "demo.tar.gz" ext = false)
  /\ verify_file "demo.tar.gz" archive_world = (Ok true, archive_world, [])
  /\ main ["manage_security.py"; "verify"; "demo.tar.gz"] archive_world
     = (Ok 0%Z, archive_world, []).
Proof.
  assert (Hno : forall ext, In ext (hashes_extensions SECURITY_CONFIG) ->
                            endswith "demo.tar.gz" ext = false).
  { intros ext Hin. simpl in Hin.
    destruct Hin as [<-|[<-|[<-|[<-|[<-|[]]]]]]; vm_compute; reflexivity. }
  split; [exact Hno|].
  destruct (proj1 verify_file_extension_bypass "demo.tar.gz" archive_world Hno)
    as [Hverify Hmain].
  split; [exact Hverify|].
  apply Hmain. vm_compute. eauto.
Defined.

(** *** Distribution *)

Lemma gate_blocks_whole_batch_witness :
  result (manage_dist.collect_packages release_one_bad) = Ok release_batch
  /\ ~ passes release_one_bad "package/dist/mega_emu.deb"
  /\ result (manage_dist.main ["manage_dist.py"; "publish"; "all"]
                              release_one_bad) = Ok 1%Z
  /\ Forall not_publish
       (events (manage_dist.main ["manage_dist.py"; "publish"; "all"]
                                 release_one_bad)).
Proof.
  assert (Hcollect : result (manage_dist.collect_packages release_one_bad)
                     = Ok release_batch) by (vm_compute; reflexivity).
  assert (Hbad : ~ passes release_one_bad "package/dist/mega_emu.deb")
    by (vm_compute; discriminate).
  split; [exact Hcollect|]. split; [exact Hbad|].
  apply (gate_blocks_whole_batch release_one_bad "manage_dist.py" "all"
           release_batch Hcollect).
  exists "package/dist/mega_emu.deb". split; [|exact Hbad].
  simpl. auto.
Defined.


Example good_release_is_published :
  result (manage_dist.main ["manage_dist.py"; "publish"; "all"] release_good)
  = Ok 0%Z
  /\ List.filter is_publish
       (events (manage_dist.main ["manage_dist.py"; "publish"; "all"]
                                 release_good))
     = [Publish "github"; Publish "sourceforge"; Publish "itch"].
Proof. split; vm_compute; reflexivity. Qed.



(** *** Packaging *)

Lemma verify_package_fails_before_signing_witness :
  manage_package.verify_package "package/dist/mega_emu.zip" package_world
  = (Ok false,
     set_files package_world
       (<["package/dist/mega_emu.zip" +:+ ".sha512" :=
            digest_line "package/dist/mega_emu.zip" "zip bytes" "sha512"]>
          (<["package/dist/mega_emu.zip" +:+ ".sha256" :=
               digest_line "package/dist/mega_emu.zip" "zip bytes" "sha256"]>
             (files package_world))),
     [Stdout (nl +:+ "Verificando pacote " +:+ "package/dist/mega_emu.zip"
              +:+ "...");
      HashlibNew "sha256"; HashlibNew "sha512";
      Stderr ("Erro ao verificar pacote: " +:+ str not_subscriptable)])
  /\ files (world_after (manage_package.verify_package
                           "package/dist/mega_emu.zip" package_world))
       !! ("package/dist/mega_emu.zip" +:+ ".sig")
     = files package_world !! ("package/dist/mega_emu.zip" +:+ ".sig").
Proof.
  apply (proj2 verify_package_fails_before_signing package_world
           "package/dist/mega_emu.zip" "zip bytes" "PRIVATE k1"
           ("k1" : @private_key toy));
    vm_compute; reflexivity.
Defined.

Lemma packaged_signature_never_checked_witness :
  files package_world !! ("package/dist/mega_emu.zip" +:+ ".sig") = None
  /\ result (manage_dist.verify_packages
               [("windows", ["package/dist/mega_emu.zip"])]
               (world_after (manage_package.verify_package
                               "package/dist/mega_emu.zip" package_world)))
     = Ok false.
Proof.
  assert (Hnone : files package_world
                    !! ("package/dist/mega_emu.zip" +:+ ".sig") = None)
    by (vm_compute; reflexivity).
  split; [exact Hnone|].
  exact (proj1 (proj2 (proj2 packaged_signature_never_checked) package_world
                  "package/dist/mega_emu.zip" "windows" Hnone)).
Defined.

(** What the two scripts print, one after the other, for that package. *)
Example packaged_then_distributed :
  events (manage_package.verify_package "package/dist/mega_emu.zip"
                                        package_world)
  = [Stdout (nl +:+ "Verificando pacote package/dist/mega_emu.zip...");
     HashlibNew "sha256"; HashlibNew "sha512";
     Stderr "Erro ao verificar pacote: 'module' object is not subscriptable"]
  /\ events (manage_dist.verify_packages
               [("windows", ["package/dist/mega_emu.zip"])]
               (world_after (manage_package.verify_package
                               "package/dist/mega_emu.zip" package_world)))
     = [Stdout (nl +:+ "Verificando pacotes...");
        Stdout (nl +:+ "Verificando mega_emu.zip...");
        HashlibNew "sha256"; HashlibNew "sha512";
        Stdout "Assinatura não encontrada."].
Proof. split; vm_compute; reflexivity. Qed.

End Examples.

(** ** Further properties of [manage_dist] *)

Section Dist_gate.
Context `{Backend}.
Import manage_dist.

Lemma verify_hash_passed (w : World) (path algorithm : string)
    (before after : option string) :
  result (verify_hash path before algorithm w) = Ok (inl after) ->
  exists content,
    files w !! path = Some content
    /\ stored w path algorithm (hexdigest algorithm content)
    /\ after = Some (hexdigest algorithm content).
Proof.
  unfold verify_hash, hashlib_file, first_field, bind, os_path_exists,
    open_read, emit, result, stored.
  destruct (files w !! (path +:+ "." +:+ algorithm)) as [text|] eqn:Htext;
    simpl; [|discriminate].
  rewrite Htext.
  destruct (take_word (lstrip text)) as [|c word] eqn:Hword; simpl;
    [discriminate|].
  destruct (files w !! path) as [content|]; simpl; [|discriminate].
  fold (hexdigest algorithm content).
  destruct (String.eqb_spec (hexdigest algorithm content) (String c word))
    as [Heq|Hne]; simpl; [|discriminate].
  intros [= <-]. exists content. rewrite Heq. repeat split.
  exists text. rewrite Hword. repeat split. discriminate.
Qed.

Lemma verify_hashes_passed (w : World) (path : string) (after : option string) :
  result (for_state (verification_algorithms DIST_CONFIG) None
                    (verify_hash path) w) = Ok (inl after) ->
  exists content,
    files w !! path = Some content
    /\ stored w path "sha256" (hexdigest "sha256" content)
    /\ stored w path "sha512" (hexdigest "sha512" content)
    /\ after = Some (hexdigest "sha512" content).
Proof.
  simpl. unfold bind at 1.
  assert (Hro1 : readonly (verify_hash path None "sha256"))
    by (unfold verify_hash, hashlib_file, first_field; frame).
  specialize (Hro1 w). unfold world_after in Hro1.
  pose proof (verify_hash_passed w path "sha256" None) as Hfirst.
  unfold result in Hfirst.
  destruct (verify_hash path None "sha256" w) as [[[[s1|v]|e] w1] l1];
    simpl in Hro1, Hfirst; subst; unfold result; simpl; try discriminate.
  destruct (Hfirst s1 eq_refl) as (content & Hfile & Hs256 & _).
  unfold bind.
  pose proof (verify_hash_passed w path "sha512" s1) as Hnext.
  unfold result in Hnext.
  destruct (verify_hash path s1 "sha512" w) as [[[[s2|v]|e] w2] l2];
    simpl in *; try discriminate.
  intros [= <-].
  destruct (Hnext s2 eq_refl) as (content' & Hfile' & Hs512 & ->).
  assert (content' = content) as -> by congruence.
  exists content. auto.
Qed.

Lemma verify_signature_passed (w : World) (path h : string) :
  result (verify_signature path (Some h) w) = Ok None ->
  exists (text signature pem : string) (key : public_key),
    files w !! (path +:+ ".sig") = Some text
    /\ b64decode text = Some signature
    /\ files w !! public_pem_path = Some pem
    /\ load_pem_public_key pem = Some key
    /\ rsa_verify key signature h pss_sha256 SHA256 = true.
Proof.
  unfold verify_signature, base64_b64decode, load_public, verify, try_except,
    bind, os_path_exists, open_read, emit, print, ret, raise, result.
  simpl.
  destruct (files w !! (path +:+ ".sig")) as [text|] eqn:Hsig; simpl;
    [|discriminate].
  rewrite Hsig.
  destruct (b64decode text) as [sig|] eqn:Hb64; simpl; [|discriminate].
  destruct (files w !! public_pem_path) as [pem|] eqn:Hpem; simpl;
    [|discriminate].
  destruct (load_pem_public_key pem) as [key|] eqn:Hkey; simpl;
    [|discriminate].
  destruct (rsa_verify key sig h pss_sha256 SHA256) eqn:Hok; simpl;
    [|discriminate].
  intros _. exists text, sig, pem, key. auto.
Qed.



Lemma passes_valid_package (w : World) (path : string) :
  passes w path -> valid_package w path.
Proof.
  unfold passes, verify_path.
  pose proof (verify_hashes_readonly path None w) as Hro.
  pose proof (verify_hashes_passed w path) as Hloop.
  set (loop := for_state (verification_algorithms DIST_CONFIG) None
                 (verify_hash path)) in *.
  unfold bind, print, emit, result, world_after in *.
  destruct (loop w) as [[[[after|v]|e] w1] l1]; simpl in Hro, Hloop |- *;
    subst w1; try discriminate.
  destruct (Hloop after eq_refl) as (content & Hfile & Hs256 & Hs512 & ->).
  pose proof (verify_signature_passed w path (hexdigest "sha512" content))
    as Hsig.
  unfold result in Hsig.
  destruct (verify_signature path _ w) as [[[[v|]|e] w2] l2]; simpl in *;
    try discriminate.
  intros _. destruct (Hsig eq_refl) as (text & sig & pem & key & H1 & H2 & H3 & H4 & H5).
  exists content, text, sig, pem, key. auto 10.
Qed.



End Dist_gate.

Section Dist_publish.
Context `{Backend}.
Import manage_dist.

Lemma collect_packages_run (w : World) :
  collect_packages w
  = (Ok [("windows", found w ["*.exe"; "*.zip"]);
         ("linux", found w ["*.deb"; "*.rpm"; "*.AppImage"]);
         ("macos", found w ["*.dmg"; "*.pkg"])],
     w, [Stdout (nl +:+ "Coletando pacotes...")]).
Proof.
  unfold collect_packages, try_except, glob_files, found. simpl.
  unfold bind, print, emit, ret. simpl.
  now rewrite !app_nil_r, <- !app_assoc.
Qed.

Lemma found_by_spec (glob : string -> list string) (w : World)
    (patterns : list string) (path : string) :
  In path (found_by glob w patterns)
  <-> is_Some (files w !! path)
      /\ exists pattern, In pattern patterns /\ In path (glob pattern).
Proof.
  unfold found_by. rewrite in_concat. split.
  - intros (l & Hl & Hin). apply in_map_iff in Hl as (pattern & <- & Hpattern).
    apply list_elem_of_In, list_elem_of_filter in Hin as [Hfile Hglob].
    split; [exact Hfile|]. exists pattern. split; [exact Hpattern|].
    now apply list_elem_of_In.
  - intros (Hfile & pattern & Hpattern & Hglob).
    exists (filter (fun path => is_Some (files w !! path)) (glob pattern)).
    split; [apply in_map_iff; now exists pattern|].
    apply list_elem_of_In, list_elem_of_filter. split; [exact Hfile|].
    now apply list_elem_of_In.
Qed.

(** X2.  [collect_packages] always answers with the three platforms
    windows, linux and macos, in that order, and never changes the world;
    what it has collected for a platform is exactly the regular files of
    the world that the patterns configured for that platform find in
    [package/dist], pattern after pattern and in the order of the glob:
    no other path, and none of those left out. *)
Theorem collect_packages_collects_files (w : World) :
  collect_packages w
  = (Ok (map (fun '(platform, formats) =>
                (platform, found w (map snd formats)))
             (packages_patterns DIST_CONFIG)),
     w, [Stdout (nl +:+ "Coletando pacotes...")])
  /\ map fst (packages_patterns DIST_CONFIG) = ["windows"; "linux"; "macos"]
  /\ forall patterns path,
       In path (found w patterns)
       <-> is_Some (files w !! path)
           /\ exists pattern,
                In pattern patterns /\ In path (glob_dist w pattern).
Proof.
  split; [apply collect_packages_run|]. split; [reflexivity|].
  intros patterns path. apply (found_by_spec (glob_dist w)).
Qed.

Lemma filter_not_publish (l : list event) :
  Forall not_publish l -> List.filter is_publish l = [].
Proof.
  induction 1 as [|e l He Hl IH]; [reflexivity|].
  simpl. unfold not_publish in He. now rewrite He.
Qed.

(** The run of the [publish] command on a batch that passes. *)
Lemma main_publish_run (w : World) (platform : string) (packages : Packages) :
  result (collect_packages w) = Ok packages ->
  Forall (passes w) (paths_of packages) ->
  main_publish platform w
  = (Ok (exit_code (channel_ok w) platform channels), w,
     events (collect_packages w) ++ events (verify_packages packages w)
       ++ called (channel_ok w) platform channels).
Proof.
  intros Hcollect Hall.
  pose proof (verify_packages_passes w packages Hall) as Hverify.
  rewrite collect_packages_run in Hcollect |- *.
  unfold result in Hcollect. simpl in Hcollect. injection Hcollect as <-.
  unfold main_publish. unfold bind at 1. rewrite collect_packages_run.
  unfold bind at 1. rewrite Hverify. simpl negb. cbv iota.
  unfold events. simpl fst. simpl snd.
  unfold or_else, publish_if, publish_github, publish_sourceforge,
    publish_itch, publish, bind, emit, ret, channels. simpl.
  destruct (String.eqb platform "github"), (String.eqb platform "all"),
    (String.eqb platform "sourceforge"), (String.eqb platform "itch");
    simpl;
    repeat match goal with
           | |- context [channel_ok w ?c] => destruct (channel_ok w c); simpl
           end;
    rewrite ?app_nil_r, <- ?app_assoc; reflexivity.
Qed.

Lemma main_publish_calls (w : World) (platform : string) (packages : Packages) :
  result (collect_packages w) = Ok packages ->
  Forall (passes w) (paths_of packages) ->
  result (main_publish platform w)
  = Ok (exit_code (channel_ok w) platform channels)
  /\ List.filter is_publish (events (main_publish platform w))
     = called (channel_ok w) platform channels.
Proof.
  intros Hcollect Hall.
  rewrite (main_publish_run w platform packages Hcollect Hall).
  split; [reflexivity|]. unfold events at 1. cbv beta iota delta [snd].
  rewrite !List.filter_app.
  rewrite (filter_not_publish _ (collect_packages_not_publish w)).
  rewrite (filter_not_publish _ (verify_packages_not_publish packages w)).
  simpl. clear. unfold channels. simpl.
  destruct (String.eqb platform "github"), (String.eqb platform "all"),
    (String.eqb platform "sourceforge"), (String.eqb platform "itch"),
    (channel_ok w "github"), (channel_ok w "sourceforge"),
    (channel_ok w "itch"); reflexivity.
Qed.

Lemma main_publish_command (w : World) (prog platform : string) :
  In platform ("all" :: channels) ->
  main [prog; "publish"; platform] w = main_publish platform w.
Proof.
  intros [<-|[<-|[<-|[<-|[]]]]]; reflexivity.
Qed.

(** X3.  Channels are tried in the order github, sourceforge, itch, and the
    first failure ends the run.  For a batch that passes verification, the
    [publish] command calls the publisher of the platform asked for, or,
    for [all], the three publishers in that order up to and including the
    first that fails; it exits with 0 when every publisher called has
    succeeded and with 1 otherwise, the publishers before the failing one
    having done their work. *)
Theorem publish_stops_at_first_failing_channel (w : World)
    (prog platform : string) (packages : Packages) :
  In platform ("all" :: channels) ->
  result (collect_packages w) = Ok packages ->
  Forall (passes w) (paths_of packages) ->
  result (main [prog; "publish"; platform] w)
  = Ok (exit_code (channel_ok w) platform channels)
  /\ List.filter is_publish (events (main [prog; "publish"; platform] w))
     = called (channel_ok w) platform channels.
Proof.
  intros Hplatform Hcollect Hall.
  rewrite (main_publish_command w prog platform Hplatform).
  now apply main_publish_calls with (packages := packages).
Qed.

Example called_all_sourceforge_down :
  called (fun channel => negb (String.eqb channel "sourceforge")) "all" channels
  = [Publish "github"; Publish "sourceforge"]
  /\ exit_code (fun channel => negb (String.eqb channel "sourceforge"))
               "all" channels = 1%Z.
Proof. split; reflexivity. Qed.

Example called_itch_only :
  called (fun _ => true) "itch" channels = [Publish "itch"]
  /\ exit_code (fun _ => true) "itch" channels = 0%Z.
Proof. split; reflexivity. Qed.

Lemma found_nothing (w : World) (patterns : list string) :
  (forall pattern, glob_dist w pattern = []) -> found w patterns = [].
Proof.
  intros Hnone. unfold found.
  induction patterns as [|pattern patterns IH]; [reflexivity|].
  simpl. now rewrite Hnone, IH.
Qed.

(** X4.  An empty release is not held back.  When [package/dist] holds no
    package at all, the dictionary of [collect_packages] still has its
    three platforms, so the test [if not packages] lets it through,
    [verify_packages] has nothing to reject and returns [True], and the
    publishers are called as for any batch that passes: with every channel
    answering, [publish all] exits with 0 after three calls. *)
Theorem empty_release_is_published (w : World) (prog platform : string) :
  (forall pattern, glob_dist w pattern = []) ->
  In platform ("all" :: channels) ->
  result (verify_packages
            [("windows", []); ("linux", []); ("macos", [])] w) = Ok true
  /\ result (main [prog; "publish"; platform] w)
     = Ok (exit_code (channel_ok w) platform channels)
  /\ List.filter is_publish (events (main [prog; "publish"; platform] w))
     = called (channel_ok w) platform channels
  /\ ((forall channel, channel_ok w channel = true) ->
      result (main [prog; "publish"; "all"] w) = Ok 0%Z
      /\ List.filter is_publish (events (main [prog; "publish"; "all"] w))
         = [Publish "github"; Publish "sourceforge"; Publish "itch"]).
Proof.
  intros Hnone Hplatform.
  set (empty := [("windows", []); ("linux", []); ("macos", [])] : Packages).
  assert (Hall : Forall (passes w) (paths_of empty)) by constructor.
  assert (Hcollect : result (collect_packages w) = Ok empty).
  { rewrite collect_packages_run. unfold result. simpl.
    now rewrite !found_nothing by exact Hnone. }
  assert (Hrun : forall p, In p ("all" :: channels) ->
            result (main [prog; "publish"; p] w)
            = Ok (exit_code (channel_ok w) p channels)
            /\ List.filter is_publish (events (main [prog; "publish"; p] w))
               = called (channel_ok w) p channels).
  { intros p Hp. rewrite (main_publish_command w prog p Hp).
    now apply main_publish_calls with (packages := empty). }
  split; [now rewrite (verify_packages_passes w empty Hall)|].
  destruct (Hrun platform Hplatform) as [Hexit Hcalled].
  split; [exact Hexit|]. split; [exact Hcalled|].
  intros Hok. destruct (Hrun "all" (or_introl eq_refl)) as [Hexit' Hcalled'].
  rewrite Hexit', Hcalled'. unfold channels. simpl. rewrite !Hok. auto.
Qed.

End Dist_publish.

(** ** Further properties of [manage_security] *)

Section Security_verdicts.
Context `{Backend}.
Import manage_security.

Lemma verify_file_signature_run (w : World)
    (path pem signature content : string) (key : public_key) :
  files w !! public_path = Some pem ->
  load_pem_public_key pem = Some key ->
  files w !! sig_path path = Some signature ->
  files w !! path = Some content ->
  verify_file_signature path w
  = if rsa_verify key signature (sha512_digest content) pss_sha512 SHA512
    then (Ok None, w,
          [HazmatHash SHA512;
           RsaVerify signature (sha512_digest content) pss_sha512 SHA512])
    else (Ok (Some false), w,
          [HazmatHash SHA512;
           RsaVerify signature (sha512_digest content) pss_sha512 SHA512;
           Stdout "Assinatura inválida."]).
Proof.
  intros Hpem Hkey Hsig Hfile.
  unfold verify_file_signature, load_public, hazmat_file, verify, try_except,
    bind, open_read, os_path_exists.
  simpl. rewrite Hpem, Hkey. simpl. rewrite Hsig. simpl. rewrite Hsig. simpl.
  rewrite Hfile. simpl. fold (sha512_digest content).
  now destruct (rsa_verify key signature (sha512_digest content) pss_sha512
                           SHA512).
Qed.

(** A run of [verify_file] on a listed file, from the runs of its two
    blocks. *)
Lemma verify_file_blocks (w : World) (path : string)
    (r1 : res (option bool)) (l1 : list event) :
  existsb (fun ext => endswith path ext) (hashes_extensions SECURITY_CONFIG)
  = true ->
  verify_file_hashes path w = (r1, w, l1) ->
  verify_file path w
  = match r1 with
    | Ok (Some v) =>
        (Ok v, w, Stdout (nl +:+ "Verificando arquivo: " +:+ path) :: l1)
    | Raise e =>
        (Ok false, w,
         Stdout (nl +:+ "Verificando arquivo: " +:+ path)
           :: l1 ++ [Stderr ("Erro ao verificar arquivo: " +:+ str e)])
    | Ok None =>
        match verify_file_signature path w with
        | (Ok (Some v), w2, l2) =>
            (Ok v, w2,
             Stdout (nl +:+ "Verificando arquivo: " +:+ path) :: l1 ++ l2)
        | (Raise e, w2, l2) =>
            (Ok false, w2,
             Stdout (nl +:+ "Verificando arquivo: " +:+ path)
               :: (l1 ++ l2)
               ++ [Stderr ("Erro ao verificar arquivo: " +:+ str e)])
        | (Ok None, w2, l2) =>
            (Ok true, w2,
             Stdout (nl +:+ "Verificando arquivo: " +:+ path)
               :: l1 ++ l2 ++ [Stdout "Arquivo verificado com sucesso."])
        end
    end.
Proof.
  intros Hext Hhashes. rewrite (verify_file_listed w path Hext).
  unfold try_except, or_else. unfold bind at 1. unfold print at 1, emit at 1.
  unfold bind at 1. rewrite Hhashes.
  destruct r1 as [[v|]|e]; simpl; rewrite ?app_nil_r; try reflexivity.
  unfold bind at 1.
  destruct (verify_file_signature path w) as [[[[v|]|e] w2] l2]; simpl;
    rewrite ?app_nil_r; reflexivity.
Qed.

Lemma verify_file_hashes_match (w : World)
    (path text content : string) (saved : gmap string string) :
  files w !! hash_path path = Some text ->
  json_load text = Some saved ->
  files w !! path = Some content ->
  (forall a, In a (hashes_algorithms SECURITY_CONFIG) ->
             saved !! a = Some (hexdigest a content)) ->
  verify_file_hashes path w
  = (Ok None, w, [HashlibNew "sha256"; HashlibNew "sha512"]).
Proof.
  intros Htext Hjson Hfile Hall.
  rewrite (verify_file_hashes_present w path text content saved
             Htext Hjson Hfile).
  unfold bind at 1. unfold bind at 1. unfold emit at 1 2.
  now rewrite (compare_hashes_match w saved content Hall).
Qed.

(** X5.  Once the digests match, the verdict of [verify_file] is the
    verdict of the signature check.  For a listed file whose saved hashes
    equal the current digests, with a public key that loads and a
    signature file in place, [verify_file] checks the signature over the
    raw SHA-512 digest and returns what the check says: [True] with the
    line of success, or [False] with the line of the invalid signature
    (a signature made with another key, or damaged, is refused here). *)
Theorem verify_file_signature_verdict (w : World)
    (path text content pem signature : string) (saved : gmap string string)
    (key : public_key) :
  existsb (fun ext => endswith path ext) (hashes_extensions SECURITY_CONFIG)
  = true ->
  files w !! hash_path path = Some text ->
  json_load text = Some saved ->
  files w !! path = Some content ->
  (forall a, In a (hashes_algorithms SECURITY_CONFIG) ->
             saved !! a = Some (hexdigest a content)) ->
  files w !! public_path = Some pem ->
  load_pem_public_key pem = Some key ->
  files w !! sig_path path = Some signature ->
  let accepted :=
    rsa_verify key signature (sha512_digest content) pss_sha512 SHA512 in
  verify_file path w
  = (Ok accepted, w,
     [Stdout (nl +:+ "Verificando arquivo: " +:+ path);
      HashlibNew "sha256"; HashlibNew "sha512";
      HazmatHash SHA512;
      RsaVerify signature (sha512_digest content) pss_sha512 SHA512;
      Stdout (if accepted then "Arquivo verificado com sucesso."
              else "Assinatura inválida.")]).
Proof.
  intros Hext Htext Hjson Hfile Hall Hpem Hkey Hsig accepted.
  rewrite (verify_file_blocks w path _ _ Hext
             (verify_file_hashes_match w path text content saved
                Htext Hjson Hfile Hall)).
  rewrite (verify_file_signature_run w path pem signature content key
             Hpem Hkey Hsig Hfile).
  fold accepted. now destruct accepted.
Qed.

(** X6.  The public key is read before the signature file is looked for.
    For a listed file whose digests match, a missing public key makes
    [verify_file] return [False] with the error of the missing key file on
    the standard error stream, whether the signature file exists or not;
    a key file that does not load does the same with the error that the
    loader raises for it, whatever its text. *)
Theorem verify_file_key_error_first (w : World)
    (path text content : string) (saved : gmap string string) :
  existsb (fun ext => endswith path ext) (hashes_extensions SECURITY_CONFIG)
  = true ->
  files w !! hash_path path = Some text ->
  json_load text = Some saved ->
  files w !! path = Some content ->
  (forall a, In a (hashes_algorithms SECURITY_CONFIG) ->
             saved !! a = Some (hexdigest a content)) ->
  (files w !! public_path = None ->
   verify_file path w
   = (Ok false, w,
      [Stdout (nl +:+ "Verificando arquivo: " +:+ path);
       HashlibNew "sha256"; HashlibNew "sha512";
       Stderr ("Erro ao verificar arquivo: "
               +:+ str (FileNotFoundError public_path))]))
  /\ (forall pem,
        files w !! public_path = Some pem ->
        load_pem_public_key pem = None ->
        verify_file path w
        = (Ok false, w,
           [Stdout (nl +:+ "Verificando arquivo: " +:+ path);
            HashlibNew "sha256"; HashlibNew "sha512";
            Stderr ("Erro ao verificar arquivo: "
                    +:+ str (load_pem_public_key_error pem))])).
Proof.
  intros Hext Htext Hjson Hfile Hall.
  pose proof (verify_file_blocks w path _ _ Hext
                (verify_file_hashes_match w path text content saved
                   Htext Hjson Hfile Hall)) as Hrun.
  split.
  - intros Hpem. rewrite Hrun.
    unfold verify_file_signature, load_public, bind, open_read. simpl.
    now rewrite Hpem.
  - intros pem Hpem Hkey. rewrite Hrun.
    unfold verify_file_signature, load_public, bind, open_read. simpl.
    now rewrite Hpem, Hkey.
Qed.

End Security_verdicts.

Section Security_soundness.
Context `{Backend}.
Import manage_security.

Lemma compare_hashes_passed (w : World) (saved current : gmap string string) :
  result (compare_hashes saved current w) = Ok None ->
  forall a, In a (hashes_algorithms SECURITY_CONFIG) ->
            exists h, saved !! a = Some h /\ current !! a = Some h.
Proof.
  unfold compare_hashes. simpl. unfold bind, result.
  destruct (saved !! "sha256") as [s1|] eqn:Hs1; simpl; [|discriminate].
  destruct (current !! "sha256") as [c1|] eqn:Hc1; simpl; [|discriminate].
  destruct (String.eqb s1 c1) eqn:He1; simpl; [|discriminate].
  destruct (saved !! "sha512") as [s2|] eqn:Hs2; simpl; [|discriminate].
  destruct (current !! "sha512") as [c2|] eqn:Hc2; simpl; [|discriminate].
  destruct (String.eqb s2 c2) eqn:He2; simpl; [|discriminate].
  intros _ a [<-|[<-|[]]].
  - exists s1. apply String.eqb_eq in He1. now subst c1.
  - exists s2. apply String.eqb_eq in He2. now subst c2.
Qed.

Lemma compare_hashes_returns (saved current : gmap string string) :
  returns (fun o => forall v, o = Some v -> v = false)
          (compare_hashes saved current).
Proof.
  unfold compare_hashes. intros w o. simpl. unfold bind, result.
  destruct (saved !! "sha256") as [s1|]; simpl; [|now intros [= <-] v [= <-]].
  destruct (current !! "sha256") as [c1|]; simpl; [|discriminate].
  destruct (String.eqb s1 c1); simpl; [|now intros [= <-] v [= <-]].
  destruct (saved !! "sha512") as [s2|]; simpl; [|now intros [= <-] v [= <-]].
  destruct (current !! "sha512") as [c2|]; simpl; [|discriminate].
  destruct (String.eqb s2 c2); simpl; [|now intros [= <-] v [= <-]].
  now intros [= <-] v.
Qed.

Lemma verify_file_hashes_returns (path : string) :
  returns (fun o => forall v, o = Some v -> v = false)
          (verify_file_hashes path).
Proof.
  unfold verify_file_hashes. simpl.
  apply returns_bind. intros present. destruct present.
  - apply returns_bind. intros saved. apply returns_bind. intros current.
    apply compare_hashes_returns.
  - apply returns_bind. intros _. apply returns_ret. now intros v [= <-].
Qed.

Lemma verify_file_signature_returns (path : string) :
  returns (fun o => forall v, o = Some v -> v = false)
          (verify_file_signature path).
Proof.
  unfold verify_file_signature. simpl.
  repeat (apply returns_bind; intros ?).
  match goal with |- context [if ?b then _ else _] => destruct b end.
  - repeat (apply returns_bind; intros ?). apply returns_try.
    + repeat (apply returns_bind; intros ?). apply returns_ret. discriminate.
    + intros _. apply returns_bind. intros _. apply returns_ret.
      now intros v [= <-].
  - apply returns_bind. intros _. apply returns_ret. now intros v [= <-].
Qed.

Lemma compare_hashes_empty (w : World) (saved : gmap string string) :
  result (compare_hashes saved ∅ w) <> Ok None.
Proof.
  intros Hpass.
  destruct (compare_hashes_passed w saved ∅ Hpass "sha256") as (h & _ & Hh).
  - now left.
  - now rewrite lookup_empty in Hh.
Qed.

(** What the hash block asks for. *)
Lemma verify_file_hashes_passed (w : World) (path : string) :
  result (verify_file_hashes path w) = Ok None ->
  exists (text content : string) (saved : gmap string string),
    files w !! hash_path path = Some text
    /\ json_load text = Some saved
    /\ files w !! path = Some content
    /\ (forall a, In a (hashes_algorithms SECURITY_CONFIG) ->
                  saved !! a = Some (hexdigest a content)).
Proof.
  intros Hpass.
  destruct (files w !! hash_path path) as [text|] eqn:Htext;
    [|now rewrite (verify_file_hashes_absent w path Htext) in Hpass].
  destruct (json_load text) as [saved|] eqn:Hjson.
  - destruct (files w !! path) as [content|] eqn:Hfile.
    + exists text, content, saved.
      split; [reflexivity|]. split; [exact Hjson|]. split; [reflexivity|].
      rewrite (verify_file_hashes_present w path text content saved
                 Htext Hjson Hfile) in Hpass.
      unfold bind at 1 2 in Hpass. unfold emit at 1 2 in Hpass.
      assert (Hcmp : result (compare_hashes saved (digests content) w) = Ok None).
      { destruct (compare_hashes saved (digests content) w) as [[r w1] l1].
        exact Hpass. }
      intros a Ha.
      destruct (compare_hashes_passed w saved _ Hcmp a Ha) as (h & Hs & Hc).
      rewrite (digests_lookup content a Ha) in Hc. congruence.
    + exfalso. apply (compare_hashes_empty w saved).
      revert Hpass. unfold verify_file_hashes, json_load_file. simpl.
      unfold bind at 1. unfold os_path_exists at 1. rewrite Htext. simpl.
      unfold bind at 1. unfold bind at 1. unfold open_read at 1.
      rewrite Htext, Hjson. simpl. unfold bind at 1.
      rewrite (calculate_hashes_missing w path Hfile).
      destruct (compare_hashes saved ∅ w) as [[r w1] l1]. exact id.
  - exfalso. revert Hpass. unfold verify_file_hashes, json_load_file. simpl.
    unfold bind at 1. unfold os_path_exists at 1. rewrite Htext. simpl.
    unfold bind at 1. unfold bind at 1. unfold open_read at 1.
    rewrite Htext, Hjson. discriminate.
Qed.

(** What the signature block asks for. *)
Lemma verify_file_signature_passed (w : World) (path : string) :
  result (verify_file_signature path w) = Ok None ->
  exists (pem signature content : string) (key : public_key),
    files w !! public_path = Some pem
    /\ load_pem_public_key pem = Some key
    /\ files w !! sig_path path = Some signature
    /\ files w !! path = Some content
    /\ rsa_verify key signature (sha512_digest content) pss_sha512 SHA512
       = true.
Proof.
  intros Hpass.
  destruct (files w !! sig_path path) as [signature|] eqn:Hsig;
    [|now destruct (verify_file_signature_without_sig w path Hsig)].
  destruct (files w !! public_path) as [pem|] eqn:Hpem;
    [|revert Hpass; unfold verify_file_signature, bind, open_read; simpl;
      now rewrite Hpem].
  destruct (load_pem_public_key pem) as [key|] eqn:Hkey;
    [|revert Hpass; unfold verify_file_signature, load_public, bind, open_read;
      simpl; now rewrite Hpem, Hkey].
  destruct (files w !! path) as [content|] eqn:Hfile.
  - exists pem, signature, content, key.
    split; [reflexivity|]. split; [exact Hkey|]. split; [reflexivity|].
    split; [reflexivity|].
    rewrite (verify_file_signature_run w path pem signature content key
               Hpem Hkey Hsig Hfile) in Hpass.
    now destruct (rsa_verify key signature (sha512_digest content) pss_sha512
                             SHA512).
  - revert Hpass.
    unfold verify_file_signature, load_public, hazmat_file, bind, open_read,
      os_path_exists.
    simpl. rewrite Hpem, Hkey. simpl. rewrite Hsig. simpl. rewrite Hsig. simpl.
    now rewrite Hfile.
Qed.

Lemma valid_file_accepted (w : World) (path : string) :
  existsb (fun ext => endswith path ext) (hashes_extensions SECURITY_CONFIG)
  = true ->
  valid_file w path ->
  result (verify_file path w) = Ok true.
Proof.
  intros Hext (text & content & pem & signature & saved & key
               & Htext & Hjson & Hfile & Hall & Hpem & Hkey & Hsig & Hok).
  rewrite (verify_file_blocks w path _ _ Hext
             (verify_file_hashes_match w path text content saved
                Htext Hjson Hfile Hall)).
  now rewrite (verify_file_signature_valid w path pem signature content key
                 Hpem Hkey Hsig Hfile Hok).
Qed.

Lemma accepted_valid_file (w : World) (path : string) :
  existsb (fun ext => endswith path ext) (hashes_extensions SECURITY_CONFIG)
  = true ->
  result (verify_file path w) = Ok true ->
  valid_file w path.
Proof.
  intros Hext Htrue.
  pose proof (proj1 (verify_file_hashes_quiet path) w) as Hro.
  pose proof (verify_file_hashes_returns path w) as Hret.
  pose proof (verify_file_hashes_passed w path) as Hinv.
  destruct (verify_file_hashes path w) as [[r1 w1] l1] eqn:Hrun.
  unfold world_after in Hro. simpl in Hro. subst w1.
  rewrite (verify_file_blocks w path r1 l1 Hext Hrun) in Htrue.
  destruct r1 as [[v|]|e].
  - specialize (Hret (Some v) eq_refl v eq_refl). subst v. discriminate.
  - destruct (Hinv eq_refl) as (text & content & saved
                                & Htext & Hjson & Hfile & Hall).
    pose proof (verify_file_signature_returns path w) as Hret2.
    pose proof (verify_file_signature_passed w path) as Hinv2.
    destruct (verify_file_signature path w) as [[r2 w2] l2].
    destruct r2 as [[v|]|e].
    + specialize (Hret2 (Some v) eq_refl v eq_refl). subst v. discriminate.
    + destruct (Hinv2 eq_refl) as (pem & signature & content' & key
                                   & Hpem & Hkey & Hsig & Hfile' & Hok).
      assert (content' = content) by congruence. subst content'.
      now exists text, content, pem, signature, saved, key.
    + discriminate.
  - discriminate.
Qed.

(** X7.  [verify_file] answers [True] exactly for the files it is meant to
    accept.  It returns [True] if and only if the extension of the path is
    not in the list of extensions (the file is then not looked at), or the
    file is valid: its saved hashes load and equal the current digests
    for both algorithms, the public key loads, and the signature file
    holds a signature that the key accepts for the raw SHA-512 digest of
    the content.  In every other case, errors included, the answer is
    [False]. *)
Theorem verify_file_true_iff_valid (w : World) (path : string) :
  (result (verify_file path w) = Ok true
   <-> existsb (fun ext => endswith path ext)
               (hashes_extensions SECURITY_CONFIG) = false
       \/ valid_file w path)
  /\ (result (verify_file path w) <> Ok true ->
      result (verify_file path w) = Ok false).
Proof.
  split; [split|].
  - intros Htrue.
    destruct (existsb (fun ext => endswith path ext)
                      (hashes_extensions SECURITY_CONFIG)) eqn:Hext;
      [right|now left].
    now apply accepted_valid_file.
  - destruct (existsb (fun ext => endswith path ext)
                      (hashes_extensions SECURITY_CONFIG)) eqn:Hext.
    + intros [Hno|Hvalid]; [discriminate|]. now apply valid_file_accepted.
    + intros _. unfold verify_file, try_except. now rewrite Hext.
  - intros Hnot.
    assert (Htotal : exists b, result (verify_file path w) = Ok b).
    { unfold verify_file, try_except, result.
      destruct (_ w) as [[[b|e] w1] l1]; simpl; eauto. }
    destruct Htotal as ([|] & Hb); [contradiction|exact Hb].
Qed.
End Security_soundness.

Section Security_errors.
Context `{Backend}.
Import manage_security.

Lemma compare_hashes_not_saved (w : World) (saved : gmap string string)
    (content algorithm : string) (pre post : list string) :
  hashes_algorithms SECURITY_CONFIG = pre ++ algorithm :: post ->
  (forall a, In a pre -> saved !! a = Some (hexdigest a content)) ->
  saved !! algorithm = None ->
  compare_hashes saved (digests content) w
  = (Ok (Some false), w,
     [Stdout ("Hash " +:+ algorithm +:+ " não encontrado.")]).
Proof.
  intros Hsplit Hpre Hsaved.
  unfold compare_hashes. rewrite Hsplit.
  assert (Hpre_in : forall a, In a pre ->
                              In a (hashes_algorithms SECURITY_CONFIG)).
  { intros a Ha. rewrite Hsplit. apply in_or_app. now left. }
  clear Hsplit. induction pre as [|a pre IH].
  - simpl. unfold bind. now rewrite Hsaved.
  - simpl. unfold bind at 1.
    rewrite (Hpre a (or_introl eq_refl)).
    rewrite (digests_lookup content a (Hpre_in a (or_introl eq_refl))).
    rewrite String.eqb_refl. simpl.
    rewrite IH; [reflexivity | |].
    + intros b Hb. apply Hpre. now right.
    + intros b Hb. apply Hpre_in. now right.
Qed.

(** X8.  A saved-hashes file that lacks an algorithm is not an error of
    the program but a verdict.  For a listed file whose saved hashes load,
    at the first algorithm of the configuration that has no entry in them
    (the earlier ones matching), [verify_file] prints that this hash was
    not found and returns [False]; the later algorithms are not compared
    and no signature is checked. *)
Theorem verify_file_hash_not_saved (w : World)
    (path text content algorithm : string) (saved : gmap string string)
    (pre post : list string) :
  existsb (fun ext => endswith path ext) (hashes_extensions SECURITY_CONFIG)
  = true ->
  files w !! hash_path path = Some text ->
  json_load text = Some saved ->
  files w !! path = Some content ->
  hashes_algorithms SECURITY_CONFIG = pre ++ algorithm :: post ->
  (forall a, In a pre -> saved !! a = Some (hexdigest a content)) ->
  saved !! algorithm = None ->
  verify_file path w
  = (Ok false, w,
     [Stdout (nl +:+ "Verificando arquivo: " +:+ path);
      HashlibNew "sha256"; HashlibNew "sha512";
      Stdout ("Hash " +:+ algorithm +:+ " não encontrado.")]).
Proof.
  intros Hext Htext Hjson Hfile Hsplit Hpre Hsaved.
  apply (verify_file_blocks w path (Ok (Some false))
           [HashlibNew "sha256"; HashlibNew "sha512";
            Stdout ("Hash " +:+ algorithm +:+ " não encontrado.")] Hext).
  rewrite (verify_file_hashes_present w path text content saved
             Htext Hjson Hfile).
  unfold bind at 1. unfold bind at 1. unfold emit at 1 2.
  now rewrite (compare_hashes_not_saved w saved content algorithm pre post
                 Hsplit Hpre Hsaved).
Qed.


End Security_errors.

(** ** Runs that end *)

Section Ends.

Lemma ends_ret {A} (P : A -> Prop) (a : A) : P a -> ends P (ret a).
Proof. intros Ha w. now exists a. Qed.

Lemma ends_emit (P : unit -> Prop) (e : event) : P tt -> ends P (emit e).
Proof. intros Ha w. now exists tt. Qed.

Lemma ends_external (name : string) : ends (fun _ => True) (external name).
Proof. intros w. now eexists. Qed.

Lemma ends_exists (path : string) : ends (fun _ => True) (os_path_exists path).
Proof. intros w. now eexists. Qed.

Lemma ends_bind {A B} (Q : A -> Prop) (P : B -> Prop)
    (m : M A) (k : A -> M B) :
  ends Q m -> (forall a, Q a -> ends P (k a)) -> ends P (bind m k).
Proof.
  intros Hm Hk w. unfold bind, result. destruct (Hm w) as (a & Ha & Hq).
  unfold result in Ha.
  destruct (m w) as [[r w1] l1]. simpl in Ha. subst r.
  destruct (Hk a Hq w1) as (b & Hb & Hp). unfold result in Hb.
  destruct (k a w1) as [[r w2] l2]. simpl in *. now exists b.
Qed.

Lemma ends_try {A} (P : A -> Prop) (m : M A) (h : exn -> M A) :
  returns P m -> (forall e, ends P (h e)) -> ends P (try_except m h).
Proof.
  intros Hm Hh w. unfold try_except, result. specialize (Hm w).
  unfold result in Hm.
  destruct (m w) as [[[a|e] w1] l1]; simpl in *; [now exists a; auto|].
  destruct (Hh e w1) as (b & Hb & Hp). unfold result in Hb.
  destruct (h e w1) as [[r w2] l2]. simpl in *. now exists b.
Qed.

Lemma ends_weaken {A} (P Q : A -> Prop) (m : M A) :
  (forall a, P a -> Q a) -> ends P m -> ends Q m.
Proof.
  intros Hpq Hm w. destruct (Hm w) as (a & Ha & Hp). exists a. auto.
Qed.

(** A function whose handler ends, with any value. *)
Lemma ends_caught {A} (m : M A) (h : exn -> M A) :
  (forall e, ends (fun _ => True) (h e)) ->
  ends (fun _ => True) (try_except m h).
Proof. intros Hh. apply ends_try; [apply returns_any | exact Hh]. Qed.

(** [print(...); return v] *)
Lemma ends_line {A} (P : A -> Prop) (e : event) (a : A) :
  P a -> ends P (emit e ;; ret a).
Proof. intros Ha w. now exists a. Qed.

End Ends.

(** ** The commands of [manage_security] *)

Section Security_commands.
Context `{Backend}.
Import manage_security.

Lemma generate_keys_ends : ends (fun _ => True) generate_keys.
Proof. apply ends_caught. intros e. now apply ends_line. Qed.

Lemma calculate_hashes_ends (path : string) :
  ends (fun _ => True) (calculate_hashes path).
Proof. apply ends_caught. intros e. now apply ends_line. Qed.

Lemma sign_file_ends (path : string) : ends (fun _ => True) (sign_file path).
Proof. apply ends_caught. intros e. now apply ends_line. Qed.

Lemma verify_file_ends (path : string) : ends (fun _ => True) (verify_file path).
Proof. apply ends_caught. intros e. now apply ends_line. Qed.

Lemma main_hash_ends (path : string) : ends zero_or_one (main_hash path).
Proof.
  unfold main_hash.
  apply (ends_bind (fun _ => True)); [apply calculate_hashes_ends|].
  intros hashes _. destruct (bool_decide (hashes = ∅)).
  - apply ends_ret. now right.
  - apply ends_try.
    + apply returns_bind. intros _. apply returns_bind. intros _.
      apply returns_ret. now left.
    + intros e. apply ends_line. now right.
Qed.

Lemma main_sign_ends (path : string) : ends zero_or_one (main_sign path).
Proof.
  unfold main_sign.
  apply (ends_bind (fun _ => True)); [apply sign_file_ends|].
  intros [[|c signature]|] _; try (apply ends_ret; now right).
  apply ends_try.
  - apply returns_bind. intros _. apply returns_bind. intros _.
    apply returns_ret. now left.
  - intros e. apply ends_line. now right.
Qed.

Lemma exit_of_bool_ends (m : M bool) :
  ends (fun _ => True) m ->
  ends zero_or_one (ok <- m ;; if negb ok then ret 1%Z else ret 0%Z).
Proof.
  intros Hm. apply (ends_bind (fun _ => True)); [exact Hm|].
  intros [|] _; apply ends_ret; [now left | now right].
Qed.

(** X10.  Whatever its arguments and whatever the state of the disk, a run
    of the security script ends with exit code 0 or 1: every error of the
    file system, of the key loaders, of the JSON reader and of the
    signature check is caught by a handler that prints and gives up, and
    none escapes from [main]. *)
Theorem security_main_exits_0_or_1 (argv : list string) :
  ends zero_or_one (main argv).
Proof.
  destruct argv as [|prog [|command args]];
    try (intros w; exists 1%Z; split; [reflexivity | now right]).
  unfold main.
  destruct (String.eqb command "init").
  { apply (ends_bind (fun _ => True)); [apply ends_external|].
    intros [|] _; simpl; [|apply ends_ret; now right].
    apply exit_of_bool_ends, ends_external. }
  destruct (String.eqb command "keys").
  { apply exit_of_bool_ends, generate_keys_ends. }
  destruct (existsb (String.eqb command) ["hash"; "sign"; "verify"]);
    [|apply ends_line; now right].
  destruct args as [|path args]; [apply ends_line; now right|].
  apply (ends_bind (fun _ => True)); [apply ends_exists|].
  intros [|] _; simpl; [|apply ends_line; now right].
  destruct (String.eqb command "hash"); [apply main_hash_ends|].
  destruct (String.eqb command "sign"); [apply main_sign_ends|].
  apply (ends_bind (fun _ => True)); [apply verify_file_ends|].
  intros [|] _; apply ends_ret; [now left | now right].
Qed.

End Security_commands.

(** ** What the security commands leave alone *)

Section Security_effects.
Context `{Backend}.
Import manage_security.

Lemma calculate_hashes_readonly (path : string) :
  readonly (calculate_hashes path).
Proof. unfold calculate_hashes, hashlib_file. frame. Qed.

Lemma verify_file_signature_readonly (path : string) :
  readonly (verify_file_signature path).
Proof.
  unfold verify_file_signature, load_public, hazmat_file, verify. frame.
Qed.

Lemma verify_file_readonly (path : string) : readonly (verify_file path).
Proof.
  unfold verify_file. frame.
  - apply (proj1 (verify_file_hashes_quiet path)).
  - apply verify_file_signature_readonly.
Qed.

Lemma verify_packages_readonly (packages : manage_dist.Packages) :
  readonly (manage_dist.verify_packages packages).
Proof.
  unfold manage_dist.verify_packages. frame.
  apply verify_path_readonly.
Qed.

(** X11.  Verifying is read-only in both scripts.  [calculate_hashes] and
    [verify_file] of the security script, its [verify] command, and
    [collect_packages] and [verify_packages] of the distribution script
    leave the world exactly as they found it, whatever they return: no
    file is created, changed or removed, and no randomness is drawn. *)
Theorem verifiers_are_readonly :
  (forall path, readonly (calculate_hashes path))
  /\ (forall path, readonly (verify_file path))
  /\ (forall prog path, readonly (main [prog; "verify"; path]))
  /\ readonly manage_dist.collect_packages
  /\ (forall packages, readonly (manage_dist.verify_packages packages)).
Proof.
  split; [exact calculate_hashes_readonly|].
  split; [exact verify_file_readonly|].
  split; [|split; [exact collect_packages_readonly
                  |exact verify_packages_readonly]].
  intros prog path. unfold main. simpl. unfold os_path_isfile. frame.
  apply verify_file_readonly.
Qed.

End Security_effects.

Section Security_frames.
Context `{Backend}.
Import manage_security.

Lemma keeps_fresh_entropy (q : string) : keeps q fresh_entropy.
Proof. intros w. reflexivity. Qed.

Lemma sign_file_keeps (q path : string) : keeps q (sign_file path).
Proof.
  unfold sign_file, load_private, hazmat_file, sign.
  apply keeps_try; [|intros e; apply keeps_readonly; frame].
  apply keeps_bind; [apply keeps_readonly; frame|]. intros pem.
  apply keeps_bind; [apply keeps_readonly; frame|]. intros key.
  apply keeps_bind; [apply keeps_readonly; frame|]. intros digest.
  apply keeps_bind; [|intros signature; apply keeps_readonly; frame].
  apply keeps_bind; [apply keeps_readonly; frame|]. intros _.
  destruct (rsa_sign_error key digest pss_sha512 SHA512);
    [apply keeps_readonly; frame|].
  apply keeps_bind; [apply keeps_fresh_entropy|].
  intros seed. apply keeps_readonly. frame.
Qed.

Lemma main_hash_keeps (q path : string) :
  q <> hash_path path -> keeps q (main_hash path).
Proof.
  intros Hne. unfold main_hash.
  apply keeps_bind; [apply keeps_readonly, calculate_hashes_readonly|].
  intros hashes. destruct (bool_decide (hashes = ∅));
    [apply keeps_readonly; frame|].
  apply keeps_try; [|intros e; apply keeps_readonly; frame].
  apply keeps_bind; [apply keeps_open_write; congruence|].
  intros _. apply keeps_readonly. frame.
Qed.

Lemma main_sign_keeps (q path : string) :
  q <> sig_path path -> keeps q (main_sign path).
Proof.
  intros Hne. unfold main_sign.
  apply keeps_bind; [apply sign_file_keeps|].
  intros [[|c signature]|]; try solve [apply keeps_readonly; frame].
  apply keeps_try; [|intros e; apply keeps_readonly; frame].
  apply keeps_bind; [apply keeps_open_write; congruence|].
  intros _. apply keeps_readonly. frame.
Qed.

Lemma main_file_command (prog command path : string) (w : World) :
  In command ["hash"; "sign"; "verify"] ->
  main [prog; command; path] w
  = (isfile <- os_path_isfile path ;;
     if negb isfile then eprint "Arquivo não encontrado." ;; ret 1%Z
     else if String.eqb command "hash" then main_hash path
     else if String.eqb command "sign" then main_sign path
     else ok <- verify_file path ;; if ok : bool then ret 0%Z else ret 1%Z) w.
Proof. now intros [<-|[<-|[<-|[]]]]. Qed.

Lemma sig_path_not_private (p : string) : sig_path p <> private_path.
Proof.
  rewrite sig_path_eq. intros Heq.
  apply (f_equal (String.get 9)) in Heq. vm_compute in Heq. discriminate.
Qed.

(** X12.  Each command of the security script writes its own metadata
    file and nothing else.  The [hash] command leaves every path other
    than [security/hashes/<name>.json] as it was, the [sign] command
    every path other than [security/signatures/<name>.sig], and [verify]
    every path.  In particular none of the three ever modifies the file
    it is given, nor the private or the public key. *)
Theorem commands_write_their_own_file_only (prog path : string) :
  (forall q, q <> hash_path path -> keeps q (main [prog; "hash"; path]))
  /\ (forall q, q <> sig_path path -> keeps q (main [prog; "sign"; path]))
  /\ (forall q, keeps q (main [prog; "verify"; path]))
  /\ (forall command, In command ["hash"; "sign"; "verify"] ->
        keeps path (main [prog; command; path])
        /\ keeps private_path (main [prog; command; path])
        /\ keeps public_path (main [prog; command; path])).
Proof.
  assert (Hkeeps : forall command q,
             In command ["hash"; "sign"; "verify"] ->
             (command = "hash" -> q <> hash_path path) ->
             (command = "sign" -> q <> sig_path path) ->
             keeps q (main [prog; command; path])).
  { intros command q Hin Hhash Hsign w.
    rewrite (main_file_command prog command path w Hin). revert w.
    apply keeps_bind; [apply keeps_readonly; unfold os_path_isfile; frame|].
    intros isfile. destruct (negb isfile); [apply keeps_readonly; frame|].
    destruct (String.eqb command "hash") eqn:Hc1.
    { apply main_hash_keeps, Hhash. now apply String.eqb_eq. }
    destruct (String.eqb command "sign") eqn:Hc2.
    { apply main_sign_keeps, Hsign. now apply String.eqb_eq. }
    apply keeps_readonly. frame. apply verify_file_readonly. }
  split; [|split; [|split]].
  - intros q Hq. apply Hkeeps; [simpl; auto | auto | discriminate].
  - intros q Hq. apply Hkeeps; [simpl; auto | discriminate | auto].
  - intros q. apply Hkeeps; [simpl; auto | discriminate | discriminate].
  - intros command Hin. split; [|split]; apply Hkeeps; try exact Hin; intros _.
    + apply not_eq_sym, hash_path_not_self.
    + apply not_eq_sym, sig_path_not_self.
    + apply not_eq_sym, hash_path_not_private.
    + apply not_eq_sym, sig_path_not_private.
    + apply not_eq_sym, hash_path_not_public.
    + apply not_eq_sym, sig_path_not_public.
Qed.

End Security_frames.

(** ** Keys and saved hashes *)

Section Security_keys.
Context `{Backend}.
Import manage_security.

Lemma key_paths_differ :
  private_path <> public_path
  /\ private_path <> aes_path
  /\ public_path <> aes_path.
Proof. repeat split; apply String.eqb_neq; vm_compute; reflexivity. Qed.

Lemma generate_keys_run (w : World) :
  writable w private_path = true ->
  writable w public_path = true ->
  writable w aes_path = true ->
  chmod_ok w private_path = true ->
  chmod_ok w public_path = true ->
  chmod_ok w aes_path = true ->
  generate_keys w
  = (Ok true,
     set_files (next_entropy (next_entropy w))
       (<[aes_path := token_bytes (keys_aes_size SECURITY_CONFIG / 8)
                                  (S (entropy w))]>
          (<[public_path := public_bytes (public_key_of (generated_key w))]>
             (<[private_path := private_bytes (generated_key w)]> (files w)))),
     [Stdout (nl +:+ "Gerando chaves..."); Stdout "Chaves geradas com sucesso."]).
Proof.
  intros Hprivate Hpublic Haes Hown1 Hown2 Hown3.
  unfold generate_keys, try_except, bind, open_write, os_chmod, fresh_entropy,
    print, emit, generated_key.
  simpl. rewrite Hprivate. simpl. rewrite Hown1. simpl.
  rewrite Hpublic. simpl. rewrite Hown2. simpl.
  rewrite Haes. simpl. rewrite Hown3.
  reflexivity.
Qed.

(** X13.  [generate_keys] leaves a key pair that matches.  Where the three
    key files can be written and their modes set (each [os.chmod] that
    follows a write succeeds), and the serialised keys load back (as PEM
    does), [generate_keys] returns [True] and afterwards the private key
    file loads to the key just generated and the public key file to its
    public half, whatever the two files held before: an existing pair is
    replaced without a question.  No other file changes. *)
Theorem generate_keys_writes_matching_pair (w : World) :
  (forall k, load_pem_private_key (private_bytes k) = Some k) ->
  (forall p, load_pem_public_key (public_bytes p) = Some p) ->
  writable w private_path = true ->
  writable w public_path = true ->
  writable w aes_path = true ->
  chmod_ok w private_path = true ->
  chmod_ok w public_path = true ->
  chmod_ok w aes_path = true ->
  let w' := world_after (generate_keys w) in
  result (generate_keys w) = Ok true
  /\ (files w' !! private_path) ≫= load_pem_private_key
     = Some (generated_key w)
  /\ (files w' !! public_path) ≫= load_pem_public_key
     = Some (public_key_of (generated_key w))
  /\ (forall q, q <> private_path -> q <> public_path -> q <> aes_path ->
                files w' !! q = files w !! q).
Proof.
  intros Hprivate_law Hpublic_law Hprivate Hpublic Haes Hown1 Hown2 Hown3 w'.
  destruct key_paths_differ as (Hpp & Hpa & Hua).
  subst w'.
  rewrite (generate_keys_run w Hprivate Hpublic Haes Hown1 Hown2 Hown3).
  unfold world_after, result. simpl.
  split; [reflexivity|]. split; [|split].
  - rewrite lookup_insert_ne by (apply not_eq_sym, Hpa).
    rewrite lookup_insert_ne by (apply not_eq_sym, Hpp).
    rewrite lookup_insert_eq. simpl. apply Hprivate_law.
  - rewrite lookup_insert_ne by (apply not_eq_sym, Hua).
    rewrite lookup_insert_eq. simpl. apply Hpublic_law.
  - intros q Hq1 Hq2 Hq3.
    now rewrite !lookup_insert_ne by (apply not_eq_sym; assumption).
Qed.

(** X14.  [generate_keys] is not atomic.  Where the private key file can
    be written and the public key file cannot, [generate_keys] returns
    [False], and yet the private key file already holds the new key,
    while the public key file (and the AES key) are the old ones: the
    pair on disk no longer matches. *)
Theorem generate_keys_is_not_atomic (w : World) :
  writable w private_path = true ->
  writable w public_path = false ->
  let w' := world_after (generate_keys w) in
  result (generate_keys w) = Ok false
  /\ files w' !! private_path = Some (private_bytes (generated_key w))
  /\ files w' !! public_path = files w !! public_path
  /\ files w' !! aes_path = files w !! aes_path.
Proof.
  intros Hprivate Hpublic w'.
  destruct key_paths_differ as (Hpp & Hpa & Hua).
  subst w'.
  unfold generate_keys, try_except, bind, open_write, os_chmod,
    fresh_entropy, print, eprint, emit, generated_key, world_after, result.
  simpl. rewrite Hprivate. simpl.
  destruct (chmod_ok w private_path); simpl; rewrite ?Hpublic; simpl;
    (split; [reflexivity|]; split; [|split]);
    solve [apply lookup_insert_eq | now apply lookup_insert_ne].
Qed.

(** X15.  The [hash] command is idempotent.  After a run of [hash] that
    exits with 0, a second run on the same file exits with 0 again, prints
    the same lines and leaves the world as the first run left it: the
    saved hashes are those of the file, which the command does not
    touch. *)
Theorem hash_command_is_idempotent (w : World) (prog path : string) :
  result (main [prog; "hash"; path] w) = Ok 0%Z ->
  main [prog; "hash"; path] (world_after (main [prog; "hash"; path] w))
  = (Ok 0%Z, world_after (main [prog; "hash"; path] w),
     events (main [prog; "hash"; path] w)).
Proof.
  intros Hexit.
  destruct (files w !! path) as [content|] eqn:Hfile.
  2:{ rewrite (main_missing_file w prog "hash" path) in Hexit
        by (reflexivity || exact Hfile).
      discriminate. }
  pose proof (main_hash_file w prog path content Hfile) as Hrun.
  rewrite (main_hash_run w path content Hfile) in Hrun.
  destruct (writable w (hash_path path)) eqn:Hw;
    rewrite Hrun in *; [|discriminate].
  unfold world_after, events. cbn [fst snd].
  set (w1 := set_files w _).
  assert (Hfile1 : files w1 !! path = Some content).
  { subst w1. simpl. rewrite lookup_insert_ne by apply hash_path_not_self.
    exact Hfile. }
  rewrite (main_hash_file w1 prog path content Hfile1).
  rewrite (main_hash_run w1 path content Hfile1).
  replace (writable w1 (hash_path path)) with true by (symmetry; exact Hw).
  f_equal. f_equal. subst w1. unfold set_files. simpl.
  now rewrite insert_insert_eq.
Qed.

End Security_keys.

(** ** From one script to the next *)

Section Handover.
Context `{Backend}.

Lemma lstrip_word (h rest : string) :
  h <> "" -> no_blank h = true -> lstrip (h +:+ rest) = h +:+ rest.
Proof.
  destruct h as [|c h]; [contradiction|]. intros _ Hh. simpl in Hh.
  apply andb_prop in Hh. destruct Hh as [Hc _].
  rewrite append_cons. simpl. apply negb_true_iff in Hc. now rewrite Hc.
Qed.

Lemma take_word_word (h rest : string) :
  no_blank h = true -> take_word (h +:+ " " +:+ rest) = h.
Proof.
  induction h as [|c h IH]; intros Hh.
  - now rewrite append_empty.
  - simpl in Hh. apply andb_prop in Hh. destruct Hh as [Hc Hh].
    rewrite append_cons. simpl. apply negb_true_iff in Hc. rewrite Hc.
    now rewrite IH.
Qed.

(** The first field of a digest line is the digest. *)
Lemma digest_line_first_field (package content algorithm : string) :
  hexdigest algorithm content <> "" ->
  no_blank (hexdigest algorithm content) = true ->
  take_word (lstrip (digest_line package content algorithm))
  = hexdigest algorithm content.
Proof.
  intros Hne Hnb. unfold digest_line.
  rewrite (lstrip_word _ _ Hne Hnb). now apply take_word_word.
Qed.

Lemma verify_package_world (w : World) (package content : string) :
  files w !! package = Some content ->
  writable w (package +:+ ".sha256") = true ->
  writable w (package +:+ ".sha512") = true ->
  world_after (manage_package.verify_package package w)
  = set_files w
      (<[package +:+ ".sha512" := digest_line package content "sha512"]>
         (<[package +:+ ".sha256" := digest_line package content "sha256"]>
            (files w))).
Proof.
  intros Hfile Hw256 Hw512.
  unfold manage_package.verify_package, try_except, hashlib_file, load_private.
  simpl.
  unfold bind, open_read, open_write, emit, print, eprint, ret, raise. simpl.
  change (package +:+ "." +:+ "sha256") with (package +:+ ".sha256").
  change (package +:+ "." +:+ "sha512") with (package +:+ ".sha512").
  rewrite Hfile, Hw256. simpl.
  rewrite lookup_insert_ne
    by (symmetry; apply (package_not_digest_file package "sha256")).
  rewrite Hfile. simpl. rewrite Hw512. simpl.
  match goal with
  | |- context [match ?fs !! manage_package.private_pem_path with _ => _ end] =>
      destruct (fs !! manage_package.private_pem_path) as [pem|]
  end; simpl; [|reflexivity].
  now destruct (load_pem_private_key pem).
Qed.

(** X16.  The digest files that the packaging script writes are read back
    by the distribution script.  For a readable package whose two digest
    files can be written, after [verify_package] (which fails later, at
    the signature) the loop over the algorithms of [verify_packages] finds
    both files, reads the digest as the first field of the line
    [<digest> <name>], finds it equal to the digest of the package and
    goes on to the signature check with the sha512 digest as the
    expected hash.  This needs digests that are not empty and hold no
    blank, as hexadecimal digests are. *)
Theorem packaged_digests_pass_the_hash_check (w : World)
    (package content : string) :
  files w !! package = Some content ->
  writable w (package +:+ ".sha256") = true ->
  writable w (package +:+ ".sha512") = true ->
  (forall a, In a ["sha256"; "sha512"] ->
             hexdigest a content <> ""
             /\ no_blank (hexdigest a content) = true) ->
  let w' := world_after (manage_package.verify_package package w) in
  for_state (manage_dist.verification_algorithms manage_dist.DIST_CONFIG)
            None (manage_dist.verify_hash package) w'
  = (Ok (inl (Some (hexdigest "sha512" content))), w',
     [HashlibNew "sha256"; HashlibNew "sha512"]).
Proof.
  intros Hfile Hw256 Hw512 Hhex w'.
  assert (Hw' : w' = set_files w
      (<[package +:+ ".sha512" := digest_line package content "sha512"]>
         (<[package +:+ ".sha256" := digest_line package content "sha256"]>
            (files w))))
    by (apply verify_package_world; assumption).
  assert (Hfile' : files w' !! package = Some content).
  { rewrite Hw'. simpl.
    rewrite lookup_insert_ne
      by (symmetry; apply (package_not_digest_file package "sha512")).
    rewrite lookup_insert_ne
      by (symmetry; apply (package_not_digest_file package "sha256")).
    exact Hfile. }
  assert (Hstored : forall a, In a ["sha256"; "sha512"] ->
                              stored w' package a (hexdigest a content)).
  { intros a Ha. destruct (Hhex a Ha) as [Hne Hnb].
    exists (digest_line package content a).
    split; [|split; [now apply digest_line_first_field | exact Hne]].
    rewrite Hw'. simpl. destruct Ha as [<-|[<-|[]]].
    - rewrite lookup_insert_ne
        by (intros Heq; apply append_inv_head in Heq; discriminate).
      apply lookup_insert_eq.
    - apply lookup_insert_eq. }
  clearbody w'. simpl. unfold bind.
  rewrite (verify_hash_match w' package content "sha256" None Hfile')
    by (apply Hstored; simpl; auto).
  rewrite (verify_hash_match w' package content "sha512" _ Hfile')
    by (apply Hstored; simpl; auto).
  reflexivity.
Qed.


Lemma keeps_os_chmod (q path : string) : keeps q (os_chmod path).
Proof. intros w. unfold os_chmod. now destruct (chmod_ok w path). Qed.

Lemma generate_keys_keeps (q : string) :
  q <> manage_security.private_path ->
  q <> manage_security.public_path ->
  q <> manage_security.aes_path ->
  keeps q manage_security.generate_keys.
Proof.
  intros Hq1 Hq2 Hq3. unfold manage_security.generate_keys.
  apply keeps_try; [|intros e; apply keeps_readonly; frame].
  apply keeps_bind; [apply keeps_readonly; frame|]. intros _.
  apply keeps_bind; [intros w; reflexivity|]. intros seed. cbv zeta.
  apply keeps_bind; [apply keeps_open_write; congruence|]. intros _.
  apply keeps_bind; [apply keeps_os_chmod|]. intros _.
  apply keeps_bind; [apply keeps_open_write; congruence|]. intros _.
  apply keeps_bind; [apply keeps_os_chmod|]. intros _.
  apply keeps_bind; [intros w; reflexivity|]. intros seed'.
  apply keeps_bind; [apply keeps_open_write; congruence|]. intros _.
  apply keeps_bind; [apply keeps_os_chmod|]. intros _.
  apply keeps_readonly. frame.
Qed.

Lemma other_key_paths (q : string) :
  q = manage_dist.public_pem_path \/ q = manage_package.private_pem_path ->
  q <> manage_security.private_path
  /\ q <> manage_security.public_path
  /\ q <> manage_security.aes_path.
Proof.
  intros [->| ->]; repeat split; apply String.eqb_neq; vm_compute; reflexivity.
Qed.

(** X17.  The keys that the security script generates are not the keys
    that the other two scripts read.  [generate_keys] writes
    [security/keys/rsa_private.pem] and [security/keys/rsa_public.pem];
    it leaves [security/keys/public.pem], which [verify_packages] reads,
    and [security/keys/private.pem], which [verify_package] reads, as
    they were.  So on a machine whose only keys are the generated ones no
    package passes the gate of the distribution script: for every batch
    with a package in it [verify_packages] returns [False]. *)
Theorem generated_keys_are_not_the_keys_read (w : World) :
  let w' := world_after (manage_security.generate_keys w) in
  files w' !! manage_dist.public_pem_path
  = files w !! manage_dist.public_pem_path
  /\ files w' !! manage_package.private_pem_path
     = files w !! manage_package.private_pem_path
  /\ (files w !! manage_dist.public_pem_path = None ->
      forall packages,
        paths_of packages <> [] ->
        result (manage_dist.verify_packages packages w') = Ok false).
Proof.
  intros w'.
  assert (Hpublic : files w' !! manage_dist.public_pem_path
                    = files w !! manage_dist.public_pem_path).
  { destruct (other_key_paths manage_dist.public_pem_path) as (H1 & H2 & H3);
      [now left|].
    now apply generate_keys_keeps. }
  split; [exact Hpublic|]. split.
  { destruct (other_key_paths manage_package.private_pem_path)
      as (H1 & H2 & H3); [now right|].
    now apply generate_keys_keeps. }
  intros Habs packages Hsome. rewrite <- Hpublic in Habs. clearbody w'.
  assert (Hnone : forall path, ~ passes w' path).
  { intros path Hpass. apply passes_valid_package in Hpass.
    destruct Hpass as (content & text & signature & pem & key & Hpass).
    destruct Hpass as (_ & _ & _ & _ & _ & Hpem & _). congruence. }
  destruct (paths_of packages) as [|p post] eqn:Hpaths; [contradiction|].
  now rewrite (verify_packages_stops w' packages [] p post Hpaths
                 ltac:(constructor) (Hnone p)).
Qed.
End Handover.

(** ** The commands of [manage_package] and [manage_dist] *)

Section Package_commands.
Context `{Backend}.
Import manage_package.

Variable system : string.
Variable glob_cwd : string -> list string.
Variable create_windows_installer : Files -> M (option string).
Variable create_linux_package : Files -> string -> M (option string).
Variable create_macos_package : Files -> string -> M (option string).

(** The regular files that the patterns find under the current directory. *)
Lemma collect_files_run (w : World) :
  collect_files glob_cwd w
  = (Ok (map (fun '(dir_type, patterns) =>
                (dir_type,
                 concat (map (fun pattern =>
                                filter (fun path => is_Some (files w !! path))
                                       (glob_cwd pattern))
                             patterns)))
             PACKAGE_FILES),
     w, [Stdout (nl +:+ "Coletando arquivos...")]).
Proof.
  unfold collect_files, try_except, glob_files. simpl.
  unfold bind, print, emit, ret. simpl.
  now rewrite !app_nil_r, <- !app_assoc.
Qed.

(** X18.  [verify_package] writes the two digest files of the package and
    nothing else: every other path, the package itself and the private
    key among them, is after the call as it was before, whether the call
    got as far as the signature or stopped earlier. *)
Theorem verify_package_writes_digest_files_only (package q : string) :
  q <> package +:+ ".sha256" ->
  q <> package +:+ ".sha512" ->
  keeps q (verify_package package).
Proof.
  intros Hq1 Hq2. unfold verify_package. simpl. apply keeps_try.
  2:{ intros e. apply keeps_readonly. frame. }
  apply keeps_bind; [apply keeps_readonly; frame|]. intros _.
  apply keeps_bind.
  { apply keeps_bind.
    { apply keeps_bind; [apply keeps_readonly; unfold hashlib_file; frame|].
      intros d1. apply keeps_bind; [|intros; apply keeps_readonly; frame].
      apply keeps_open_write. intros Heq. apply Hq1. symmetry. exact Heq. }
    intros s1. apply keeps_bind; [|intros; apply keeps_readonly; frame].
    apply keeps_bind; [apply keeps_readonly; unfold hashlib_file; frame|].
    intros d2. apply keeps_bind; [|intros; apply keeps_readonly; frame].
    apply keeps_open_write. intros Heq. apply Hq2. symmetry. exact Heq. }
  intros d.
  eapply keeps_bind_with;
    [| apply (signature_block_raises package (fun _ => ret true))
     | intros a []].
  apply keeps_bind; [apply keeps_readonly; frame|]. intros pem.
  apply keeps_bind; [apply keeps_readonly; unfold load_private; frame|].
  intros key. apply keeps_readonly.
  exact (readonly_raise not_subscriptable).
Qed.

(** X19.  The [create] command never succeeds.  Whatever the system, what
    globbing finds, the builders and the arguments, no run of
    [manage_package.py create ...] ends with exit code 0: the last step
    is [verify_package], which returns [False] on every package. *)
Theorem create_never_exits_0 (prog : string) (args : list string) :
  returns (fun e => e <> Exit 0)
    (main system glob_cwd create_windows_installer create_linux_package
          create_macos_package (prog :: "create" :: args)).
Proof.
  unfold main. simpl.
  destruct args as [|format args].
  { apply returns_bind. intros _. apply returns_ret. discriminate. }
  match goal with
  | |- returns _ (match ?x with _ => _ end) => destruct x as [formats|]
  end.
  2:{ apply returns_bind. intros _. apply returns_ret. discriminate. }
  destruct (negb (existsb (String.eqb format) formats)).
  { apply returns_bind. intros _. apply returns_ret. discriminate. }
  unfold main_create. apply returns_bind. intros [|entry files].
  { apply returns_ret. discriminate. }
  apply (returns_bind_with (fun built => forall e, built = inl e -> e <> Exit 0)).
  { unfold build.
    repeat match goal with
           | |- returns _ (if ?b then _ else _) => destruct b
           | |- returns _ (bind _ _) => apply returns_bind; intros ?
           | |- returns _ (ret _) =>
               apply returns_ret; intros ? [= <-] || (intros ? [=])
           end; discriminate. }
  intros [raised|[[|c package]|]] Hbuilt;
    try (apply returns_ret; discriminate).
  - apply returns_ret. now apply Hbuilt.
  - apply (returns_bind_with (fun ok => ok = false));
      [apply verify_package_returns_false|].
    intros ok ->. apply returns_ret. discriminate.
Qed.

(** X20.  The format [portable], which the configuration lists for
    windows and which [main] therefore accepts, cannot be built: on
    windows, [create portable] collects the files and then calls
    [create_windows_portable], which the module does not define.  The
    run ends with that [NameError], which no handler catches, in every
    world and whatever the files found. *)
Theorem windows_portable_is_not_defined (prog : string) (w : World) :
  item "windows" PACKAGE_FORMATS = Some ["installer"; "portable"]
  /\ main "windows" glob_cwd create_windows_installer create_linux_package
          create_macos_package [prog; "create"; "portable"] w
     = (Ok (NameError "create_windows_portable"), w,
        [Stdout (nl +:+ "Coletando arquivos...")]).
Proof.
  split; [reflexivity|].
  unfold main. simpl. unfold main_create, bind.
  rewrite collect_files_run. reflexivity.
Qed.

(** X21.  [collect_files] always answers with the three kinds bin, lib
    and share, in that order, so that the dictionary is never empty and
    the [create] command goes on to the builder even when no file was
    found; it never changes the world, and what it has collected for a
    kind is exactly the regular files that the patterns configured for
    that kind find under the current directory: no other path, and none
    of those left out. *)
Theorem collect_files_collects_files (w : World) :
  collect_files glob_cwd w
  = (Ok (map (fun '(dir_type, patterns) =>
                (dir_type, found_by glob_cwd w patterns))
             PACKAGE_FILES),
     w, [Stdout (nl +:+ "Coletando arquivos...")])
  /\ map fst PACKAGE_FILES = ["bin"; "lib"; "share"]
  /\ forall patterns path,
       In path (found_by glob_cwd w patterns)
       <-> is_Some (files w !! path)
           /\ exists pattern, In pattern patterns /\ In path (glob_cwd pattern).
Proof.
  split; [apply collect_files_run|]. split; [reflexivity|].
  intros patterns path. apply found_by_spec.
Qed.

End Package_commands.

Section Dist_commands.
Context `{Backend}.
Import manage_dist.

Lemma publish_if_ends (platform channel : string) (packages : Packages) :
  ends (fun o => forall code, o = Some code -> zero_or_one code)
       (publish_if platform channel (publish channel) packages).
Proof.
  unfold publish_if.
  destruct (String.eqb platform channel || String.eqb platform "all").
  - intros w. unfold publish, bind, emit, result. simpl.
    destruct (channel_ok w channel); simpl; eexists; split; try reflexivity.
    + discriminate.
    + intros code [= <-]. now right.
  - apply ends_ret. discriminate.
Qed.

Lemma or_else_ends {R} (P : R -> Prop) (block : M (option R)) (rest : M R) :
  ends (fun o => forall v, o = Some v -> P v) block ->
  ends P rest ->
  ends P (or_else block rest).
Proof.
  intros Hblock Hrest. unfold or_else.
  apply (ends_bind (fun o => forall v, o = Some v -> P v)); [exact Hblock|].
  intros [v|] Hv; [apply ends_ret; now apply Hv | exact Hrest].
Qed.

Lemma main_publish_ends (platform : string) :
  ends zero_or_one (main_publish platform).
Proof.
  unfold main_publish.
  apply (ends_bind (fun _ => True)).
  { apply ends_caught. intros e. now apply ends_line. }
  intros [|entry packages] _; [apply ends_ret; now right|].
  apply (ends_bind (fun _ => True)).
  { apply ends_caught. intros e. now apply ends_line. }
  intros [|] _; simpl; [|apply ends_ret; now right].
  apply or_else_ends; [apply publish_if_ends|].
  apply or_else_ends; [apply publish_if_ends|].
  apply or_else_ends; [apply publish_if_ends|].
  apply ends_ret. now left.
Qed.

(** X22.  Whatever its arguments and whatever the state of the disk and
    of the channels, a run of the distribution script ends with exit code
    0 or 1: the errors met while collecting and verifying are caught, and
    a publisher that fails answers [False]. *)
Theorem dist_main_exits_0_or_1 (argv : list string) :
  ends zero_or_one (main argv).
Proof.
  destruct argv as [|prog [|command args]];
    try (intros w; exists 1%Z; split; [reflexivity | now right]).
  unfold main.
  destruct (String.eqb command "init").
  { apply (ends_bind (fun _ => True)); [apply ends_external|].
    intros [|] _; simpl; [|apply ends_ret; now right].
    apply (ends_bind (fun _ => True)); [apply ends_external|].
    intros [|] _; apply ends_ret; [now left | now right]. }
  destruct (String.eqb command "publish"); [|apply ends_line; now right].
  destruct args as [|platform args]; [apply ends_line; now right|].
  destruct (negb _); [apply ends_line; now right|].
  apply main_publish_ends.
Qed.

End Dist_commands.

(** ** Errors met by the gate, and what makes a command succeed *)

Section Dist_errors.
Context `{Backend}.
Import manage_dist.

Lemma verify_path_blank_digest (w : World) (path text : string) :
  files w !! (path +:+ ".sha256") = Some text ->
  take_word (lstrip text) = "" ->
  verify_path path w
  = (Raise IndexError, w,
     [Stdout (nl +:+ "Verificando " +:+ basename path +:+ "...")]).
Proof.
  intros Htext Hblank.
  unfold verify_path, verify_hash, first_field. simpl.
  unfold bind, print, emit, os_path_exists, open_read. simpl.
  change (path +:+ "." +:+ "sha256") with (path +:+ ".sha256").
  rewrite Htext. simpl. rewrite Htext. simpl. now rewrite Hblank.
Qed.

(** X23.  A digest file without a digest is an error of the program, not
    a verdict.  When the [.sha256] file of the first package that does not
    pass is empty or blank, the expression [split()[0]] raises
    [IndexError] before the package is hashed; the handler of
    [verify_packages] prints the error on the standard error stream and
    the gate returns [False], the packages after it not being looked
    at. *)
Theorem blank_digest_file_is_an_error (w : World) (packages : Packages)
    (pre : list string) (path : string) (post : list string) (text : string) :
  paths_of packages = pre ++ path :: post ->
  Forall (passes w) pre ->
  files w !! (path +:+ ".sha256") = Some text ->
  take_word (lstrip text) = "" ->
  verify_packages packages w
  = (Ok false, w,
     Stdout (nl +:+ "Verificando pacotes...")
       :: report w pre
       ++ [Stdout (nl +:+ "Verificando " +:+ basename path +:+ "...");
           Stderr ("Erro ao verificar pacotes: " +:+ str IndexError)]).
Proof.
  intros Hpaths Hpre Htext Hblank.
  pose proof (verify_path_blank_digest w path text Htext Hblank) as Hrun.
  assert (Hfail : ~ passes w path).
  { unfold passes. rewrite Hrun. discriminate. }
  rewrite (verify_packages_stops w packages pre path post Hpaths Hpre Hfail).
  rewrite Hrun. unfold report. rewrite map_app, concat_app. simpl.
  rewrite Hrun. simpl. now rewrite <- app_assoc.
Qed.

End Dist_errors.

Section Security_success.
Context `{Backend}.
Import manage_security.




End Security_success.

(** ** Reading a file in chunks *)

Section Chunks.
Context `{Backend}.

Lemma substring_nothing (s : string) (n : nat) : substring n 0 s = "".
Proof.
  revert n. induction s as [|c s IH]; intros [|n]; simpl; auto.
Qed.

Lemma substring_beyond (s : string) (n : nat) :
  String.length s <= n -> substring 0 n s = s.
Proof.
  revert n. induction s as [|c s IH]; intros [|n] Hn; simpl in *;
    try reflexivity; try lia.
  rewrite IH by lia. reflexivity.
Qed.

Lemma length_substring (s : string) (n m : nat) :
  String.length (substring n m s) <= String.length s - n.
Proof.
  revert n m. induction s as [|c s IH]; intros [|n] [|m]; simpl; try lia.
  - specialize (IH 0 m). lia.
  - apply IH.
  - apply IH.
Qed.

(** The chunks read from a file, one after the other, are the file. *)
Lemma read_chunks_fuel_whole (n : nat) :
  0 < n ->
  forall (fuel : nat) (s : string),
    String.length s <= fuel ->
    fold_right String.append "" (read_chunks_fuel fuel n s) = s.
Proof.
  intros Hn. induction fuel as [|fuel IH]; intros s Hlen.
  - destruct s; [reflexivity | simpl in Hlen; lia].
  - destruct s as [|c r]; [reflexivity|].
    set (s := String c r) in *.
    change (read_chunks_fuel (S fuel) n s)
      with (substring 0 n s
              :: read_chunks_fuel fuel n
                   (substring n (String.length s - n) s)).
    cbn [fold_right]. rewrite IH.
    + destruct (Nat.le_gt_cases n (String.length s)) as [Hle|Hgt].
      * symmetry. now apply substring_cut.
      * replace (String.length s - n) with 0 by lia.
        rewrite substring_nothing, substring_beyond by lia.
        clearbody s. clear. induction s as [|a s IHs]; [reflexivity|].
        rewrite append_cons. now rewrite IHs.
    + pose proof (length_substring s n (String.length s - n)). lia.
Qed.

Lemma fold_left_update (st : hashlib_state) (chunks : list string) :
  (forall st, hashlib_update st "" = st) ->
  (forall st a b,
      hashlib_update (hashlib_update st a) b = hashlib_update st (a +:+ b)) ->
  fold_left hashlib_update chunks st
  = hashlib_update st (fold_right String.append "" chunks).
Proof.
  intros Hempty Happ. revert st.
  induction chunks as [|chunk chunks IH]; intros st; simpl.
  - now rewrite Hempty.
  - now rewrite IH, Happ.
Qed.

(** X25.  Reading in chunks of 8192 bytes loses nothing.  The loop
    [for chunk in iter(lambda: f.read(8192), b'')] that every script uses
    feeds the hash object with chunks whose concatenation is the whole
    content of the file, however long it is; so, for a hash object whose
    state only depends on the bytes fed so far (as [hashlib]'s does), the
    digest computed is the digest of the whole file fed at once. *)
Theorem chunked_digest_is_digest_of_file (algorithm content : string) :
  (forall st, hashlib_update st "" = st) ->
  (forall st a b,
      hashlib_update (hashlib_update st a) b = hashlib_update st (a +:+ b)) ->
  fold_right String.append "" (read_chunks chunk_size content) = content
  /\ hexdigest algorithm content
     = hashlib_hexdigest (hashlib_update (hashlib_new algorithm) content).
Proof.
  intros Hempty Happ.
  assert (Hwhole : fold_right String.append ""
                     (read_chunks chunk_size content) = content).
  { apply read_chunks_fuel_whole; [apply Nat.lt_0_succ | apply Nat.le_refl]. }
  split; [exact Hwhole|].
  unfold hexdigest. rewrite (fold_left_update _ _ Hempty Happ).
  now rewrite Hwhole.
Qed.

End Chunks.

(** ** The further properties on examples *)

Section More_examples.
Import Example_backend.
Import manage_security.

Lemma toy_load_private_bytes (k : private_key) :
  load_pem_private_key (private_bytes k) = Some k.
Proof.
  simpl. rewrite !append_empty. simpl. rewrite Nat.sub_0_r, substring_all.
  now destruct k.
Qed.

Lemma toy_load_public_bytes (p : public_key) :
  load_pem_public_key (public_bytes p) = Some p.
Proof.
  simpl. rewrite !append_empty. simpl. rewrite Nat.sub_0_r, substring_all.
  now destruct p.
Qed.

(** *** Distribution *)



Lemma publish_stops_at_first_failing_channel_witness :
  result (manage_dist.main ["manage_dist.py"; "publish"; "all"]
                           release_sourceforge_down)
  = Ok (exit_code (channel_ok release_sourceforge_down) "all" channels)
  /\ List.filter is_publish
       (events (manage_dist.main ["manage_dist.py"; "publish"; "all"]
                                 release_sourceforge_down))
     = called (channel_ok release_sourceforge_down) "all" channels.
Proof.
  apply (publish_stops_at_first_failing_channel release_sourceforge_down
           "manage_dist.py" "all" release_batch).
  - simpl. auto.
  - vm_compute. reflexivity.
  - repeat constructor; vm_compute; reflexivity.
Defined.

Lemma empty_release_is_published_witness :
  result (manage_dist.main ["manage_dist.py"; "publish"; "all"] (world []))
  = Ok 0%Z
  /\ List.filter is_publish
       (events (manage_dist.main ["manage_dist.py"; "publish"; "all"]
                                 (world [])))
     = [Publish "github"; Publish "sourceforge"; Publish "itch"].
Proof.
  apply (empty_release_is_published (world []) "manage_dist.py" "all").
  - reflexivity.
  - simpl. auto.
  - reflexivity.
Defined.

(** *** Security *)

Lemma rom_saved_hashes (a : string) :
  In a (manage_security.hashes_algorithms manage_security.SECURITY_CONFIG) ->
  digests "ROM image" !! a = Some (hexdigest a "ROM image").
Proof. intros [<-|[<-|[]]]; vm_compute; reflexivity. Qed.

(** A signature made with another key is refused. *)
Lemma verify_file_signature_verdict_witness :
  verify_file "game.rom" rom_forged
  = (Ok false, rom_forged,
     [Stdout (nl +:+ "Verificando arquivo: " +:+ "game.rom");
      HashlibNew "sha256"; HashlibNew "sha512";
      HazmatHash SHA512;
      RsaVerify (rsa_sign ("k2" : @private_key toy) (sha512_digest "ROM image")
                          pss_sha512 SHA512 0)
                (sha512_digest "ROM image") pss_sha512 SHA512;
      Stdout "Assinatura inválida."]).
Proof.
  apply (verify_file_signature_verdict rom_forged "game.rom"
           (json_dump (digests "ROM image")) "ROM image" "PUBLIC k1"
           (rsa_sign ("k2" : @private_key toy) (sha512_digest "ROM image")
                     pss_sha512 SHA512 0)
           (digests "ROM image") ("k1" : @public_key toy)).
  - vm_compute. reflexivity.
  - vm_compute. reflexivity.
  - exact (toy_json_load_dump _).
  - vm_compute. reflexivity.
  - exact rom_saved_hashes.
  - vm_compute. reflexivity.
  - vm_compute. reflexivity.
  - vm_compute. reflexivity.
Defined.

Lemma verify_file_key_error_first_witness :
  files rom_without_public_key !! public_path = None
  /\ verify_file "game.rom" rom_without_public_key
     = (Ok false, rom_without_public_key,
        [Stdout (nl +:+ "Verificando arquivo: " +:+ "game.rom");
         HashlibNew "sha256"; HashlibNew "sha512";
         Stderr ("Erro ao verificar arquivo: "
                 +:+ str (FileNotFoundError public_path))]).
Proof.
  assert (Habs : files rom_without_public_key !! public_path = None)
    by (vm_compute; reflexivity).
  split; [exact Habs|].
  apply (proj1 (verify_file_key_error_first rom_without_public_key "game.rom"
                  (json_dump (digests "ROM image")) "ROM image"
                  (digests "ROM image")
                  ltac:(vm_compute; reflexivity)
                  ltac:(vm_compute; reflexivity)
                  (toy_json_load_dump _)
                  ltac:(vm_compute; reflexivity)
                  rom_saved_hashes)).
  exact Habs.
Defined.

Lemma verify_file_true_iff_valid_witness :
  valid_file rom_signed "game.rom"
  /\ result (verify_file "game.rom" rom_signed) = Ok true.
Proof.
  assert (Hvalid : valid_file rom_signed "game.rom").
  { exists (json_dump (digests "ROM image")), "ROM image", "PUBLIC k1",
      (rsa_sign ("k1" : @private_key toy) (sha512_digest "ROM image")
                pss_sha512 SHA512 0),
      (digests "ROM image"), ("k1" : @public_key toy).
    split; [vm_compute; reflexivity|].
    split; [exact (toy_json_load_dump _)|].
    split; [vm_compute; reflexivity|].
    split; [exact rom_saved_hashes|].
    repeat split; vm_compute; reflexivity. }
  split; [exact Hvalid|].
  apply (proj2 (proj1 (verify_file_true_iff_valid rom_signed "game.rom"))).
  right. exact Hvalid.
Defined.

Lemma verify_file_hash_not_saved_witness :
  verify_file "game.rom" rom_half_hashed
  = (Ok false, rom_half_hashed,
     [Stdout (nl +:+ "Verificando arquivo: " +:+ "game.rom");
      HashlibNew "sha256"; HashlibNew "sha512";
      Stdout ("Hash " +:+ "sha512" +:+ " não encontrado.")]).
Proof.
  apply (verify_file_hash_not_saved rom_half_hashed "game.rom"
           (json_dump {["sha256" := hexdigest "sha256" "ROM image"]})
           "ROM image" "sha512"
           {["sha256" := hexdigest "sha256" "ROM image"]} ["sha256"] []).
  - vm_compute. reflexivity.
  - vm_compute. reflexivity.
  - exact (toy_json_load_dump _).
  - vm_compute. reflexivity.
  - reflexivity.
  - intros a [<-|[]]. vm_compute. reflexivity.
  - vm_compute. reflexivity.
Defined.


Lemma commands_write_their_own_file_only_witness :
  "game.rom" <> hash_path "game.rom"
  /\ keeps "game.rom" (main ["manage_security.py"; "hash"; "game.rom"])
  /\ "game.rom" <> sig_path "game.rom"
  /\ keeps "game.rom" (main ["manage_security.py"; "sign"; "game.rom"]).
Proof.
  assert (Hhash : "game.rom" <> hash_path "game.rom")
    by (vm_compute; discriminate).
  assert (Hsig : "game.rom" <> sig_path "game.rom")
    by (vm_compute; discriminate).
  split; [exact Hhash|]. split; [|split; [exact Hsig|]].
  - exact (proj1 (commands_write_their_own_file_only "manage_security.py"
                    "game.rom") "game.rom" Hhash).
  - exact (proj1 (proj2 (commands_write_their_own_file_only
                           "manage_security.py" "game.rom"))
                 "game.rom" Hsig).
Defined.

Lemma generate_keys_writes_matching_pair_witness :
  let w' := world_after (generate_keys rom_world) in
  result (generate_keys rom_world) = Ok true
  /\ (files w' !! private_path) ≫= load_pem_private_key
     = Some (generated_key rom_world)
  /\ (files w' !! public_path) ≫= load_pem_public_key
     = Some (public_key_of (generated_key rom_world))
  /\ (forall q, q <> private_path -> q <> public_path -> q <> aes_path ->
                files w' !! q = files rom_world !! q).
Proof.
  apply (generate_keys_writes_matching_pair rom_world).
  - exact toy_load_private_bytes.
  - exact toy_load_public_bytes.
  - reflexivity.
  - reflexivity.
  - reflexivity.
  - reflexivity.
  - reflexivity.
  - reflexivity.
Defined.

Lemma generate_keys_is_not_atomic_witness :
  let w' := world_after (generate_keys public_key_locked) in
  result (generate_keys public_key_locked) = Ok false
  /\ files w' !! private_path
     = Some (private_bytes (generated_key public_key_locked))
  /\ files w' !! public_path = files public_key_locked !! public_path
  /\ files w' !! aes_path = files public_key_locked !! aes_path.
Proof.
  apply (generate_keys_is_not_atomic public_key_locked).
  - vm_compute. reflexivity.
  - vm_compute. reflexivity.
Defined.

(** After the failed run the private key on disk is the new one and the
    public key the old one. *)
Example keys_after_failed_generation :
  (files (world_after (generate_keys public_key_locked)) !! private_path)
    ≫= load_pem_private_key
  = Some ("01" : @private_key toy)
  /\ (files (world_after (generate_keys public_key_locked)) !! public_path)
       ≫= load_pem_public_key
     = Some ("k1" : @public_key toy).
Proof. split; vm_compute; reflexivity. Qed.

(** Every key file can be written, and yet the keys are not generated:
    the mode of the private key cannot be set. *)
Example keys_of_another_owner :
  result (generate_keys private_key_of_another) = Ok false
  /\ events (generate_keys private_key_of_another)
     = [Stdout (nl +:+ "Gerando chaves...");
        Stderr "Erro ao gerar chaves: [Errno 1] Operation not permitted: 'security/keys/rsa_private.pem'"].
Proof. split; vm_compute; reflexivity. Qed.

Lemma hash_command_is_idempotent_witness :
  main ["manage_security.py"; "hash"; "game.rom"]
       (world_after (main ["manage_security.py"; "hash"; "game.rom"] rom_world))
  = (Ok 0%Z,
     world_after (main ["manage_security.py"; "hash"; "game.rom"] rom_world),
     events (main ["manage_security.py"; "hash"; "game.rom"] rom_world)).
Proof.
  apply (hash_command_is_idempotent rom_world "manage_security.py" "game.rom").
  vm_compute. reflexivity.
Defined.

(** *** From one script to the next *)

Lemma packaged_digests_pass_the_hash_check_witness :
  let w' := world_after (manage_package.verify_package
                           "package/dist/mega_emu.zip" package_world) in
  for_state (manage_dist.verification_algorithms manage_dist.DIST_CONFIG)
            None (manage_dist.verify_hash "package/dist/mega_emu.zip") w'
  = (Ok (inl (Some (hexdigest "sha512" "zip bytes"))), w',
     [HashlibNew "sha256"; HashlibNew "sha512"]).
Proof.
  apply (packaged_digests_pass_the_hash_check package_world
           "package/dist/mega_emu.zip" "zip bytes").
  - vm_compute. reflexivity.
  - reflexivity.
  - reflexivity.
  - intros a [<-|[<-|[]]]; (split; [vm_compute; discriminate
                                   |vm_compute; reflexivity]).
Defined.

Lemma generated_keys_are_not_the_keys_read_witness :
  files rom_world !! manage_dist.public_pem_path = None
  /\ result (manage_dist.verify_packages release_batch
               (world_after (generate_keys rom_world))) = Ok false.
Proof.
  assert (Habs : files rom_world !! manage_dist.public_pem_path = None)
    by (vm_compute; reflexivity).
  split; [exact Habs|].
  apply (proj2 (proj2 (generated_keys_are_not_the_keys_read rom_world)) Habs).
  vm_compute. discriminate.
Defined.

(** *** Packaging *)

Lemma verify_package_writes_digest_files_only_witness :
  "package/dist/mega_emu.zip" <> "package/dist/mega_emu.zip" +:+ ".sha256"
  /\ keeps "package/dist/mega_emu.zip"
           (manage_package.verify_package "package/dist/mega_emu.zip").
Proof.
  assert (Hne : "package/dist/mega_emu.zip"
                <> "package/dist/mega_emu.zip" +:+ ".sha256")
    by (vm_compute; discriminate).
  split; [exact Hne|].
  apply (verify_package_writes_digest_files_only
           "package/dist/mega_emu.zip" "package/dist/mega_emu.zip" Hne).
  vm_compute. discriminate.
Defined.

(** On linux, with a builder that has made the package, [create deb]
    exits with 1. *)
Lemma create_never_exits_0_witness :
  result (manage_package.main "linux" (fun _ => [])
            (fun files => built_zip files "installer") built_zip built_zip
            ["manage_package.py"; "create"; "deb"] package_world)
  = Ok (manage_package.Exit 1)
  /\ manage_package.Exit 1 <> manage_package.Exit 0.
Proof.
  assert (Hrun : result (manage_package.main "linux" (fun _ => [])
                           (fun files => built_zip files "installer")
                           built_zip built_zip
                           ["manage_package.py"; "create"; "deb"] package_world)
                 = Ok (manage_package.Exit 1))
    by (vm_compute; reflexivity).
  split; [exact Hrun|].
  exact (create_never_exits_0 "linux" (fun _ => [])
           (fun files => built_zip files "installer") built_zip built_zip
           "manage_package.py" ["deb"] package_world _ Hrun).
Defined.

(** *** Errors, successes and chunks *)

Lemma blank_digest_file_is_an_error_witness :
  manage_dist.verify_packages two_bad_batch release_blank_digest
  = (Ok false, release_blank_digest,
     Stdout (nl +:+ "Verificando pacotes...")
       :: report release_blank_digest []
       ++ [Stdout (nl +:+ "Verificando " +:+ basename "package/dist/a.zip"
                   +:+ "...");
           Stderr ("Erro ao verificar pacotes: " +:+ str IndexError)]).
Proof.
  apply (blank_digest_file_is_an_error release_blank_digest two_bad_batch
           [] "package/dist/a.zip" ["package/dist/b.zip"] (" " +:+ nl)).
  - reflexivity.
  - constructor.
  - vm_compute. reflexivity.
  - vm_compute. reflexivity.
Defined.


(** A key that cannot sign: the [sign] command exits with 1 and writes
    nothing. *)
Example sign_with_short_key :
  let w := world [("game.rom", "ROM image");
                  ("security/keys/rsa_private.pem", "PRIVATE short")] in
  main ["manage_security.py"; "sign"; "game.rom"] w
  = (Ok 1%Z, w,
     [HazmatHash SHA512;
      RsaSign (sha512_digest "ROM image") pss_sha512 SHA512;
      Stderr "Erro ao assinar arquivo: key too short"]).
Proof. vm_compute. reflexivity. Qed.

Lemma append_nil_r (s : string) : s +:+ "" = s.
Proof.
  induction s as [|c s IH]; [reflexivity|]. now rewrite append_cons, IH.
Qed.

Lemma append_assoc (a b c : string) : (a +:+ b) +:+ c = a +:+ (b +:+ c).
Proof.
  induction a as [|x a IH]; [reflexivity|]. now rewrite !append_cons, IH.
Qed.

Lemma toy_update_empty (st : hashlib_state) : hashlib_update st "" = st.
Proof. destruct st as [algorithm fed]. simpl. now rewrite append_nil_r. Qed.

Lemma toy_update_append (st : hashlib_state) (a b : string) :
  hashlib_update (hashlib_update st a) b = hashlib_update st (a +:+ b).
Proof. destruct st as [algorithm fed]. simpl. now rewrite append_assoc. Qed.

Lemma chunked_digest_is_digest_of_file_witness :
  fold_right String.append "" (read_chunks chunk_size "ROM image")
  = "ROM image"
  /\ hexdigest "sha256" "ROM image"
     = hashlib_hexdigest (hashlib_update (hashlib_new "sha256") "ROM image").
Proof.
  apply (chunked_digest_is_digest_of_file "sha256" "ROM image").
  - exact toy_update_empty.
  - exact toy_update_append.
Defined.
End More_examples.
